(** * Route planning and weather analysis: a shallow embedding

    This development embeds [src/tools/route_planning.py] and proves
    properties of its geometry, route resolution, severity classification,
    recommendation and orchestration code.

    Conventions of the embedding.
    - Python [str] values are [string]s; [str.lower] is modelled on ASCII
      letters, the other characters are left as they are.
    - The numeric fields of a weather observation are rationals [Q]: every
      finite float is a rational and the comparisons against the integer
      thresholds of the code are exact on them.
    - Coordinates and distances are real numbers [R]; the trigonometric
      functions of Python's [math] module are the ones of the real library.
    - Calls that leave the program (geocoder, directions, reverse geocoder,
      weather provider, clock) are functions of an explicit world state and
      may raise; exceptions are carried by a small state-and-error monad. *)

From Stdlib Require Import List String Ascii Bool Arith ZArith QArith Lia.
From Stdlib Require Import Reals Lra.
From Stdlib Require Import Sorted Permutation.
From Stdlib Require Floats.
Import ListNotations.

Set Implicit Arguments.

(* ================================================================= *)
(** ** Python strings *)

Module PyStr.

Definition lower_char (c : ascii) : ascii :=
  let n := nat_of_ascii c in
  if (65 <=? n)%nat && (n <=? 90)%nat then ascii_of_nat (n + 32) else c.

(** [s.lower()] *)
Fixpoint lower (s : string) : string :=
  match s with
  | EmptyString => EmptyString
  | String c t => String (lower_char c) (lower t)
  end.

(** [w in s] on strings: [w] occurs in [s] as a contiguous substring. *)
Fixpoint str_in (w s : string) : bool :=
  String.prefix w s ||
  match s with
  | EmptyString => false
  | String _ t => str_in w t
  end.

(** [x in xs] on a list of strings. *)
Definition mem (x : string) (xs : list string) : bool :=
  existsb (String.eqb x) xs.

(** [any(word in s for word in words)] *)
Definition any_in (words : list string) (s : string) : bool :=
  existsb (fun word => str_in word s) words.

(** [sep.join(xs)] *)
Definition join (sep : string) (xs : list string) : string :=
  String.concat sep xs.

End PyStr.

Import PyStr.

(** [d.get(key, default)] on a field that may be absent. *)
Definition get {A : Type} (field : option A) (default : A) : A :=
  match field with
  | Some v => v
  | None => default
  end.

(* ================================================================= *)
(** ** Weather observations and severity *)

Inductive severity : Type := low | medium | high | critical.

Definition severity_eqb (a b : severity) : bool :=
  match a, b with
  | low, low | medium, medium | high, high | critical, critical => true
  | _, _ => false
  end.

(** The dictionary returned by the weather provider, restricted to the
    keys the code reads.  A key that is absent is [None]. *)
Record weather : Type := mkWeather {
  success : bool;
  condition : option string;
  wind_speed : option Q;
  temperature : option Q
}.

Definition Qgtb (a b : Q) : bool := negb (Qle_bool a b).
Definition Qltb (a b : Q) : bool := negb (Qle_bool b a).

Definition critical_words : list string :=
  ["thunderstorm"; "tornado"; "hurricane"; "cyclone"; "severe storm"]%string.
Definition high_words : list string :=
  ["heavy rain"; "heavy snow"; "blizzard"; "hail"; "ice storm"]%string.
Definition medium_words : list string :=
  ["moderate rain"; "light snow"; "fog"; "mist"]%string.

(** [assess_weather_severity], lines 498-545: nine guards tried in order. *)
Definition assess_weather_severity (w : weather) : severity :=
  let condition := lower (get (condition w) ""%string) in
  let wind_speed := get (wind_speed w) 0%Q in
  let temp := get (temperature w) 25%Q in
  if any_in critical_words condition then critical
  else if Qgtb temp 48 || Qltb temp (-5) then critical
  else if Qgtb wind_speed 60 then critical
  else if any_in high_words condition then high
  else if Qgtb temp 43 || Qltb temp 2 then high
  else if Qgtb wind_speed 40 then high
  else if any_in medium_words condition then medium
  else if Qgtb temp 38 || Qltb temp 8 then medium
  else if Qgtb wind_speed 25 then medium
  else low.

(** The classifier as the specification words it: one disjunction per
    tier, tiers tried from the most severe down. *)
Module ClassifierSpec.

Definition critical_tier (text : string) (temp wind : Q) : bool :=
  any_in critical_words text || (Qgtb temp 48 || Qltb temp (-5)) || Qgtb wind 60.

Definition high_tier (text : string) (temp wind : Q) : bool :=
  any_in high_words text || (Qgtb temp 43 || Qltb temp 2) || Qgtb wind 40.

Definition medium_tier (text : string) (temp wind : Q) : bool :=
  any_in medium_words text || (Qgtb temp 38 || Qltb temp 8) || Qgtb wind 25.

Definition classify (text : string) (temp wind : Q) : severity :=
  if critical_tier text temp wind then critical
  else if high_tier text temp wind then high
  else if medium_tier text temp wind then medium
  else low.

End ClassifierSpec.

(** The tier conditions of the specification as propositions. *)
Definition critical_cond (text : string) (temp wind : Q) : Prop :=
  any_in critical_words text = true \/
  (48 < temp)%Q \/ (temp < -5)%Q \/ (60 < wind)%Q.

Definition high_cond (text : string) (temp wind : Q) : Prop :=
  any_in high_words text = true \/
  (43 < temp)%Q \/ (temp < 2)%Q \/ (40 < wind)%Q.

Definition medium_cond (text : string) (temp wind : Q) : Prop :=
  any_in medium_words text = true \/
  (38 < temp)%Q \/ (temp < 8)%Q \/ (25 < wind)%Q.

(* ================================================================= *)
(** ** Exceptions *)

(** A Python exception, kept as the text [str(e)] yields. *)
Definition exn : Type := string.

Inductive result (A : Type) : Type :=
| Ok (a : A)
| Raise (e : exn).

Arguments Ok {A} a.
Arguments Raise {A} e.

(* ================================================================= *)
(** ** Route recommendation *)

(** One entry of the [city_weather] list built by the orchestrator
    (lines 444-452). *)
Record city_weather : Type := mkCityWeather {
  city : string;
  cw_state : string;
  distance_km : R;
  cw_weather : weather;
  cw_severity : severity;
  cw_is_start : bool;
  cw_is_end : bool
}.

(** The two warning texts (lines 462 and 467), kept as data: the first
    embeds a formatted number. *)
Inductive warning : Type :=
| StrongWinds (city_name : string) (speed : Q)
| HeavyRain (city_name : string).

(** The dictionary [severity_counts], one counter per key. *)
Record severity_counts : Type := mkCounts {
  n_low : nat;
  n_medium : nat;
  n_high : nat;
  n_critical : nat
}.

(** [severity_counts[severity] += 1] *)
Definition incr (s : severity) (c : severity_counts) : severity_counts :=
  match s with
  | low => mkCounts (S (n_low c)) (n_medium c) (n_high c) (n_critical c)
  | medium => mkCounts (n_low c) (S (n_medium c)) (n_high c) (n_critical c)
  | high => mkCounts (n_low c) (n_medium c) (S (n_high c)) (n_critical c)
  | critical => mkCounts (n_low c) (n_medium c) (n_high c) (S (n_critical c))
  end.

Definition count_severities (cws : list city_weather) : severity_counts :=
  fold_left (fun counts c => incr (cw_severity c) counts) cws (mkCounts 0 0 0 0).

(** [[c["city"] for c in city_weather if c.get("severity") == s]] *)
Definition cities_with (s : severity) (cws : list city_weather) : list string :=
  map city (filter (fun c => severity_eqb (cw_severity c) s) cws).

(** [next(...)] on the same generator: its first element, or
    [StopIteration]. *)
Definition next (xs : list string) : result string :=
  match xs with
  | x :: _ => Ok x
  | [] => Raise "StopIteration"%string
  end.

Definition msg_no_data : string :=
  "Unable to generate recommendation - no weather data available.".

Definition msg_do_not_travel (critical_cities : list string) : string :=
  ("🚨 DO NOT TRAVEL - Critical weather conditions detected in "
   ++ join ", " critical_cities ++ ". "
   ++ "Extreme weather poses serious safety risks (severe storms, extreme temperatures, or hurricane-force winds). "
   ++ "POSTPONE TRAVEL or take alternative route.")%string.

Definition msg_not_recommended (high_cities : list string) : string :=
  ("⚠️ TRAVEL NOT RECOMMENDED - Hazardous weather in "
   ++ join ", " high_cities ++ ". "
   ++ "Heavy rain, snow, or very strong winds expected. Consider delaying travel until conditions improve.")%string.

Definition msg_caution (high_city : string) : string :=
  ("⚠️ CAUTION ADVISED - Hazardous weather expected in "
   ++ high_city ++ ". "
   ++ "Travel possible but drive carefully through this area. Monitor weather updates.")%string.

Definition msg_safe_with_caution : string :=
  ("✅ TRAVEL SAFE WITH CAUTION - Some areas may have moderate rain, fog, or winds. "
   ++ "Normal travel possible, just drive carefully and stay alert to changing conditions.")%string.

Definition msg_excellent : string :=
  ("✅ EXCELLENT CONDITIONS - Weather is favorable for travel along this route. "
   ++ "Safe journey expected. Enjoy your trip!")%string.

(** [generate_route_recommendation], lines 548-611.  The arguments
    [warnings] and [severe] are not read by the body. *)
Definition generate_route_recommendation
    (cws : list city_weather) (warnings : list warning) (severe : list string)
    : result string :=
  match cws with
  | [] => Ok msg_no_data
  | _ :: _ =>
    let counts := count_severities cws in
    let total_cities := List.length cws in
    if (0 <? n_critical counts)%nat then
      Ok (msg_do_not_travel (cities_with critical cws))
    else if (2 <=? n_high counts)%nat then
      Ok (msg_not_recommended (cities_with high cws))
    else if (n_high counts =? 1)%nat then
      match next (cities_with high cws) with
      | Ok high_city => Ok (msg_caution high_city)
      | Raise e => Raise e
      end
    else if Qle_bool (inject_Z (Z.of_nat total_cities) * (1 # 2))
                     (inject_Z (Z.of_nat (n_medium counts))) then
      Ok msg_safe_with_caution
    else
      Ok msg_excellent
  end.

(** The selection as the specification words it, over the assessments
    themselves rather than over counters. *)
Module RecommendSpec.

Definition has (s : severity) (cws : list city_weather) : list city_weather :=
  filter (fun c => severity_eqb (cw_severity c) s) cws.

Inductive verdict : Type :=
| NoData
| DoNotTravel (cities : list string)
| NotRecommended (cities : list string)
| CautionAdvised (the_city : string)
| SafeWithCaution
| Excellent.

Definition select (cws : list city_weather) : verdict :=
  match cws with
  | [] => NoData
  | _ :: _ =>
    match has critical cws, has high cws with
    | _ :: _, _ => DoNotTravel (map city (has critical cws))
    | [], _ :: _ :: _ => NotRecommended (map city (has high cws))
    | [], [h] => CautionAdvised (city h)
    | [], [] =>
      if (List.length cws <=? 2 * List.length (has medium cws))%nat
      then SafeWithCaution else Excellent
    end
  end.

Definition text (v : verdict) : string :=
  match v with
  | NoData => msg_no_data
  | DoNotTravel cs => msg_do_not_travel cs
  | NotRecommended cs => msg_not_recommended cs
  | CautionAdvised c => msg_caution c
  | SafeWithCaution => msg_safe_with_caution
  | Excellent => msg_excellent
  end.

End RecommendSpec.

(* ================================================================= *)
(** ** Geometry *)

Open Scope R_scope.

Definition Rltb (a b : R) : bool := if Rlt_dec a b then true else false.

(** [math.radians] *)
Definition radians (deg : R) : R := deg * (PI / 180).

(** [math.atan2(y, x)] *)
Definition atan2 (y x : R) : R :=
  if Rlt_dec 0 x then atan (y / x)
  else if Rlt_dec x 0 then
    (if Rle_dec 0 y then atan (y / x) + PI else atan (y / x) - PI)
  else if Rlt_dec 0 y then PI / 2
  else if Rlt_dec y 0 then - (PI / 2)
  else 0.

(** The haversine term [a] of lines 62-64. *)
Definition haversine_a (lat1 lon1 lat2 lon2 : R) : R :=
  let dlat := radians (lat2 - lat1) in
  let dlon := radians (lon2 - lon1) in
  sin (dlat / 2) ^ 2 +
  cos (radians lat1) * cos (radians lat2) * sin (dlon / 2) ^ 2.

(** [calculate_distance], lines 46-69.  [math.sqrt] is applied to [a] and
    [1 - a], which lie in [0, 1] ([haversine_a_range] below), so it cannot
    raise. *)
Definition calculate_distance (lat1 lon1 lat2 lon2 : R) : R :=
  let R_earth := 6371 in
  let a := haversine_a lat1 lon1 lat2 lon2 in
  let c := 2 * atan2 (sqrt a) (sqrt (1 - a)) in
  let distance := R_earth * c in
  distance.

(** [is_point_near_route], lines 72-111. *)
Definition is_point_near_route
    (point_lat point_lon start_lat start_lon end_lat end_lon threshold_km : R)
    : bool :=
  let dist_to_start := calculate_distance point_lat point_lon start_lat start_lon in
  let dist_to_end := calculate_distance point_lat point_lon end_lat end_lon in
  let route_length := calculate_distance start_lat start_lon end_lat end_lon in
  if Rltb dist_to_start threshold_km || Rltb dist_to_end threshold_km then true
  else
    let total_detour := dist_to_start + dist_to_end - route_length in
    Rltb total_detour threshold_km.

(** [int(x)]: truncation towards zero. *)
Definition int (x : R) : Z :=
  if Rle_dec 0 x then Int_part x else (- Int_part (- x))%Z.

(** Rounding to the nearest integer, ties to the even one. *)
Definition round_half_even (x : R) : Z :=
  let f := Int_part x in
  let r := x - IZR f in
  if Rlt_dec r (1 / 2) then f
  else if Rlt_dec (1 / 2) r then (f + 1)%Z
  else if Z.even f then f else (f + 1)%Z.

(** [round(x, 2)] *)
Definition round2 (x : R) : R := IZR (round_half_even (x * 100)) / 100.

(* ================================================================= *)
(** ** Places and the curated table *)

(** A city dictionary before its distance is attached (lines 213-218). *)
Record place : Type := mkPlace {
  p_name : string;
  p_lat : R;
  p_lon : R;
  p_state : string
}.

(** A city dictionary of the resolved route.  The keys [is_start] and
    [is_end] are read with [.get(key, False)], so an absent key is
    [false]. *)
Record route_city : Type := mkRouteCity {
  name : string;
  lat : R;
  lon : R;
  state : string;
  distance_from_start : R;
  is_start : bool;
  is_end : bool
}.

(** [MAJOR_CITIES_INDIA], lines 20-43, in insertion order. *)
Definition MAJOR_CITIES_INDIA : list place :=
  [ mkPlace "Chennai" 13.0827 80.2707 "Tamil Nadu";
    mkPlace "Trichy" 10.7905 78.7047 "Tamil Nadu";
    mkPlace "Tiruchirappalli" 10.7905 78.7047 "Tamil Nadu";
    mkPlace "Villupuram" 11.9401 79.4861 "Tamil Nadu";
    mkPlace "Perambalur" 11.2324 78.8798 "Tamil Nadu";
    mkPlace "Ariyalur" 11.1401 79.0766 "Tamil Nadu";
    mkPlace "Salem" 11.6643 78.1460 "Tamil Nadu";
    mkPlace "Coimbatore" 11.0168 76.9558 "Tamil Nadu";
    mkPlace "Madurai" 9.9252 78.1198 "Tamil Nadu";
    mkPlace "Bangalore" 12.9716 77.5946 "Karnataka";
    mkPlace "Bengaluru" 12.9716 77.5946 "Karnataka";
    mkPlace "Hosur" 12.7409 77.8253 "Tamil Nadu";
    mkPlace "Krishnagiri" 12.5186 78.2137 "Tamil Nadu";
    mkPlace "Dharmapuri" 12.1211 78.1582 "Tamil Nadu";
    mkPlace "Vellore" 12.9165 79.1325 "Tamil Nadu";
    mkPlace "Kanchipuram" 12.8342 79.7036 "Tamil Nadu";
    mkPlace "Hyderabad" 17.3850 78.4867 "Telangana";
    mkPlace "Mumbai" 19.0760 72.8777 "Maharashtra";
    mkPlace "Delhi" 28.7041 77.1025 "Delhi";
    mkPlace "Kolkata" 22.5726 88.3639 "West Bengal";
    mkPlace "Pune" 18.5204 73.8567 "Maharashtra";
    mkPlace "Ahmedabad" 23.0225 72.5714 "Gujarat" ]%string.

(** The dictionary a geocoder lookup yields. *)
Record coords : Type := mkCoords {
  g_name : string;
  g_lat : R;
  g_lon : R;
  g_state : option string
}.

(** One waypoint of the directions route (lines 153-156): either
    coordinate may be absent. *)
Record waypoint : Type := mkWaypoint {
  wp_lat : option R;
  wp_lon : option R
}.

(** The dictionary [reverse_geocode] returns (lines 360-364). *)
Record city_info : Type := mkCityInfo {
  ci_name : string;
  ci_state : string;
  ci_country : string
}.

(** What [get_weather_data] hands back: a dictionary or something else
    ([isinstance(weather, dict)], line 440). *)
Inductive weather_reply : Type :=
| NotADict
| Dict (w : weather).

(** Truth value of a number that may be [None]: [None] and [0] are
    false. *)
Definition truthy (x : option R) : bool :=
  match x with
  | Some v => if Req_dec_T v 0 then false else true
  | None => false
  end.

(** Truth value of a string: the empty string is false. *)
Definition nonempty (s : string) : bool :=
  match s with
  | EmptyString => false
  | String _ _ => true
  end.

(** [waypoints[i] for i in range(0, len(waypoints), k)], for [k > 0]:
    [countdown] elements are passed over before the next one is taken. *)
Fixpoint sample_from {A : Type} (k countdown : nat) (xs : list A) : list A :=
  match xs with
  | [] => []
  | x :: t =>
    match countdown with
    | O => x :: sample_from k (k - 1) t
    | S j => sample_from k j t
    end
  end.

Definition sample {A : Type} (k : nat) (xs : list A) : list A :=
  sample_from k 0 xs.

(** [list.sort(key=lambda x: x["distance_from_start"])]: the stable
    sort, by insertion from the right. *)
Fixpoint insert_city (c : route_city) (l : list route_city) : list route_city :=
  match l with
  | [] => [c]
  | h :: t =>
    if Rle_dec (distance_from_start c) (distance_from_start h)
    then c :: h :: t
    else h :: insert_city c t
  end.

Definition sort_by_distance (l : list route_city) : list route_city :=
  fold_right insert_city [] l.

(** The order the sort establishes. *)
Definition by_distance (a b : route_city) : Prop :=
  distance_from_start a <= distance_from_start b.

(** Cities whose distance from the start is not negative. *)
Definition measured (l : list route_city) : Prop :=
  Forall (fun c => 0 <= distance_from_start c) l.

(* ================================================================= *)
(** ** The world outside the program *)

(** A computation that reads and changes the world and either returns
    or raises. *)
Definition M (W A : Type) : Type := W -> result A * W.

Definition ret {W A : Type} (a : A) : M W A := fun w => (Ok a, w).

Definition raise {W A : Type} (e : exn) : M W A := fun w => (Raise e, w).

Definition bind {W A B : Type} (m : M W A) (k : A -> M W B) : M W B :=
  fun w =>
    match m w with
    | (Ok a, w') => k a w'
    | (Raise e, w') => (Raise e, w')
    end.

(** [try: body  except Exception as e: handler(e)] *)
Definition try_except {W A : Type} (body : M W A) (handler : exn -> M W A)
    : M W A :=
  fun w =>
    match body w with
    | (Ok a, w') => (Ok a, w')
    | (Raise e, w') => handler e w'
    end.

(** A pure computation that may raise, run inside [M]. *)
Definition lift {W A : Type} (r : result A) : M W A := fun w => (r, w).

Declare Scope monad_scope.
Delimit Scope monad_scope with monad.
Notation "x <- m ;; k" := (bind m (fun x => k))
  (at level 61, m at next level, right associativity) : monad_scope.
Notation "' p <- m ;; k" := (bind m (fun x => let p := x in k))
  (at level 61, p pattern, m at next level, right associativity) : monad_scope.

(** [for x in xs: s = body(s, x)] *)
Fixpoint for_each {W A S : Type} (xs : list A) (s : S) (body : S -> A -> M W S)
    : M W S :=
  match xs with
  | [] => ret s
  | x :: t => bind (body s x) (fun s' => for_each t s' body)
  end.

(** The calls that leave the program.  [geocode_location] and
    [get_weather_data] are imported (line 13); [get_route_from_google_maps]
    (lines 114-173) and [reverse_geocode] (lines 337-368) wrap one HTTP
    request each and are taken by what they return: the waypoints or the
    city dictionary, or [None] on every failure.  Each call may answer
    differently each time it is made.  Each is allowed to raise, which is
    more than the two wrappers, with their own [try], ever do. *)
Record collaborators (W : Type) : Type := mkCollaborators {
  geocode_location : string -> M W (option coords);
  get_route_from_google_maps : string -> string -> M W (option (list waypoint));
  reverse_geocode : R -> R -> M W (option city_info);
  get_weather_data : string -> M W weather_reply;
  datetime_now_isoformat : M W string
}.

(* ================================================================= *)
(** ** Route resolution *)

Open Scope monad_scope.

(** [range(lo, hi)] *)
Definition range (lo hi : Z) : list Z :=
  map (fun k => (lo + Z.of_nat k)%Z) (seq 0 (Z.to_nat (hi - lo))).

(** The number of interpolation points (line 299). *)
Definition num_points_for (total_distance : R) : Z :=
  Z.min 5 (Z.max 2 (int (total_distance / 100))).

(** Whether the fallback goes on to interpolate (line 297). *)
Definition wants_interpolation (route_cities : list route_city) (total_distance : R)
    : bool :=
  (List.length route_cities <? 2)%nat && Rltb 100 total_distance.

(** The point of iteration [i] (lines 302-306). *)
Definition inter_point (start_lat start_lon end_lat end_lon : R) (num_points i : Z)
    : R * R :=
  let fraction := IZR i / IZR (num_points + 1) in
  let inter_lat := start_lat + (end_lat - start_lat) * fraction in
  let inter_lon := start_lon + (end_lon - start_lon) * fraction in
  (inter_lat, inter_lon).

(** [city_name.lower() in [start_city.lower(), end_city.lower()]] *)
Definition is_endpoint_name (city_name start_city end_city : string) : bool :=
  mem (lower city_name) [lower start_city; lower end_city].

(** [any(c["name"].lower() == city_name.lower() for c in route_cities)] *)
Definition already_listed (city_name : string) (route_cities : list route_city)
    : bool :=
  existsb (fun c => String.eqb (lower (name c)) (lower city_name)) route_cities.

(** The body of the loop over the curated table (lines 277-294). *)
Definition curated_step
    (start_city end_city : string)
    (start_lat start_lon end_lat end_lon threshold_km : R)
    (route_cities : list route_city) (entry : place) : list route_city :=
  let city_name := p_name entry in
  let city_lat := p_lat entry in
  let city_lon := p_lon entry in
  if is_endpoint_name city_name start_city end_city then route_cities
  else if is_point_near_route city_lat city_lon
            start_lat start_lon end_lat end_lon threshold_km
  then
    let dist_from_start :=
      calculate_distance start_lat start_lon city_lat city_lon in
    route_cities ++
      [mkRouteCity city_name city_lat city_lon (p_state entry)
         (round2 dist_from_start) false false]
  else route_cities.

(** The loop over the curated table (line 276). *)
Definition scan_curated
    (table : list place) (start_city end_city : string)
    (start_lat start_lon end_lat end_lon threshold_km : R) : list route_city :=
  fold_left
    (curated_step start_city end_city
       start_lat start_lon end_lat end_lon threshold_km)
    table [].

Section Resolver.

Variable W : Type.
Variable env : collaborators W.

(** The body of the loop of [find_cities_from_route_waypoints]
    (lines 199-219); the state is [(cities, seen_cities)]. *)
Definition visit_waypoint (start_city end_city : string)
    (st : list place * list string) (waypoint : waypoint)
    : M W (list place * list string) :=
  let '(cities, seen_cities) := st in
  let lat := wp_lat waypoint in
  let lon := wp_lon waypoint in
  if truthy lat && truthy lon then
    match lat, lon with
    | Some lat, Some lon =>
      city_info <- reverse_geocode env lat lon ;;
      match city_info with
      | Some city_info =>
        if nonempty (ci_name city_info) then
          let city_name := ci_name city_info in
          if negb (mem (lower city_name) seen_cities)
             && negb (is_endpoint_name city_name start_city end_city)
          then ret (cities ++ [mkPlace city_name lat lon (ci_state city_info)],
                    lower city_name :: seen_cities)
          else ret st
        else ret st
      | None => ret st
      end
    | _, _ => ret st
    end
  else ret st.

(** [find_cities_from_route_waypoints], lines 176-221. *)
Definition find_cities_from_route_waypoints
    (waypoints : list waypoint) (start_city end_city : string)
    (sample_interval : nat) : M W (list place) :=
  match sample_interval with
  | O => raise "range() arg 3 must not be zero"%string
  | S _ =>
    st <- for_each (sample sample_interval waypoints) ([], [])
            (visit_waypoint start_city end_city) ;;
    ret (fst st)
  end.

(** The body of the interpolation loop (lines 302-323). *)
Definition interpolate_step
    (start_lat start_lon end_lat end_lon : R) (num_points : Z)
    (route_cities : list route_city) (i : Z) : M W (list route_city) :=
  let '(inter_lat, inter_lon) :=
    inter_point start_lat start_lon end_lat end_lon num_points i in
  try_except
    (city_info <- reverse_geocode env inter_lat inter_lon ;;
     match city_info with
     | Some city_info =>
       if negb (already_listed (ci_name city_info) route_cities) then
         let dist_from_start :=
           calculate_distance start_lat start_lon inter_lat inter_lon in
         ret (route_cities ++
                [mkRouteCity (ci_name city_info) inter_lat inter_lon
                   (ci_state city_info) (round2 dist_from_start) false false])
       else ret route_cities
     | None => ret route_cities
     end)
    (fun e => ret route_cities).

(** The fallback branch (lines 272-323). *)
Definition fallback_cities
    (start_city end_city : string)
    (start_lat start_lon end_lat end_lon threshold_km total_distance : R)
    : M W (list route_city) :=
  let route_cities :=
    scan_curated MAJOR_CITIES_INDIA start_city end_city
      start_lat start_lon end_lat end_lon threshold_km in
  if wants_interpolation route_cities total_distance then
    let num_points := num_points_for total_distance in
    for_each (range 1 (num_points + 1)) route_cities
      (interpolate_step start_lat start_lon end_lat end_lon num_points)
  else ret route_cities.

(** The primary branch (lines 260-269). *)
Definition waypoint_cities
    (waypoints : list waypoint) (start_city end_city : string)
    (start_lat start_lon : R) : M W (list route_city) :=
  route_cities <-
    find_cities_from_route_waypoints waypoints start_city end_city 10 ;;
  ret (map (fun city =>
              let dist :=
                calculate_distance start_lat start_lon (p_lat city) (p_lon city) in
              mkRouteCity (p_name city) (p_lat city) (p_lon city) (p_state city)
                (round2 dist) false false)
           route_cities).

(** The intermediate cities before the final sort (lines 253-323). *)
Definition unsorted_route_cities
    (start_city end_city : string) (threshold_km : R)
    (start_coords end_coords : coords) : M W (list route_city) :=
  let start_lat := g_lat start_coords in
  let start_lon := g_lon start_coords in
  let end_lat := g_lat end_coords in
  let end_lon := g_lon end_coords in
  let total_distance := calculate_distance start_lat start_lon end_lat end_lon in
  waypoints <- get_route_from_google_maps env start_city end_city ;;
  match waypoints with
  | Some (wp :: wps) =>
    waypoint_cities (wp :: wps) start_city end_city start_lat start_lon
  | _ =>
    fallback_cities start_city end_city
      start_lat start_lon end_lat end_lon threshold_km total_distance
  end.

(** [find_cities_along_route], lines 224-334. *)
Definition find_cities_along_route
    (start_city end_city : string) (threshold_km : R) : M W (list route_city) :=
  start_coords <- geocode_location env start_city ;;
  end_coords <- geocode_location env end_city ;;
  match start_coords, end_coords with
  | Some start_coords, Some end_coords =>
    route_cities <-
      unsorted_route_cities start_city end_city threshold_km
        start_coords end_coords ;;
    ret (sort_by_distance route_cities)
  | _, _ => ret []
  end.

End Resolver.

(* ================================================================= *)
(** ** Orchestration *)

(** The dictionary under the key [route] (lines 477-482). *)
Record route_summary : Type := mkRouteSummary {
  route_start : string;
  route_end : string;
  total_distance_km : R;
  cities_count : nat
}.

(** The dictionary of a successful analysis (lines 475-488). *)
Record report : Type := mkReport {
  route : route_summary;
  cities : list city_weather;
  weather_warnings : list warning;
  severe_conditions : list string;
  recommendation : string;
  timestamp : string
}.

(** What [get_route_weather_analysis] returns: [success] true with the
    report, or [success] false with [error]. *)
Inductive analysis : Type :=
| Success (r : report)
| Failure (error : string).

(** The list [all_cities] (lines 409-429). *)
Definition all_cities_of
    (start_coords end_coords : coords) (total_distance : R)
    (intermediate_cities : list route_city) : list route_city :=
  [mkRouteCity (g_name start_coords) (g_lat start_coords) (g_lon start_coords)
     (get (g_state start_coords) ""%string) 0 true false]
  ++ intermediate_cities
  ++ [mkRouteCity (g_name end_coords) (g_lat end_coords) (g_lon end_coords)
        (get (g_state end_coords) ""%string) (round2 total_distance) false true].

(** The three lists the weather loop fills. *)
Record batch : Type := mkBatch {
  b_city_weather : list city_weather;
  b_weather_warnings : list warning;
  b_severe_conditions : list string
}.

(** What a successful observation adds to the batch (lines 441-467). *)
Definition record_observation (b : batch) (city : route_city) (weather : weather)
    : batch :=
  let severity := assess_weather_severity weather in
  let city_data :=
    mkCityWeather (name city) (state city) (distance_from_start city)
      weather severity (is_start city) (is_end city) in
  let city_weather := b_city_weather b ++ [city_data] in
  let severe_conditions :=
    match severity with
    | high | critical =>
      b_severe_conditions b ++
        [(name city ++ ": " ++ get (condition weather) "Unknown")%string]
    | _ => b_severe_conditions b
    end in
  let weather_warnings :=
    if Qgtb (get (wind_speed weather) 0%Q) 40
    then b_weather_warnings b ++
           [StrongWinds (name city) (get (wind_speed weather) 0%Q)]
    else b_weather_warnings b in
  let condition_lower := lower (get (condition weather) ""%string) in
  let weather_warnings :=
    if str_in "heavy rain" condition_lower || str_in "thunderstorm" condition_lower
    then weather_warnings ++ [HeavyRain (name city)]
    else weather_warnings in
  mkBatch city_weather weather_warnings severe_conditions.

Section Orchestrator.

Variable W : Type.
Variable env : collaborators W.

(** The body of the weather loop (lines 437-470).  The only call that
    can raise comes before the lists are touched, so the handler resumes
    with the batch as it stood. *)
Definition fetch_city (b : batch) (city : route_city) : M W batch :=
  try_except
    (weather <- get_weather_data env (name city) ;;
     match weather with
     | Dict weather =>
       if success weather then ret (record_observation b city weather)
       else ret b
     | NotADict => ret b
     end)
    (fun e => ret b).

(** The statements inside [try] (lines 389-488). *)
Definition analysis_body (start_city end_city : string) : M W analysis :=
  start_coords <- geocode_location env start_city ;;
  end_coords <- geocode_location env end_city ;;
  match start_coords, end_coords with
  | Some start_coords, Some end_coords =>
    let total_distance :=
      calculate_distance (g_lat start_coords) (g_lon start_coords)
                         (g_lat end_coords) (g_lon end_coords) in
    intermediate_cities <- find_cities_along_route env start_city end_city 50 ;;
    let all_cities :=
      all_cities_of start_coords end_coords total_distance intermediate_cities in
    b <- for_each all_cities (mkBatch [] [] []) fetch_city ;;
    recommendation <-
      lift (generate_route_recommendation (b_city_weather b)
              (b_weather_warnings b) (b_severe_conditions b)) ;;
    now <- datetime_now_isoformat env ;;
    ret (Success
           (mkReport
              (mkRouteSummary start_city end_city (round2 total_distance)
                 (List.length all_cities))
              (b_city_weather b) (b_weather_warnings b) (b_severe_conditions b)
              recommendation now))
  | _, _ => ret (Failure "Could not geocode start or end city")
  end.

(** [get_route_weather_analysis], lines 371-495.  The argument [date] is
    not read by the body. *)
Definition get_route_weather_analysis
    (start_city end_city : string) (date : option string) : M W analysis :=
  try_except (analysis_body start_city end_city)
             (fun e => ret (Failure e)).

End Orchestrator.


(* ================================================================= *)
(** ** Observing the reverse geocoder *)

(** The same collaborators over a world that also keeps, in call order,
    the coordinates each reverse-geocoding call was made with. *)
Definition watch {W A : Type} (m : M W A) : M (W * list (R * R)) A :=
  fun wt => let '(r, w') := m (fst wt) in (r, (w', snd wt)).

Definition traced {W : Type} (env : collaborators W)
    : collaborators (W * list (R * R)) :=
  mkCollaborators
    (fun place_name => watch (geocode_location env place_name))
    (fun origin destination =>
       watch (get_route_from_google_maps env origin destination))
    (fun lat lon wt =>
       let '(r, w') := reverse_geocode env lat lon (fst wt) in
       (r, (w', snd wt ++ [(lat, lon)])))
    (fun city_name => watch (get_weather_data env city_name))
    (watch (datetime_now_isoformat env)).

(** The coordinates a run asked the reverse geocoder about. *)
Definition calls_of {W A : Type} (run : result A * (W * list (R * R)))
    : list (R * R) :=
  snd (snd run).

(** A waypoint the presence check of line 203 lets through. *)
Definition has_coordinates (wp : waypoint) : bool :=
  truthy (wp_lat wp) && truthy (wp_lon wp).


(** A weather fetch that yields no usable observation: it raised,
    returned something that is not a dictionary, or a dictionary whose
    [success] is false. *)
Definition fetch_unusable (r : result weather_reply) : bool :=
  match r with
  | Ok (Dict weather) => negb (success weather)
  | _ => true
  end.

(** The interpolation count as the specification words it: one point
    per 100 km, at least 1 and at most 5. *)
Module InterpolationSpec.

Definition num_points (total_distance : R) : Z :=
  Z.min 5 (Z.max 1 (int (total_distance / 100))).

End InterpolationSpec.

(* ================================================================= *)
(** ** Two concrete worlds *)

(** Worlds without state: every collaborator answers by its arguments
    alone and never raises. *)
Definition answer {A : Type} (a : A) : M unit A := ret a.

Definition clear_sky : weather :=
  mkWeather true (Some "Clear"%string) (Some 10%Q) (Some 25%Q).

(** A route whose directions overshoot: the start lies at (10, 10), the
    end one degree north of it, and the one waypoint of the directions
    another degree further north. *)
Module Overshoot.

Definition geocoder (place_name : string) : option coords :=
  if String.eqb place_name "Startville" then
    Some (mkCoords "Startville" 10 10 None)
  else if String.eqb place_name "Endville" then
    Some (mkCoords "Endville" 11 10 None)
  else None.

Definition world : collaborators unit :=
  mkCollaborators
    (fun place_name => answer (geocoder place_name))
    (fun origin destination => answer (Some [mkWaypoint (Some 12) (Some 10)]))
    (fun lat lon => answer (Some (mkCityInfo "Farpoint" "" "")))
    (fun city_name => answer (Dict clear_sky))
    (answer "2024-01-01T00:00:00"%string).

End Overshoot.

(** The same route with a weather provider that fails for Farpoint. *)
Module Outage.

Definition weather_provider (city_name : string) : M unit weather_reply :=
  if String.eqb city_name "Farpoint" then raise "Read timed out"%string
  else answer (Dict clear_sky).

Definition world : collaborators unit :=
  mkCollaborators
    (geocode_location Overshoot.world)
    (get_route_from_google_maps Overshoot.world)
    (reverse_geocode Overshoot.world)
    weather_provider
    (datetime_now_isoformat Overshoot.world).

End Outage.

(** A route far from the curated table with no directions: the start
    lies at (-45, 10), the end one degree south of it, and the reverse
    geocoder names every point after the end city. *)
Module Echo.

Definition geocoder (place_name : string) : option coords :=
  if String.eqb place_name "Northport" then
    Some (mkCoords "Northport" (-45) 10 None)
  else if String.eqb place_name "Southport" then
    Some (mkCoords "Southport" (-46) 10 None)
  else None.

Definition world : collaborators unit :=
  mkCollaborators
    (fun place_name => answer (geocoder place_name))
    (fun origin destination => answer None)
    (fun lat lon => answer (Some (mkCityInfo "Southport" "" "")))
    (fun city_name => answer (Dict clear_sky))
    (answer "2024-01-01T00:00:00"%string).

End Echo.

(** What the analysis returns in the [Outage] world. *)
Definition outage_report : report :=
  mkReport
    (mkRouteSummary "Startville" "Endville"
       (round2 (calculate_distance 10 10 11 10)) 3)
    [mkCityWeather "Startville" "" 0 clear_sky low true false;
     mkCityWeather "Endville" "" (round2 (calculate_distance 10 10 11 10))
       clear_sky low false true]
    [] [] msg_excellent "2024-01-01T00:00:00".

(** What the analysis returns in the [Overshoot] world. *)
Definition overshoot_report : report :=
  mkReport
    (mkRouteSummary "Startville" "Endville"
       (round2 (calculate_distance 10 10 11 10)) 3)
    [mkCityWeather "Startville" "" 0 clear_sky low true false;
     mkCityWeather "Farpoint" "" (round2 (calculate_distance 10 10 12 10))
       clear_sky low false false;
     mkCityWeather "Endville" "" (round2 (calculate_distance 10 10 11 10))
       clear_sky low false true]
    [] [] msg_excellent "2024-01-01T00:00:00".

(** No city of the list carries the start name or the end name, letter
    case apart. *)
Definition avoids_endpoints (start_city end_city : string)
    (names : list string) : Prop :=
  Forall (fun n => is_endpoint_name n start_city end_city = false) names.

(** The first interpolation point of the [Echo] route and the city
    entry made of it. *)
Definition echo_point : R * R := inter_point (-45) 10 (-46) 10 2 1.

Definition echo_city : route_city :=
  mkRouteCity "Southport" (fst echo_point) (snd echo_point) ""
    (round2 (calculate_distance (-45) 10 (fst echo_point) (snd echo_point)))
    false false.

(** Collaborators of route resolution that never raise. *)
Definition quiet {W : Type} (env : collaborators W) : Prop :=
  (forall place_name w, exists r w',
      geocode_location env place_name w = (Ok r, w'))
  /\ (forall origin destination w, exists r w',
      get_route_from_google_maps env origin destination w = (Ok r, w'))
  /\ (forall lat lon w, exists r w',
      reverse_geocode env lat lon w = (Ok r, w')).

(* ================================================================= *)
(** ** Reading the batch of the weather loop *)

(** The severities that put a city among the severe conditions
    (line 457). *)
Definition is_severe (s : severity) : bool :=
  match s with
  | high | critical => true
  | _ => false
  end.

(** The city a warning is about. *)
Definition warning_city (wn : warning) : string :=
  match wn with
  | StrongWinds c _ => c
  | HeavyRain c => c
  end.

(** The dictionary [city_data] of lines 444-452. *)
Definition assessment_of (c : route_city) (wt : weather) : city_weather :=
  mkCityWeather (name c) (state c) (distance_from_start c) wt
    (assess_weather_severity wt) (is_start c) (is_end c).

(** The text of line 458 for an assessed city. *)
Definition severe_line (cw : city_weather) : string :=
  (city cw ++ ": " ++ get (condition (cw_weather cw)) "Unknown")%string.

(** The warnings one observation gives rise to (lines 461-467). *)
Definition warnings_of (c : route_city) (wt : weather) : list warning :=
  (if Qgtb (get (wind_speed wt) 0%Q) 40
   then [StrongWinds (name c) (get (wind_speed wt) 0%Q)] else [])
  ++ (if str_in "heavy rain" (lower (get (condition wt) ""%string))
         || str_in "thunderstorm" (lower (get (condition wt) ""%string))
      then [HeavyRain (name c)] else []).

(** The batch that the observed cities, taken in order, amount to. *)
Definition batch_of (observed : list (route_city * weather)) : batch :=
  let assessments := map (fun p => assessment_of (fst p) (snd p)) observed in
  mkBatch assessments
    (flat_map (fun p => warnings_of (fst p) (snd p)) observed)
    (map severe_line (filter (fun cw => is_severe (cw_severity cw)) assessments)).

(** [l1] is [l2] with some elements left out. *)
Inductive subseq {A : Type} : list A -> list A -> Prop :=
| subseq_nil : subseq [] []
| subseq_skip x l1 l2 : subseq l1 l2 -> subseq l1 (x :: l2)
| subseq_take x l1 l2 : subseq l1 l2 -> subseq (x :: l1) (x :: l2).

(** The verdicts that advise against the trip or for caution on it. *)
Definition advises_against (v : RecommendSpec.verdict) : bool :=
  match v with
  | RecommendSpec.DoNotTravel _
  | RecommendSpec.NotRecommended _
  | RecommendSpec.CautionAdvised _ => true
  | _ => false
  end.

(** The overshooting route under a thunderstorm everywhere, and with a
    weather provider that always fails. *)
Definition storm_sky : weather :=
  mkWeather true (Some "Thunderstorm"%string) (Some 45%Q) (Some 25%Q).

Module Storm.

Definition world : collaborators unit :=
  mkCollaborators
    (geocode_location Overshoot.world)
    (get_route_from_google_maps Overshoot.world)
    (reverse_geocode Overshoot.world)
    (fun city_name => answer (Dict storm_sky))
    (datetime_now_isoformat Overshoot.world).

End Storm.

Module Blackout.

Definition world : collaborators unit :=
  mkCollaborators
    (geocode_location Overshoot.world)
    (get_route_from_google_maps Overshoot.world)
    (reverse_geocode Overshoot.world)
    (fun city_name => raise "Connection refused"%string)
    (datetime_now_isoformat Overshoot.world).

End Blackout.

Definition storm_report : report :=
  mkReport
    (mkRouteSummary "Startville" "Endville"
       (round2 (calculate_distance 10 10 11 10)) 3)
    [mkCityWeather "Startville" "" 0 storm_sky critical true false;
     mkCityWeather "Farpoint" "" (round2 (calculate_distance 10 10 12 10))
       storm_sky critical false false;
     mkCityWeather "Endville" "" (round2 (calculate_distance 10 10 11 10))
       storm_sky critical false true]
    [StrongWinds "Startville" 45%Q; HeavyRain "Startville";
     StrongWinds "Farpoint" 45%Q; HeavyRain "Farpoint";
     StrongWinds "Endville" 45%Q; HeavyRain "Endville"]
    ["Startville: Thunderstorm"; "Farpoint: Thunderstorm";
     "Endville: Thunderstorm"]%string
    (msg_do_not_travel ["Startville"; "Farpoint"; "Endville"]%string)
    "2024-01-01T00:00:00".

Definition blackout_report : report :=
  mkReport
    (mkRouteSummary "Startville" "Endville"
       (round2 (calculate_distance 10 10 11 10)) 3)
    [] [] [] msg_no_data "2024-01-01T00:00:00".

(* ================================================================= *)
(** ** Reading the resolved route *)








(** The order of the severity levels, LOW lowest. *)
Definition severity_rank (s : severity) : nat :=
  match s with
  | low => 0
  | medium => 1
  | high => 2
  | critical => 3
  end.

(* ================================================================= *)
(** ** The two HTTP wrappers *)

(** A Python value as [response.json()] yields it.  A dictionary is the
    list of its items; its keys are distinct. *)
#[local] Set Warnings "-register-all".
Inductive pyval : Type :=
| PyNone
| PyBool (b : bool)
| PyNum (q : Q)
| PyStr (s : string)
| PyList (xs : list pyval)
| PyDict (items : list (string * pyval)).

Module Py.

(** Truth value of a Python value. *)
Definition truthy (v : pyval) : bool :=
  match v with
  | PyNone => false
  | PyBool b => b
  | PyNum q => negb (Qeq_bool q 0)
  | PyStr s => nonempty s
  | PyList xs => match xs with [] => false | _ :: _ => true end
  | PyDict items => match items with [] => false | _ :: _ => true end
  end.

Fixpoint lookup (key : string) (items : list (string * pyval)) : option pyval :=
  match items with
  | [] => None
  | (k, v) :: rest => if String.eqb k key then Some v else lookup key rest
  end.

(** [v.get(key, default)]: only a dictionary has the method. *)
Definition get (v : pyval) (key : string) (default : pyval) : result pyval :=
  match v with
  | PyDict items =>
    Ok (match lookup key items with Some x => x | None => default end)
  | _ => Raise "AttributeError: object has no attribute 'get'"%string
  end.

(** [v[key]] for a string key. *)
Definition getitem (v : pyval) (key : string) : result pyval :=
  match v with
  | PyDict items =>
    match lookup key items with
    | Some x => Ok x
    | None => Raise "KeyError"%string
    end
  | _ => Raise "TypeError: indices must be integers"%string
  end.

(** [v[0]] *)
Definition first (v : pyval) : result pyval :=
  match v with
  | PyList (x :: _) => Ok x
  | PyList [] => Raise "IndexError: list index out of range"%string
  | PyStr (String c _) => Ok (PyStr (String c EmptyString))
  | PyStr EmptyString => Raise "IndexError: string index out of range"%string
  | PyDict _ => Raise "KeyError: 0"%string
  | _ => Raise "TypeError: object is not subscriptable"%string
  end.

Fixpoint chars (s : string) : list pyval :=
  match s with
  | EmptyString => []
  | String c t => PyStr (String c EmptyString) :: chars t
  end.

(** The values [for x in v] goes through. *)
Definition iter (v : pyval) : result (list pyval) :=
  match v with
  | PyList xs => Ok xs
  | PyStr s => Ok (chars s)
  | PyDict items => Ok (map (fun kv => PyStr (fst kv)) items)
  | _ => Raise "TypeError: object is not iterable"%string
  end.

(** [len(v)] *)
Definition len (v : pyval) : result nat :=
  match v with
  | PyList xs => Ok (List.length xs)
  | PyStr s => Ok (String.length s)
  | PyDict items => Ok (List.length items)
  | _ => Raise "TypeError: object has no len()"%string
  end.

(** [v == s] for a string [s]. *)
Definition eq_str (v : pyval) (s : string) : bool :=
  match v with
  | PyStr t => String.eqb t s
  | _ => false
  end.

End Py.

(** Sequencing of pure steps that may raise. *)
Definition and_then {A B : Type} (r : result A) (k : A -> result B) : result B :=
  match r with
  | Ok a => k a
  | Raise e => Raise e
  end.

(** [for x in xs: s = body(s, x)], with a body that may raise. *)
Fixpoint fold_result {A S : Type} (xs : list A) (s : S)
    (body : S -> A -> result S) : result S :=
  match xs with
  | [] => Ok s
  | x :: t => and_then (body s x) (fun s' => fold_result t s' body)
  end.

(** The object [requests.get] returns: its status code and what
    [response.json()] gives, which may raise. *)
Record response : Type := mkResponse {
  status_code : Z;
  json : result pyval
}.

(** The two requests the file makes, kept as data: the Directions request
    with its [origin], [destination] and [key] parameters (lines 131-139),
    and the reverse-geocoding URL with its [lat], [lon] and [appid]
    (lines 354-355). *)
Inductive request : Type :=
| DirectionsRequest (origin destination key : string)
| ReverseRequest (req_lat req_lon : R) (appid : string).

(** The process environment and the network. *)
Record network (W : Type) : Type := mkNetwork {
  getenv : string -> W -> option string;
  requests_get : request -> M W response
}.

(** A waypoint dictionary as lines 153-156 build it, with the values as
    the response holds them ([None] when absent). *)
Record raw_waypoint : Type := mkRawWaypoint {
  raw_lat : pyval;
  raw_lon : pyval
}.

(** The dictionary of lines 360-364 with the values as the response
    holds them. *)
Record raw_city_info : Type := mkRawCityInfo {
  raw_name : pyval;
  raw_state : pyval;
  raw_country : pyval
}.

(** The loops of lines 145-156 over the parsed response. *)
Definition route_waypoints (data : pyval) : result (list raw_waypoint) :=
  and_then (Py.getitem data "routes") (fun routes =>
  and_then (Py.first routes) (fun route =>
  and_then (Py.get route "legs" (PyList [])) (fun legs =>
  and_then (Py.iter legs) (fun legs =>
  fold_result legs []
    (fun waypoints leg =>
       and_then (Py.get leg "steps" (PyList [])) (fun steps =>
       and_then (Py.iter steps) (fun steps =>
       fold_result steps waypoints
         (fun waypoints step =>
            and_then (Py.get step "start_location" (PyDict []))
              (fun start_location =>
            and_then (Py.get start_location "lat" PyNone) (fun lat =>
            and_then (Py.get start_location "lng" PyNone) (fun lng =>
            Ok (waypoints ++ [mkRawWaypoint lat lng])))))))))))).

(** [not api_key]: the variable is unset or empty. *)
Definition no_key (api_key : option string) : bool :=
  match api_key with
  | Some k => negb (nonempty k)
  | None => true
  end.

Section Wrappers.

Variable W : Type.
Variable net : network W.

(** The statements inside [try] (lines 131-168). *)
Definition directions_body (start_city end_city api_key : string)
    : M W (option (list raw_waypoint)) :=
  response <- requests_get net (DirectionsRequest start_city end_city api_key) ;;
  if (status_code response =? 200)%Z then
    data <- lift (json response) ;;
    status <- lift (Py.get data "status" PyNone) ;;
    route_found <-
      (if Py.eq_str status "OK" then
         routes <- lift (Py.get data "routes" PyNone) ;;
         ret (Py.truthy routes)
       else ret false) ;;
    if route_found : bool then
      waypoints <- lift (route_waypoints data) ;;
      ret (Some waypoints)
    else
      status <- lift (Py.get data "status" PyNone) ;;
      error <- lift (Py.get data "error_message" PyNone) ;;
      ret None
  else ret None.

(** [get_route_from_google_maps], lines 114-173. *)
Definition get_route_from_google_maps_http (start_city end_city : string)
    : M W (option (list raw_waypoint)) :=
  fun w =>
    let api_key := getenv net "GOOGLE_API_KEY" w in
    if no_key api_key then ret None w
    else
      try_except (directions_body start_city end_city (get api_key ""%string))
                 (fun e => ret None) w.

(** The statements inside [try] (lines 354-364). *)
Definition reverse_body (lat lon : R) (api_key : string)
    : M W (option raw_city_info) :=
  response <- requests_get net (ReverseRequest lat lon api_key) ;;
  if (status_code response =? 200)%Z then
    data <- lift (json response) ;;
    some <-
      (if Py.truthy data then
         n <- lift (Py.len data) ;; ret (0 <? n)%nat
       else ret false) ;;
    if some : bool then
      head <- lift (Py.first data) ;;
      name <- lift (Py.get head "name" (PyStr "")) ;;
      head <- lift (Py.first data) ;;
      state <- lift (Py.get head "state" (PyStr "")) ;;
      head <- lift (Py.first data) ;;
      country <- lift (Py.get head "country" (PyStr "")) ;;
      ret (Some (mkRawCityInfo name state country))
    else ret None
  else ret None.

(** [reverse_geocode], lines 337-368. *)
Definition reverse_geocode_http (lat lon : R) : M W (option raw_city_info) :=
  fun w =>
    let api_key := getenv net "OPENWEATHER_API_KEY" w in
    if no_key api_key then ret None w
    else
      try_except (reverse_body lat lon (get api_key ""%string))
                 (fun e => ret None) w.

End Wrappers.

(** The parsed body of a Directions answer that found routes: each
    route is its legs, each leg its steps, each step the latitude and
    longitude of its start location. *)
Module DirectionsJson.

Definition step (location : pyval * pyval) : pyval :=
  PyDict [("start_location"%string,
           PyDict [("lat"%string, fst location); ("lng"%string, snd location)])].

Definition leg (steps : list (pyval * pyval)) : pyval :=
  PyDict [("steps"%string, PyList (map step steps))].

Definition route (legs : list (list (pyval * pyval))) : pyval :=
  PyDict [("legs"%string, PyList (map leg legs))].

Definition found (routes : list (list (list (pyval * pyval)))) : pyval :=
  PyDict [("status"%string, PyStr "OK");
          ("routes"%string, PyList (map route routes))].

End DirectionsJson.

(** A network where both keys are set and every request is answered
    with status 200: a Directions answer with two routes, and a
    reverse-geocoding answer with two places. *)
Module Online.

Definition directions_answer : pyval :=
  DirectionsJson.found
    [ [ [ (PyNum 10, PyNum 10); (PyNum 10.5, PyNum 10) ];
        [ (PyNum 11, PyNum 10) ] ];
      [ [ (PyNum 10, PyNum 10) ] ] ].

Definition places_answer : pyval :=
  PyList [ PyDict [("name"%string, PyStr "Farpoint");
                   ("country"%string, PyStr "NG")];
           PyDict [("name"%string, PyStr "Elsewhere")] ].

Definition net : network unit :=
  mkNetwork
    (fun variable w => Some "secret"%string)
    (fun req =>
       match req with
       | DirectionsRequest _ _ _ =>
         answer (mkResponse 200 (Ok directions_answer))
       | ReverseRequest _ _ _ =>
         answer (mkResponse 200 (Ok places_answer))
       end).

End Online.

(** A network of a process without API keys. *)
Module Keyless.

Definition net : network unit :=
  mkNetwork
    (fun variable w => None)
    (fun req => raise "must not be called"%string).

End Keyless.

(** The waypoint dictionary of a step's start location. *)
Definition as_waypoint (location : pyval * pyval) : raw_waypoint :=
  mkRawWaypoint (fst location) (snd location).

(** [d.get(key, "")] on the items of a dictionary. *)
Definition field_or_empty (key : string) (items : list (string * pyval)) : pyval :=
  match Py.lookup key items with
  | Some v => v
  | None => PyStr ""
  end.


(* ================================================================= *)
(** ** The geometry on Python's floats *)

(** [calculate_distance] and [is_point_near_route] once more, on the
    numbers the code computes with: Python's [float] is IEEE 754 binary64,
    rounded to nearest even, which is what the primitive [float] is.  The
    operators [-], [*], [/], [+] and [<] are the ones of the processor;
    [math.sqrt] is its correctly rounded square root; [sin], [cos], [atan2]
    and [pow] are the functions of the C library that CPython calls, taken
    as a parameter.  What CPython itself does around them ([math_1],
    [math_2] and [m_atan2] of [mathmodule.c], [float_pow] of
    [floatobject.c]) is written out: this is where [ValueError] and
    [OverflowError] are raised. *)
Module Binary64.

Import PrimFloat.
#[local] Open Scope float_scope.

Declare Scope result_scope.
Notation "x <- r ;; k" := (and_then r (fun x => k))
  (at level 61, r at next level, right associativity) : result_scope.
#[local] Open Scope result_scope.

(** The C library. *)
Record libm : Type := mkLibm {
  c_sin : float -> float;
  c_cos : float -> float;
  c_atan2 : float -> float -> float;
  c_pow : float -> float -> float
}.

Definition Py_MATH_PI : float := 0x1.921fb54442d18p+1.

Definition degToRad : float := Py_MATH_PI / 180.

(** [math.radians(x)] *)
Definition math_radians (x : float) : float := x * degToRad.

(** [math_1] with [can_overflow = 0]: a NaN result of an argument that is
    not NaN, or an infinite result of a finite argument, is a
    [ValueError]. *)
Definition math_1 (func : float -> float) (x : float) : result float :=
  let r := func x in
  if is_nan r && negb (is_nan x) then Raise "math domain error"%string
  else if is_infinity r && is_finite x then Raise "math domain error"%string
  else Ok r.

(** [math.sin], [math.cos] and [math.sqrt] *)
Definition math_sin (m : libm) : float -> result float := math_1 (c_sin m).

Definition math_cos (m : libm) : float -> result float := math_1 (c_cos m).

Definition math_sqrt : float -> result float := math_1 sqrt.

(** [copysign(x, y)] for a [y] that is not NaN. *)
Definition copysign (x y : float) : float :=
  if get_sign y then - abs x else abs x.

(** [m_atan2]: the special values are decided before the C library is
    called. *)
Definition m_atan2 (m : libm) (y x : float) : float :=
  if is_nan x || is_nan y then nan
  else if is_infinity y then
    if is_infinity x then
      if copysign 1 x =? 1 then copysign (0.25 * Py_MATH_PI) y
      else copysign (0.75 * Py_MATH_PI) y
    else copysign (0.5 * Py_MATH_PI) y
  else if is_infinity x || (y =? 0) then
    if copysign 1 x =? 1 then copysign 0 y
    else copysign Py_MATH_PI y
  else c_atan2 m y x.

(** [math_2] *)
Definition math_2 (func : float -> float -> float) (x y : float)
    : result float :=
  let r := func x y in
  if is_nan r then
    if negb (is_nan x) && negb (is_nan y)
    then Raise "math domain error"%string else Ok r
  else if is_infinity r then
    if is_finite x && is_finite y
    then Raise "math range error"%string else Ok r
  else Ok r.

(** [math.atan2(y, x)] *)
Definition math_atan2 (m : libm) : float -> float -> result float :=
  math_2 (m_atan2 m).

(** [x ** 2]: [float_pow] with the exponent [2.0].  NaN, the infinities,
    zero and one are answered without the C library; a negative base is
    negated first (the exponent is even, so the result is not negated
    back); an infinite result of [pow] is an [OverflowError]. *)
Definition float_pow_2 (m : libm) (iv : float) : result float :=
  if is_nan iv then Ok iv
  else if is_infinity iv then Ok (abs iv)
  else if iv =? 0 then Ok 0
  else
    let iv := if iv <? 0 then - iv else iv in
    if iv =? 1 then Ok 1
    else
      let ix := c_pow m iv 2 in
      if is_infinity ix
      then Raise "(34, 'Numerical result out of range')"%string
      else Ok ix.

(** [calculate_distance], lines 46-69.  The operands of [a] are evaluated
    from left to right. *)
Definition calculate_distance (m : libm) (lat1 lon1 lat2 lon2 : float)
    : result float :=
  let R := 6371 in
  let dlat := math_radians (lat2 - lat1) in
  let dlon := math_radians (lon2 - lon1) in
  sin_dlat <- math_sin m (dlat / 2) ;;
  sin_dlat_2 <- float_pow_2 m sin_dlat ;;
  cos_lat1 <- math_cos m (math_radians lat1) ;;
  cos_lat2 <- math_cos m (math_radians lat2) ;;
  sin_dlon <- math_sin m (dlon / 2) ;;
  sin_dlon_2 <- float_pow_2 m sin_dlon ;;
  let a := sin_dlat_2 + cos_lat1 * cos_lat2 * sin_dlon_2 in
  sqrt_a <- math_sqrt a ;;
  sqrt_1_a <- math_sqrt (1 - a) ;;
  angle <- math_atan2 m sqrt_a sqrt_1_a ;;
  let c := 2 * angle in
  Ok (R * c).

(** [is_point_near_route], lines 72-111: the three distances are computed
    before any test. *)
Definition is_point_near_route
    (m : libm) (point_lat point_lon start_lat start_lon end_lat end_lon
     threshold_km : float) : result bool :=
  dist_to_start <- calculate_distance m point_lat point_lon start_lat start_lon ;;
  dist_to_end <- calculate_distance m point_lat point_lon end_lat end_lon ;;
  route_length <- calculate_distance m start_lat start_lon end_lat end_lon ;;
  if (dist_to_start <? threshold_km) || (dist_to_end <? threshold_km)
  then Ok true
  else
    let total_detour := dist_to_start + dist_to_end - route_length in
    Ok (total_detour <? threshold_km).



End Binary64.
(* ================================================================= *)
(** * Properties *)

(** ** Strings and rational comparisons *)

Lemma mem_In (x : string) (xs : list string) :
  mem x xs = true <-> In x xs.
Proof.
  unfold mem. rewrite existsb_exists. split.
  - intros [y [Hy E]]. apply String.eqb_eq in E. now subst.
  - intros H. exists x. split; [assumption | apply String.eqb_refl].
Qed.

Lemma severity_eqb_eq (a b : severity) : severity_eqb a b = true <-> a = b.
Proof. destruct a, b; simpl; split; congruence. Qed.

Lemma Qgtb_lt (a b : Q) : Qgtb a b = true <-> (b < a)%Q.
Proof.
  unfold Qgtb. rewrite negb_true_iff. split; intros H.
  - apply Qnot_le_lt. intros L. apply Qle_bool_iff in L. congruence.
  - destruct (Qle_bool a b) eqn:E; [| reflexivity].
    apply Qle_bool_iff in E. exfalso. exact (Qlt_not_le _ _ H E).
Qed.

Lemma Qltb_lt (a b : Q) : Qltb a b = true <-> (a < b)%Q.
Proof. unfold Qltb. exact (Qgtb_lt b a). Qed.

Lemma prefix_app (w s : string) :
  String.prefix w s = true <-> exists post, s = (w ++ post)%string.
Proof.
  revert s. induction w as [| c w IH]; intros s.
  - split; [intros _; now exists s | intros _; now destruct s].
  - destruct s as [| d s]; simpl.
    + split; [discriminate | intros [post H]; discriminate].
    + destruct (Ascii.ascii_dec c d) as [-> | N].
      * rewrite IH. split; intros [post H]; exists post; congruence.
      * split; [discriminate | intros [post H]; congruence].
Qed.

(** [str_in] is the substring test. *)
Lemma str_in_substring (w s : string) :
  str_in w s = true <-> exists pre post, s = (pre ++ w ++ post)%string.
Proof.
  induction s as [| d s IH];
    [ change (str_in w "") with (String.prefix w "" || false)
    | change (str_in w (String d s))
        with (String.prefix w (String d s) || str_in w s) ];
    rewrite orb_true_iff.
  - split.
    + intros [H | H]; [| discriminate].
      apply prefix_app in H. destruct H as [post H].
      now exists ""%string, post.
    + intros [pre [post H]]. left. apply prefix_app.
      destruct pre; [now exists post | discriminate].
  - rewrite IH. split.
    + intros [H | [pre [post H]]].
      * apply prefix_app in H. destruct H as [post H].
        now exists ""%string, post.
      * exists (String d pre), post. simpl. now rewrite H.
    + intros [pre [post H]]. destruct pre as [| c pre].
      * left. apply prefix_app. now exists post.
      * right. exists pre, post. simpl in H. congruence.
Qed.

(* ================================================================= *)
(** ** Severity classification *)

Lemma critical_tier_cond (text : string) (temp wind : Q) :
  ClassifierSpec.critical_tier text temp wind = true <-> critical_cond text temp wind.
Proof.
  unfold ClassifierSpec.critical_tier, critical_cond.
  rewrite !orb_true_iff, !Qgtb_lt, Qltb_lt. tauto.
Qed.

Lemma high_tier_cond (text : string) (temp wind : Q) :
  ClassifierSpec.high_tier text temp wind = true <-> high_cond text temp wind.
Proof.
  unfold ClassifierSpec.high_tier, high_cond.
  rewrite !orb_true_iff, !Qgtb_lt, Qltb_lt. tauto.
Qed.

Lemma medium_tier_cond (text : string) (temp wind : Q) :
  ClassifierSpec.medium_tier text temp wind = true <-> medium_cond text temp wind.
Proof.
  unfold ClassifierSpec.medium_tier, medium_cond.
  rewrite !orb_true_iff, !Qgtb_lt, Qltb_lt. tauto.
Qed.

Lemma assess_is_classify (w : weather) :
  assess_weather_severity w =
  ClassifierSpec.classify (lower (get (condition w) ""%string))
    (get (temperature w) 25%Q) (get (wind_speed w) 0%Q).
Proof.
  unfold assess_weather_severity, ClassifierSpec.classify,
    ClassifierSpec.critical_tier, ClassifierSpec.high_tier,
    ClassifierSpec.medium_tier.
  set (text := lower _). set (temp := get (temperature w) _).
  set (wind := get (wind_speed w) _).
  destruct (any_in critical_words text); [reflexivity |].
  destruct (Qgtb temp 48 || Qltb temp (-5)); [reflexivity |].
  destruct (Qgtb wind 60); [reflexivity |]. cbn [orb].
  destruct (any_in high_words text); [reflexivity |].
  destruct (Qgtb temp 43 || Qltb temp 2); [reflexivity |].
  destruct (Qgtb wind 40); [reflexivity |]. cbn [orb].
  destruct (any_in medium_words text); [reflexivity |].
  destruct (Qgtb temp 38 || Qltb temp 8); [reflexivity |].
  destruct (Qgtb wind 25); reflexivity.
Qed.

(** C1.  The severity classifier is a total function of the observation
    and returns the first tier, tried from CRITICAL down through HIGH and
    MEDIUM, one of whose conditions holds (keyword in the lower-cased
    condition text, or a temperature bound, or the wind bound), and LOW when
    none does; a CRITICAL keyword alone gives CRITICAL. *)
Theorem assess_weather_severity_tiers (w : weather) :
  let text := lower (get (condition w) ""%string) in
  let temp := get (temperature w) 25%Q in
  let wind := get (wind_speed w) 0%Q in
  (assess_weather_severity w = critical <-> critical_cond text temp wind)
  /\ (assess_weather_severity w = high <->
      ~ critical_cond text temp wind /\ high_cond text temp wind)
  /\ (assess_weather_severity w = medium <->
      ~ critical_cond text temp wind /\ ~ high_cond text temp wind
      /\ medium_cond text temp wind)
  /\ (assess_weather_severity w = low <->
      ~ critical_cond text temp wind /\ ~ high_cond text temp wind
      /\ ~ medium_cond text temp wind)
  /\ (any_in critical_words text = true -> assess_weather_severity w = critical).
Proof.
  intros text temp wind. rewrite assess_is_classify.
  fold text temp wind. unfold ClassifierSpec.classify.
  pose proof (critical_tier_cond text temp wind) as Hc.
  pose proof (high_tier_cond text temp wind) as Hh.
  pose proof (medium_tier_cond text temp wind) as Hm.
  assert (Hk : any_in critical_words text = true -> critical_cond text temp wind)
    by (intros K; left; exact K).
  destruct (ClassifierSpec.critical_tier text temp wind);
  destruct (ClassifierSpec.high_tier text temp wind);
  destruct (ClassifierSpec.medium_tier text temp wind);
  intuition (try discriminate; try congruence).
Qed.

(** The two observations the specification gives as examples. *)
Example assess_thunderstorm :
  assess_weather_severity
    (mkWeather true (Some "Thunderstorm"%string) (Some 10%Q) (Some 25%Q)) = critical.
Proof. reflexivity. Qed.

Example assess_clear :
  assess_weather_severity
    (mkWeather true (Some "Clear"%string) (Some 15%Q) (Some 22%Q)) = low.
Proof. reflexivity. Qed.

(** The first example through the theorem: the keyword alone decides. *)
Lemma assess_weather_severity_tiers_thunderstorm :
  any_in critical_words (lower "Thunderstorm") = true
  /\ assess_weather_severity
       (mkWeather true (Some "Thunderstorm"%string) (Some 10%Q) (Some 25%Q))
     = critical.
Proof.
  split; [reflexivity |].
  destruct (assess_weather_severity_tiers
              (mkWeather true (Some "Thunderstorm"%string) (Some 10%Q)
                 (Some 25%Q))) as (_ & _ & _ & _ & H).
  apply H. reflexivity.
Defined.

(** C9.  An absent condition text is read as the empty string, an absent
    wind speed as 0 and an absent temperature as 25; an observation with
    none of the three classifies as LOW. *)
Theorem assess_weather_severity_defaults (ok : bool) (c : option string)
    (ws t : option Q) :
  assess_weather_severity (mkWeather ok None ws t) =
    assess_weather_severity (mkWeather ok (Some ""%string) ws t)
  /\ assess_weather_severity (mkWeather ok c None t) =
    assess_weather_severity (mkWeather ok c (Some 0%Q) t)
  /\ assess_weather_severity (mkWeather ok c ws None) =
    assess_weather_severity (mkWeather ok c ws (Some 25%Q))
  /\ assess_weather_severity (mkWeather ok None None None) = low.
Proof. repeat split; reflexivity. Qed.

(* ================================================================= *)
(** ** Route recommendation *)

Lemma count_severities_from (cws : list city_weather) (c0 : severity_counts) :
  fold_left (fun counts c => incr (cw_severity c) counts) cws c0 =
  mkCounts
    (n_low c0 + List.length (RecommendSpec.has low cws))
    (n_medium c0 + List.length (RecommendSpec.has medium cws))
    (n_high c0 + List.length (RecommendSpec.has high cws))
    (n_critical c0 + List.length (RecommendSpec.has critical cws)).
Proof.
  revert c0. induction cws as [| c cws IH]; intros c0; simpl.
  - destruct c0; simpl. f_equal; lia.
  - rewrite IH. unfold RecommendSpec.has in *.
    destruct (cw_severity c); simpl; f_equal; lia.
Qed.

(** The counters of the code are the numbers of assessments of each
    severity. *)
Lemma count_severities_lengths (cws : list city_weather) :
  count_severities cws =
  mkCounts (List.length (RecommendSpec.has low cws))
           (List.length (RecommendSpec.has medium cws))
           (List.length (RecommendSpec.has high cws))
           (List.length (RecommendSpec.has critical cws)).
Proof. unfold count_severities. now rewrite count_severities_from. Qed.

(** [medium >= total * 0.5] says that twice the MEDIUM count reaches the
    total. *)
Lemma half_total_le (total m : nat) :
  Qle_bool (inject_Z (Z.of_nat total) * (1 # 2)) (inject_Z (Z.of_nat m)) =
  (total <=? 2 * m)%nat.
Proof.
  destruct (Nat.leb_spec total (2 * m)) as [L | L].
  - apply Qle_bool_iff. unfold Qle. simpl. lia.
  - destruct (Qle_bool _ _) eqn:E; [| reflexivity].
    apply Qle_bool_iff in E. unfold Qle in E. simpl in E. lia.
Qed.

(** C2.  The recommendation never raises and is chosen in this order: the
    fixed no-data message on an empty list; the do-not-travel verdict naming
    every CRITICAL city if there is one; the travel-not-recommended verdict
    naming every HIGH city if there are two or more; the caution-advised
    verdict naming the one HIGH city; the safe-with-caution verdict if twice
    the MEDIUM count reaches the number of assessments; the
    excellent-conditions verdict otherwise. *)
Theorem generate_route_recommendation_selection
    (cws : list city_weather) (warnings : list warning) (severe : list string) :
  generate_route_recommendation cws warnings severe =
  Ok (RecommendSpec.text (RecommendSpec.select cws)).
Proof.
  unfold generate_route_recommendation, RecommendSpec.select.
  destruct cws as [| c0 rest]; [reflexivity |].
  set (cws := c0 :: rest).
  rewrite count_severities_lengths. cbn [n_critical n_high n_medium].
  rewrite half_total_le. unfold cities_with. fold (RecommendSpec.has critical cws).
  fold (RecommendSpec.has high cws).
  destruct (RecommendSpec.has critical cws) as [| k ks]; [| reflexivity].
  cbn [List.length Nat.ltb Nat.leb].
  destruct (RecommendSpec.has high cws) as [| h [| h' hs]];
    cbn [List.length Nat.leb Nat.eqb map next RecommendSpec.text];
    try reflexivity.
  destruct (List.length cws <=? _)%nat; reflexivity.
Qed.

(** The examples of the specification: two HIGH cities, and no data. *)
Example recommendation_two_high :
  let mk := fun n => mkCityWeather n "" 0 (mkWeather true None None None)
                       high false false in
  generate_route_recommendation [mk "Salem"; mk "Hosur"]%string [] [] =
  Ok (msg_not_recommended ["Salem"; "Hosur"]%string).
Proof. reflexivity. Qed.

Example recommendation_no_data :
  generate_route_recommendation [] [] [] = Ok msg_no_data.
Proof. reflexivity. Qed.

(* ================================================================= *)
(** ** Geometry *)

Lemma Rltb_true (a b : R) : Rltb a b = true <-> a < b.
Proof. unfold Rltb. destruct (Rlt_dec a b); split; intros; congruence || lra. Qed.

Lemma Rltb_false (a b : R) : Rltb a b = false <-> b <= a.
Proof. unfold Rltb. destruct (Rlt_dec a b); split; intros; congruence || lra. Qed.

Lemma radians_opp (x y : R) : radians (x - y) = - radians (y - x).
Proof. unfold radians. lra. Qed.

Lemma radians_minus (x y : R) : radians (x - y) = radians x - radians y.
Proof. unfold radians. lra. Qed.

Lemma sin_half_sqr (x : R) : sin (x / 2) ^ 2 = (1 - cos x) / 2.
Proof.
  replace x with (2 * (x / 2)) at 2 by lra.
  rewrite cos_2a_sin. lra.
Qed.

Lemma sin_sqr_bounds (x : R) : 0 <= sin x ^ 2 <= 1.
Proof.
  pose proof (SIN_bound x) as [L U]. split; nra.
Qed.

(** The haversine term lies in [0, 1], whatever the coordinates: both
    square roots of [calculate_distance] are defined. *)
Lemma haversine_a_range (lat1 lon1 lat2 lon2 : R) :
  0 <= haversine_a lat1 lon1 lat2 lon2 <= 1.
Proof.
  unfold haversine_a. cbv zeta.
  pose proof (sin_sqr_bounds (radians (lon2 - lon1) / 2)) as [S0 S1].
  set (s := sin (radians (lon2 - lon1) / 2) ^ 2) in *.
  rewrite sin_half_sqr, radians_minus, cos_minus.
  pose proof (cos_plus (radians lat2) (radians lat1)) as Hp.
  pose proof (cos_minus (radians lat2) (radians lat1)) as Hm.
  pose proof (COS_bound (radians lat2 + radians lat1)) as [Pl Pu].
  pose proof (COS_bound (radians lat2 - radians lat1)) as [Ml Mu].
  set (cc := cos (radians lat1) * cos (radians lat2)) in *.
  set (ss := sin (radians lat2) * sin (radians lat1)) in *.
  assert (Ecc : cos (radians lat2) * cos (radians lat1) = cc)
    by (unfold cc; ring).
  rewrite Ecc in *.
  split; nra.
Qed.

Lemma atan2_quadrant (y x : R) : 0 <= y -> 0 <= x -> 0 <= atan2 y x <= PI / 2.
Proof.
  intros Hy Hx. pose proof PI_RGT_0 as Hpi. unfold atan2.
  destruct (Rlt_dec 0 x) as [Px | Nx].
  - pose proof (atan_bound (y / x)) as [_ U].
    assert (0 <= y / x) as Q
      by (apply Rmult_le_pos; [lra | left; apply Rinv_0_lt_compat; lra]).
    destruct Q as [Q | Q].
    + apply atan_increasing in Q. rewrite atan_0 in Q. lra.
    + rewrite <- Q, atan_0. lra.
  - destruct (Rlt_dec x 0); [lra |].
    destruct (Rlt_dec 0 y); [lra |].
    destruct (Rlt_dec y 0); lra.
Qed.

(** A distance is never negative and never more than half the
    circumference. *)
Lemma calculate_distance_range (lat1 lon1 lat2 lon2 : R) :
  0 <= calculate_distance lat1 lon1 lat2 lon2 <= 6371 * PI.
Proof.
  unfold calculate_distance. cbv zeta.
  pose proof (haversine_a_range lat1 lon1 lat2 lon2) as [A0 A1].
  pose proof (atan2_quadrant (sqrt_pos (haversine_a lat1 lon1 lat2 lon2))
                (sqrt_pos (1 - haversine_a lat1 lon1 lat2 lon2))) as [L U].
  split; nra.
Qed.

Lemma haversine_a_sym (lat1 lon1 lat2 lon2 : R) :
  haversine_a lat1 lon1 lat2 lon2 = haversine_a lat2 lon2 lat1 lon1.
Proof.
  unfold haversine_a. cbv zeta.
  rewrite (radians_opp lat1 lat2), (radians_opp lon1 lon2).
  replace (- radians (lat2 - lat1) / 2) with (- (radians (lat2 - lat1) / 2)) by lra.
  replace (- radians (lon2 - lon1) / 2) with (- (radians (lon2 - lon1) / 2)) by lra.
  rewrite !sin_neg. ring.
Qed.

Lemma haversine_a_same (lat0 lon0 : R) : haversine_a lat0 lon0 lat0 lon0 = 0.
Proof.
  unfold haversine_a, radians. cbv zeta.
  replace ((lat0 - lat0) * (PI / 180) / 2) with 0 by lra.
  replace ((lon0 - lon0) * (PI / 180) / 2) with 0 by lra.
  rewrite sin_0. ring.
Qed.

Lemma calculate_distance_sym (lat1 lon1 lat2 lon2 : R) :
  calculate_distance lat1 lon1 lat2 lon2 = calculate_distance lat2 lon2 lat1 lon1.
Proof. unfold calculate_distance. now rewrite haversine_a_sym. Qed.

Lemma calculate_distance_same (lat0 lon0 : R) :
  calculate_distance lat0 lon0 lat0 lon0 = 0.
Proof.
  unfold calculate_distance. cbv zeta. rewrite haversine_a_same.
  rewrite Rminus_0_r, sqrt_0, sqrt_1. unfold atan2.
  destruct (Rlt_dec 0 1); [| lra].
  replace (0 / 1) with 0 by lra. rewrite atan_0. ring.
Qed.






(* ================================================================= *)
(** ** Rounding and truncation *)

Lemma round_half_even_close (x : R) :
  x - 1 / 2 <= IZR (round_half_even x) <= x + 1 / 2.
Proof.
  unfold round_half_even. cbv zeta.
  pose proof (base_Int_part x) as [L U].
  destruct (Rlt_dec (x - IZR (Int_part x)) (1 / 2)) as [A | A]; [lra |].
  destruct (Rlt_dec (1 / 2) (x - IZR (Int_part x))) as [B | B];
    [| destruct (Z.even (Int_part x))];
    try rewrite plus_IZR; lra.
Qed.

(** [round(x, 2)] moves [x] by at most half a hundredth. *)
Lemma round2_close (x : R) : x - 1 / 200 <= round2 x <= x + 1 / 200.
Proof.
  unfold round2.
  pose proof (round_half_even_close (x * 100)) as H. lra.
Qed.

Lemma Int_part_nonneg (x : R) : 0 <= x -> (0 <= Int_part x)%Z.
Proof.
  intros Hx. pose proof (base_Int_part x) as [_ U].
  assert (H : -1 < IZR (Int_part x)) by lra.
  apply lt_IZR in H. lia.
Qed.

Lemma round_half_even_nonneg (x : R) : 0 <= x -> (0 <= round_half_even x)%Z.
Proof.
  intros Hx. pose proof (Int_part_nonneg Hx) as H.
  unfold round_half_even. cbv zeta.
  destruct (Rlt_dec _ _); [exact H |].
  destruct (Rlt_dec _ _); [lia |].
  destruct (Z.even _); lia.
Qed.

Lemma round2_nonneg (x : R) : 0 <= x -> 0 <= round2 x.
Proof.
  intros Hx. unfold round2.
  assert (H : (0 <= round_half_even (x * 100))%Z)
    by (apply round_half_even_nonneg; lra).
  apply IZR_le in H. lra.
Qed.

(** [int] of a number between [k] and [k + 1], for [k] not negative. *)
Lemma int_between (x : R) (k : Z) :
  (0 <= k)%Z -> IZR k <= x < IZR k + 1 -> int x = k.
Proof.
  intros Hk [L U]. unfold int.
  assert (K0 : 0 <= IZR k) by (apply IZR_le in Hk; exact Hk).
  destruct (Rle_dec 0 x); [| lra].
  symmetry. apply Int_part_spec. lra.
Qed.

Lemma int_floor (x : R) : 0 <= x -> IZR (int x) <= x < IZR (int x) + 1.
Proof.
  intros Hx. unfold int. destruct (Rle_dec 0 x); [| lra].
  pose proof (base_Int_part x). lra.
Qed.

Lemma int_nonpositive (x : R) : x <= 0 -> (int x <= 0)%Z.
Proof.
  intros Hx. unfold int. destruct (Rle_dec 0 x) as [P | N].
  - assert (x = 0) by lra. subst.
    pose proof (base_Int_part 0) as [L _]. apply le_IZR. exact L.
  - assert (H : (0 <= Int_part (- x))%Z) by (apply Int_part_nonneg; lra). lia.
Qed.

(* ================================================================= *)
(** ** Distances along and across parallels *)

Lemma PI_bounds : 3 < PI <= 4.
Proof. pose proof PI2_3_2. pose proof PI_4. lra. Qed.

Lemma cos_pos_below_PI2 (t : R) : 0 <= t < PI / 2 -> 0 < cos t.
Proof. intros [L U]. apply cos_gt_0; lra. Qed.

Lemma cos_zero_at_PI2 (t : R) : 0 <= t <= PI / 2 -> cos t <= 0 -> t = PI / 2.
Proof.
  intros [L U] C. destruct (Rlt_dec t (PI / 2)) as [Lt | Ge]; [| lra].
  pose proof (@cos_pos_below_PI2 t (conj L Lt)). lra.
Qed.

Lemma atan2_lower (y x t : R) :
  0 <= t <= PI / 2 -> 0 <= x -> sin t <= y -> x <= cos t ->
  (x = 0 -> 0 < y) -> t <= atan2 y x.
Proof.
  intros [T0 T1] Hx Hs Hc Hy. pose proof PI_RGT_0 as Hpi. unfold atan2.
  destruct (Rlt_dec 0 x) as [Px | Nx].
  - assert (Ct : 0 < cos t) by lra.
    assert (Tlt : t < PI / 2).
    { destruct (Rlt_dec t (PI / 2)) as [Lt | Ge]; [exact Lt |].
      assert (t = PI / 2) by lra. subst t. rewrite cos_PI2 in Ct. lra. }
    assert (S0 : 0 <= sin t) by (apply sin_ge_0; lra).
    assert (Q : tan t <= y / x).
    { unfold tan, Rdiv.
      apply Rmult_le_compat; try lra.
      - left. apply Rinv_0_lt_compat. exact Ct.
      - apply Rinv_le_contravar; lra. }
    rewrite <- (atan_tan t) at 1 by lra.
    destruct Q as [Q | Q].
    + left. apply atan_increasing. exact Q.
    + rewrite Q. lra.
  - assert (x = 0) by lra. specialize (Hy H).
    destruct (Rlt_dec x 0); [lra |].
    destruct (Rlt_dec 0 y); lra.
Qed.

Lemma atan2_sin_cos (t : R) : 0 <= t <= PI / 2 -> atan2 (sin t) (cos t) = t.
Proof.
  intros [T0 T1]. pose proof PI_RGT_0 as Hpi.
  destruct (Rlt_dec t (PI / 2)) as [Lt | Ge].
  - pose proof (@cos_pos_below_PI2 t (conj T0 Lt)) as Ct.
    unfold atan2. destruct (Rlt_dec 0 (cos t)); [| lra].
    fold (tan t). apply atan_tan. lra.
  - assert (t = PI / 2) by lra. subst t.
    rewrite sin_PI2, cos_PI2. unfold atan2.
    destruct (Rlt_dec 0 0); [lra |].
    destruct (Rlt_dec 0 1); lra.
Qed.

Lemma sqrt_sin_sqr (t : R) : 0 <= t <= PI / 2 -> sqrt (sin t ^ 2) = sin t.
Proof. intros [T0 T1]. apply sqrt_pow2. apply sin_ge_0; lra. Qed.

Lemma sqrt_cos_sqr (t : R) : 0 <= t <= PI / 2 -> sqrt (1 - sin t ^ 2) = cos t.
Proof.
  intros [T0 T1]. pose proof (sin2_cos2 t) as H. unfold Rsqr in H.
  replace (1 - sin t ^ 2) with (cos t ^ 2) by lra.
  apply sqrt_pow2. apply cos_ge_0; lra.
Qed.

Lemma half_angle_range (d : R) :
  0 <= d <= 180 -> 0 <= radians d / 2 <= PI / 2.
Proof. intros [L U]. pose proof PI_RGT_0. unfold radians. split; nra. Qed.

(** Two points on one meridian are as far apart as the arc between
    their latitudes. *)
Lemma calculate_distance_same_lon (lat1 lat2 lon0 : R) :
  lat1 <= lat2 <= lat1 + 180 ->
  calculate_distance lat1 lon0 lat2 lon0 = 6371 * radians (lat2 - lat1).
Proof.
  intros [L U].
  assert (T : 0 <= radians (lat2 - lat1) / 2 <= PI / 2)
    by (apply half_angle_range; lra).
  unfold calculate_distance, haversine_a. cbv zeta.
  replace (radians (lon0 - lon0) / 2) with 0 by (unfold radians; lra).
  rewrite sin_0.
  replace (sin (radians (lat2 - lat1) / 2) ^ 2 +
           cos (radians lat1) * cos (radians lat2) * 0 ^ 2)
    with (sin (radians (lat2 - lat1) / 2) ^ 2) by ring.
  rewrite (sqrt_sin_sqr T), (sqrt_cos_sqr T), (atan2_sin_cos T). lra.
Qed.

(** Two points are at least as far apart as the arc between their
    latitudes. *)
Lemma calculate_distance_lower (lat1 lon1 lat2 lon2 : R) :
  -90 <= lat1 -> lat1 <= lat2 -> lat2 <= 90 ->
  6371 * radians (lat2 - lat1) <= calculate_distance lat1 lon1 lat2 lon2.
Proof.
  intros L1 L12 L2. pose proof PI_RGT_0 as Hpi.
  assert (T : 0 <= radians (lat2 - lat1) / 2 <= PI / 2)
    by (apply half_angle_range; lra).
  pose proof (haversine_a_range lat1 lon1 lat2 lon2) as [A0 A1].
  assert (Ha : sin (radians (lat2 - lat1) / 2) ^ 2
               <= haversine_a lat1 lon1 lat2 lon2).
  { unfold haversine_a. cbv zeta.
    pose proof (sin_sqr_bounds (radians (lon2 - lon1) / 2)) as [S0 _].
    assert (C1 : 0 <= cos (radians lat1))
      by (apply cos_ge_0; unfold radians; nra).
    assert (C2 : 0 <= cos (radians lat2))
      by (apply cos_ge_0; unfold radians; nra).
    pose proof (Rmult_le_pos _ _ (Rmult_le_pos _ _ C1 C2) S0). lra. }
  unfold calculate_distance. cbv zeta.
  set (a := haversine_a lat1 lon1 lat2 lon2) in *.
  assert (B : radians (lat2 - lat1) / 2 <= atan2 (sqrt a) (sqrt (1 - a))).
  { apply atan2_lower.
    - exact T.
    - apply sqrt_pos.
    - rewrite <- (sqrt_sin_sqr T). apply sqrt_le_1_alt. exact Ha.
    - rewrite <- (sqrt_cos_sqr T). apply sqrt_le_1_alt. lra.
    - intros Z. apply sqrt_eq_0 in Z; [| lra].
      replace a with 1 by lra. rewrite sqrt_1. lra. }
  lra.
Qed.

(* ================================================================= *)
(** ** Running computations *)

Lemma for_each_ok_step {W A S : Type} (body : S -> A -> M W S)
    (x : A) (xs : list A) (s s' : S) (w w' : W) :
  body s x w = (Ok s', w') ->
  for_each (x :: xs) s body w = for_each xs s' body w'.
Proof. intros H. simpl. unfold bind. now rewrite H. Qed.

(** A loop whose body never raises never raises. *)
Lemma for_each_never_raises {W A S : Type} (body : S -> A -> M W S) :
  (forall s x w, exists s' w', body s x w = (Ok s', w')) ->
  forall xs s w, exists s' w', for_each xs s body w = (Ok s', w').
Proof.
  intros Hb xs. induction xs as [| x xs IH]; intros s w.
  - now exists s, w.
  - destruct (Hb s x w) as [s1 [w1 E]].
    rewrite (@for_each_ok_step _ _ _ body x xs s s1 w w1 E). apply IH.
Qed.

(** An invariant of the loop state kept by every body run that returns
    is kept by the loop. *)
Lemma for_each_invariant {W A S : Type} (body : S -> A -> M W S)
    (P : S -> Prop) :
  (forall s x w s' w', P s -> body s x w = (Ok s', w') -> P s') ->
  forall xs s w s' w',
    P s -> for_each xs s body w = (Ok s', w') -> P s'.
Proof.
  intros Hb xs. induction xs as [| x xs IH]; intros s w s' w' Ps E.
  - inversion E. now subst.
  - simpl in E. unfold bind in E.
    destruct (body s x w) as [[s1 | e] w1] eqn:E1; [| discriminate].
    eapply IH; [| exact E]. eapply Hb; eassumption.
Qed.

(** A handler that returns makes the whole [try] return. *)
Lemma try_except_returns {W A : Type} (body : M W A) (fallback : exn -> A) (w : W) :
  exists a w', try_except body (fun e => ret (fallback e)) w = (Ok a, w').
Proof.
  unfold try_except. destruct (body w) as [[a | e] w1]; eauto.
  unfold ret. eauto.
Qed.

(* ================================================================= *)
(** ** Orchestration: failures stay inside *)

Section OrchestratorFacts.

Variable W : Type.
Variable env : collaborators W.


Lemma fetch_city_unusable (b : batch) (c : route_city) (w : W) :
  fetch_unusable (fst (get_weather_data env (name c) w)) = true ->
  fetch_city env b c w = (Ok b, snd (get_weather_data env (name c) w)).
Proof.
  unfold fetch_city, try_except, bind, ret, fetch_unusable.
  destruct (get_weather_data env (name c) w) as [[[| wt] | e] w1];
    simpl; try reflexivity.
  destruct (success wt); [discriminate | reflexivity].
Qed.

Lemma fetch_city_usable (b : batch) (c : route_city) (w w1 : W) (wt : weather) :
  get_weather_data env (name c) w = (Ok (Dict wt), w1) ->
  success wt = true ->
  fetch_city env b c w = (Ok (record_observation b c wt), w1).
Proof.
  intros E S. unfold fetch_city, try_except, bind, ret. now rewrite E, S.
Qed.


End OrchestratorFacts.


(* ================================================================= *)
(** ** The primary path: sampling waypoints *)

Lemma truthy_false (x : option R) :
  truthy x = false <-> x = None \/ x = Some 0.
Proof.
  destruct x as [v |]; simpl.
  - destruct (Req_dec_T v 0) as [-> | N]; split; intros H; auto.
    + discriminate.
    + destruct H as [H | H]; [discriminate | congruence].
  - split; auto.
Qed.

Lemma truthy_true (x : option R) :
  truthy x = true <-> exists v, x = Some v /\ v <> 0.
Proof.
  destruct x as [v |]; simpl.
  - destruct (Req_dec_T v 0) as [-> | N]; split; intros H.
    + discriminate.
    + destruct H as [v [E N]]. congruence.
    + now exists v.
    + reflexivity.
  - split; [discriminate | intros [v [E _]]; discriminate].
Qed.

Section WaypointFacts.

Variable W : Type.
Variable env : collaborators W.
Variables start_city end_city : string.

(** A waypoint without both coordinates leaves the state and the world
    as they are. *)
Lemma visit_waypoint_skips (st : list place * list string) (wp : waypoint) (w : W) :
  has_coordinates wp = false ->
  visit_waypoint env start_city end_city st wp w = (Ok st, w).
Proof.
  unfold has_coordinates, visit_waypoint. destruct st as [cities seen].
  intros H. now rewrite H.
Qed.

Lemma for_each_skips (wps : list waypoint) (st : list place * list string) (w : W) :
  for_each wps st (visit_waypoint env start_city end_city) w
  = for_each (filter has_coordinates wps) st
      (visit_waypoint env start_city end_city) w.
Proof.
  revert st w. induction wps as [| wp wps IH]; intros st w; [reflexivity |].
  cbn [filter]. destruct (has_coordinates wp) eqn:H.
  - cbn [for_each]. unfold bind.
    destruct (visit_waypoint env start_city end_city st wp w) as [[st1 | e] w1];
      [apply IH | reflexivity].
  - rewrite (@for_each_ok_step _ _ _ _ wp wps st st w w
               (visit_waypoint_skips st wp w H)).
    apply IH.
Qed.

End WaypointFacts.

(** Every reverse-geocoding call a waypoint visit makes carries
    coordinates that are both different from zero. *)
Lemma visit_waypoint_calls (W : Type) (env : collaborators W)
    (start_city end_city : string) (st : list place * list string)
    (wp : waypoint) (w : W) (t : list (R * R)) :
  Forall (fun p => fst p <> 0 /\ snd p <> 0) t ->
  Forall (fun p => fst p <> 0 /\ snd p <> 0)
    (calls_of (visit_waypoint (traced env) start_city end_city st wp (w, t))).
Proof.
  intros Ht. unfold visit_waypoint, calls_of. destruct st as [cities seen].
  destruct (truthy (wp_lat wp) && truthy (wp_lon wp)) eqn:H; [| exact Ht].
  apply andb_true_iff in H. destruct H as [Hlat Hlon].
  apply truthy_true in Hlat. apply truthy_true in Hlon.
  destruct Hlat as [la [-> Nla]]. destruct Hlon as [lo [-> Nlo]].
  unfold bind. cbn [traced reverse_geocode fst snd].
  destruct (reverse_geocode env la lo w) as [[[ci |] | e] w1]; cbn [snd].
  - destruct (nonempty (ci_name ci)); [| unfold ret; cbn [snd]].
    + match goal with
      | |- context [if ?c then _ else _] => destruct c
      end; unfold ret; cbn [snd];
        apply Forall_app; split; auto.
    + apply Forall_app; split; auto.
  - unfold ret; cbn [snd]. apply Forall_app; split; auto.
  - apply Forall_app; split; auto.
Qed.

Lemma for_each_visit_calls (W : Type) (env : collaborators W)
    (start_city end_city : string) (wps : list waypoint)
    (st : list place * list string) (w : W) (t : list (R * R)) :
  Forall (fun p => fst p <> 0 /\ snd p <> 0) t ->
  Forall (fun p => fst p <> 0 /\ snd p <> 0)
    (calls_of (for_each wps st
                 (visit_waypoint (traced env) start_city end_city) (w, t))).
Proof.
  revert st w t. induction wps as [| wp wps IH]; intros st w t Ht.
  - exact Ht.
  - cbn [for_each]. unfold bind.
    pose proof (visit_waypoint_calls env start_city end_city st wp w Ht) as H.
    destruct (visit_waypoint (traced env) start_city end_city st wp (w, t))
      as [[st1 | e] [w1 t1]]; unfold calls_of in H; cbn [snd] in H.
    + apply IH. exact H.
    + exact H.
Qed.

(** C10.  On the primary path a sampled waypoint whose latitude or
    longitude is absent or equal to 0 is passed over: visiting it changes
    neither the cities found nor the world, the whole search gives what it
    gives on the sampled waypoints that have both coordinates, and no
    reverse-geocoding call is ever made with a zero coordinate. *)
Theorem find_cities_from_route_waypoints_skips_zero
    (W : Type) (env : collaborators W)
    (waypoints : list waypoint) (start_city end_city : string) (w : W) :
  (forall st wp,
      In wp (sample 10 waypoints) ->
      wp_lat wp = None \/ wp_lat wp = Some 0 \/
      wp_lon wp = None \/ wp_lon wp = Some 0 ->
      visit_waypoint env start_city end_city st wp w = (Ok st, w))
  /\ find_cities_from_route_waypoints env waypoints start_city end_city 10 w
     = bind (for_each (filter has_coordinates (sample 10 waypoints)) ([], [])
               (visit_waypoint env start_city end_city))
            (fun st => ret (fst st)) w
  /\ Forall (fun p => fst p <> 0 /\ snd p <> 0)
       (calls_of (find_cities_from_route_waypoints (traced env) waypoints
                    start_city end_city 10 (w, []))).
Proof.
  split; [| split].
  - intros st wp _ H. apply visit_waypoint_skips. unfold has_coordinates.
    apply andb_false_iff.
    destruct H as [H | [H | [H | H]]];
      [left | left | right | right]; apply truthy_false; auto.
  - unfold find_cities_from_route_waypoints, bind.
    now rewrite for_each_skips.
  - unfold find_cities_from_route_waypoints, bind.
    pose proof (for_each_visit_calls env start_city end_city
                  (sample 10 waypoints) ([], []) w (Forall_nil _)) as H.
    destruct (for_each (sample 10 waypoints) ([], [])
                (visit_waypoint (traced env) start_city end_city) (w, []))
      as [[st1 | e] [w1 t1]]; exact H.
Qed.

(** A waypoint on the equator is passed over. *)
Lemma find_cities_from_route_waypoints_skips_equator :
  In (mkWaypoint (Some 0) (Some 10)) (sample 10 [mkWaypoint (Some 0) (Some 10)])
  /\ visit_waypoint Overshoot.world "Startville" "Endville" ([], [])
       (mkWaypoint (Some 0) (Some 10)) tt
     = (Ok ([], []), tt).
Proof.
  split; [left; reflexivity |].
  destruct (@find_cities_from_route_waypoints_skips_zero unit Overshoot.world
              [mkWaypoint (Some 0) (Some 10)] "Startville" "Endville" tt)
    as (H & _).
  apply H; [left; reflexivity | right; left; reflexivity].
Defined.

(** [sample k] takes the elements at the indices [0], [k], [2k], ... *)
Lemma sample_from_nth {A : Type} (k c : nat) (xs : list A) (i : nat) :
  (0 < k)%nat ->
  nth_error (sample_from k c xs) i = nth_error xs (c + i * k).
Proof.
  intros Hk. revert c i. induction xs as [| x t IH]; intros c i.
  - simpl. now destruct i, (c + _)%nat.
  - destruct c as [| c']; cbn [sample_from].
    + destruct i as [| j]; [reflexivity |].
      cbn [nth_error]. rewrite IH.
      replace (0 + S j * k)%nat with (S (k - 1 + j * k)) by lia.
      reflexivity.
    + rewrite IH. reflexivity.
Qed.

Lemma sample_nth {A : Type} (k : nat) (xs : list A) (i : nat) :
  (0 < k)%nat -> nth_error (sample k xs) i = nth_error xs (i * k).
Proof. intros Hk. unfold sample. now rewrite sample_from_nth. Qed.

(* ================================================================= *)
(** ** The fallback path: interpolation *)

Lemma num_points_for_bounds (total_distance : R) :
  (2 <= num_points_for total_distance <= 5)%Z.
Proof. unfold num_points_for. lia. Qed.

Lemma num_points_for_short (total_distance : R) :
  total_distance < 200 -> num_points_for total_distance = 2%Z.
Proof.
  intros H. unfold num_points_for.
  assert (int (total_distance / 100) <= 1)%Z; [| lia].
  destruct (Rle_dec 0 (total_distance / 100)) as [P | N].
  - pose proof (int_floor P) as [L _].
    assert (B : IZR (int (total_distance / 100)) < 2) by lra.
    apply lt_IZR in B. lia.
  - assert (int (total_distance / 100) <= 0)%Z
      by (apply int_nonpositive; lra). lia.
Qed.

Lemma num_points_for_long (total_distance : R) :
  500 <= total_distance -> num_points_for total_distance = 5%Z.
Proof.
  intros H. unfold num_points_for.
  assert (5 <= int (total_distance / 100))%Z; [| lia].
  assert (P : 0 <= total_distance / 100) by lra.
  pose proof (int_floor P) as [_ U].
  assert (B : 4 < IZR (int (total_distance / 100))) by lra.
  apply lt_IZR in B. lia.
Qed.

Lemma num_points_for_per_100km (total_distance : R) :
  200 <= total_distance < 500 ->
  IZR (num_points_for total_distance) <= total_distance / 100
    < IZR (num_points_for total_distance) + 1.
Proof.
  intros [L U]. unfold num_points_for.
  assert (P : 0 <= total_distance / 100) by lra.
  pose proof (int_floor P) as [F0 F1].
  assert (B1 : 1 < IZR (int (total_distance / 100))) by lra.
  assert (B2 : IZR (int (total_distance / 100)) < 5) by lra.
  apply lt_IZR in B1. apply lt_IZR in B2.
  replace (Z.min 5 (Z.max 2 (int (total_distance / 100))))
    with (int (total_distance / 100)) by lia.
  lra.
Qed.

Lemma inter_point_spacing (start_lat start_lon end_lat end_lon : R) (n i : Z) :
  (0 <= n)%Z ->
  let p := inter_point start_lat start_lon end_lat end_lon n in
  fst (p (i + 1)%Z) - fst (p i) = (end_lat - start_lat) / IZR (n + 1)
  /\ snd (p (i + 1)%Z) - snd (p i) = (end_lon - start_lon) / IZR (n + 1)
  /\ p 0%Z = (start_lat, start_lon)
  /\ p (n + 1)%Z = (end_lat, end_lon).
Proof.
  intros Hn p. unfold p, inter_point. cbv zeta. cbn [fst snd].
  assert (N : IZR (n + 1) <> 0).
  { apply not_0_IZR. lia. }
  rewrite (plus_IZR i 1).
  repeat split; try (field; exact N).
  - f_equal; field; exact N.
  - f_equal; field; exact N.
Qed.

Section InterpolationFacts.

Variable W : Type.
Variable env : collaborators W.
Variables start_lat start_lon end_lat end_lon : R.
Variable num_points : Z.

(** One iteration asks the reverse geocoder about its point, once, and
    returns. *)
Lemma interpolate_step_traced (route_cities : list route_city) (i : Z)
    (w : W) (t : list (R * R)) :
  exists route_cities' w',
    interpolate_step (traced env) start_lat start_lon end_lat end_lon
      num_points route_cities i (w, t)
    = (Ok route_cities',
       (w', t ++ [inter_point start_lat start_lon end_lat end_lon num_points i])).
Proof.
  unfold interpolate_step.
  destruct (inter_point start_lat start_lon end_lat end_lon num_points i)
    as [inter_lat inter_lon].
  unfold try_except, bind. cbn [traced reverse_geocode fst snd].
  destruct (reverse_geocode env inter_lat inter_lon w) as [[[ci |] | e] w1];
    unfold ret; eauto.
  destruct (negb (already_listed (ci_name ci) route_cities)); eauto.
Qed.

Lemma interpolation_traced (indices : list Z) (route_cities : list route_city)
    (w : W) (t : list (R * R)) :
  exists route_cities' w',
    for_each indices route_cities
      (interpolate_step (traced env) start_lat start_lon end_lat end_lon
         num_points) (w, t)
    = (Ok route_cities',
       (w', t ++ map (inter_point start_lat start_lon end_lat end_lon
                        num_points) indices)).
Proof.
  revert route_cities w t.
  induction indices as [| i indices IH]; intros route_cities w t.
  - exists route_cities, w. cbn [for_each map]. unfold ret.
    now rewrite app_nil_r.
  - destruct (interpolate_step_traced route_cities i w t) as [rc1 [w1 E]].
    destruct (IH rc1 w1
                (t ++ [inter_point start_lat start_lon end_lat end_lon
                         num_points i])) as [rc2 [w2 E2]].
    exists rc2, w2. cbn [for_each map]. unfold bind. rewrite E, E2.
    now rewrite <- app_assoc.
Qed.

End InterpolationFacts.

(** The fallback asks the reverse geocoder about the interpolation
    points, each once and in order, when it interpolates, and about nothing
    otherwise. *)
Lemma fallback_cities_calls
    (W : Type) (env : collaborators W) (start_city end_city : string)
    (start_lat start_lon end_lat end_lon threshold_km total_distance : R)
    (w : W) :
  calls_of (fallback_cities (traced env) start_city end_city
              start_lat start_lon end_lat end_lon threshold_km total_distance
              (w, []))
  = (if (List.length
           (scan_curated MAJOR_CITIES_INDIA start_city end_city
              start_lat start_lon end_lat end_lon threshold_km) <? 2)%nat
        && Rltb 100 total_distance
     then map (inter_point start_lat start_lon end_lat end_lon
                 (num_points_for total_distance))
              (range 1 (num_points_for total_distance + 1))
     else []).
Proof.
  unfold fallback_cities, calls_of, wants_interpolation.
  generalize (scan_curated MAJOR_CITIES_INDIA start_city end_city
                start_lat start_lon end_lat end_lon threshold_km).
  intros curated.
  destruct ((List.length curated <? 2)%nat && Rltb 100 total_distance);
    [| reflexivity].
  destruct (interpolation_traced env start_lat start_lon end_lat end_lon
              (num_points_for total_distance)
              (range 1 (num_points_for total_distance + 1))
              curated w []) as [rc [w1 E]].
  rewrite E. reflexivity.
Qed.

(** C6, as stated, fails: for a total distance of 150 km the code
    synthesizes 2 points, where one point per 100 km with a minimum of 1
    gives 1. *)
Lemma num_points_for_150 :
  num_points_for 150 = 2%Z /\ InterpolationSpec.num_points 150 = 1%Z.
Proof.
  split; [apply num_points_for_short; lra |].
  unfold InterpolationSpec.num_points.
  rewrite (@int_between (150 / 100) 1); [reflexivity | lia | simpl; lra].
Qed.

(** C6, amended.  In fallback resolution the reverse geocoder is asked
    about interpolation points exactly when fewer than 2 curated cities were
    found and the total distance exceeds 100 km, and then about each point
    once, in order.  Their number lies between 2 and 5: it is 2 below 200 km,
    the whole number of hundreds of kilometres from 200 km up to 500 km, and
    5 from 500 km on.  The points divide the straight line from start to end
    into equal steps. *)
Theorem fallback_interpolation_points
    (W : Type) (env : collaborators W) (start_city end_city : string)
    (start_lat start_lon end_lat end_lon threshold_km total_distance : R)
    (w : W) :
  let curated :=
    scan_curated MAJOR_CITIES_INDIA start_city end_city
      start_lat start_lon end_lat end_lon threshold_km in
  let n := num_points_for total_distance in
  let p := inter_point start_lat start_lon end_lat end_lon n in
  calls_of (fallback_cities (traced env) start_city end_city
              start_lat start_lon end_lat end_lon threshold_km total_distance
              (w, []))
  = (if (List.length curated <? 2)%nat && Rltb 100 total_distance
     then map p (range 1 (n + 1)) else [])
  /\ range 1 (n + 1)
     = firstn (Z.to_nat n) [1; 2; 3; 4; 5]%Z
  /\ (2 <= n <= 5)%Z
  /\ (total_distance < 200 -> n = 2%Z)
  /\ (200 <= total_distance < 500 ->
      IZR n <= total_distance / 100 < IZR n + 1)
  /\ (500 <= total_distance -> n = 5%Z)
  /\ (forall i : Z,
      fst (p (i + 1)%Z) - fst (p i) = (end_lat - start_lat) / IZR (n + 1)
      /\ snd (p (i + 1)%Z) - snd (p i) = (end_lon - start_lon) / IZR (n + 1))
  /\ p 0%Z = (start_lat, start_lon)
  /\ p (n + 1)%Z = (end_lat, end_lon).
Proof.
  intros curated n p.
  pose proof (num_points_for_bounds total_distance) as Hn. fold n in Hn.
  split.
  { subst curated n p.
    exact (fallback_cities_calls env start_city end_city start_lat start_lon
             end_lat end_lon threshold_km total_distance w). }
  split.
  { unfold range.
    assert (C : n = 2%Z \/ n = 3%Z \/ n = 4%Z \/ n = 5%Z) by lia.
    destruct C as [-> | [-> | [-> | ->]]]; reflexivity. }
  split; [exact Hn |].
  split; [apply num_points_for_short |].
  split; [apply num_points_for_per_100km |].
  split; [apply num_points_for_long |].
  assert (N0 : (0 <= n)%Z) by lia.
  pose proof (fun i => @inter_point_spacing start_lat start_lon end_lat end_lon
                         n i N0) as S.
  cbv zeta in S. fold p in S.
  split; [intros i; split; apply (S i) |].
  split; apply (S 0%Z).
Qed.

(** A total distance of 150 km through the theorem: 2 points. *)
Lemma fallback_interpolation_points_150 :
  150 < 200 /\ num_points_for 150 = 2%Z.
Proof.
  split; [lra |].
  destruct (@fallback_interpolation_points unit Echo.world
              "Northport" "Southport" (-45) 10 (-46) 10 50 150 tt)
    as (_ & _ & _ & H & _).
  apply H. lra.
Defined.

(* ================================================================= *)
(** ** The resolved route: order and distances *)

Lemma insert_city_perm (c : route_city) (l : list route_city) :
  Permutation (insert_city c l) (c :: l).
Proof.
  induction l as [| h t IH]; simpl; [reflexivity |].
  destruct (Rle_dec _ _); [reflexivity |].
  rewrite IH. apply perm_swap.
Qed.

Lemma sort_by_distance_perm (l : list route_city) :
  Permutation (sort_by_distance l) l.
Proof.
  induction l as [| c l IH]; simpl; [reflexivity |].
  rewrite insert_city_perm. now constructor.
Qed.

Lemma insert_city_sorted (c : route_city) (l : list route_city) :
  Sorted by_distance l -> Sorted by_distance (insert_city c l).
Proof.
  induction l as [| h t IH]; intros S; simpl.
  - repeat constructor.
  - destruct (Rle_dec _ _) as [L | N].
    + constructor; [exact S | constructor; exact L].
    + inversion S as [| ? ? St Hd]; subst.
      constructor; [apply IH; exact St |].
      destruct t as [| h' t']; simpl.
      * constructor. unfold by_distance. lra.
      * destruct (Rle_dec _ _).
        -- constructor. unfold by_distance. lra.
        -- inversion Hd; subst. constructor. assumption.
Qed.

Lemma sort_by_distance_sorted (l : list route_city) :
  Sorted by_distance (sort_by_distance l).
Proof.
  induction l as [| c l IH]; simpl; [constructor |].
  now apply insert_city_sorted.
Qed.

Lemma rounded_distance_nonneg (lat1 lon1 lat2 lon2 : R) :
  0 <= round2 (calculate_distance lat1 lon1 lat2 lon2).
Proof. apply round2_nonneg. apply calculate_distance_range. Qed.

Lemma measured_snoc (l : list route_city) (c : route_city) :
  measured l -> 0 <= distance_from_start c -> measured (l ++ [c]).
Proof.
  intros Hl Hc. apply Forall_app. split; [exact Hl | now constructor].
Qed.

(** An invariant of the list kept by every step of the curated scan
    holds of its result. *)
Lemma scan_curated_invariant (P : list route_city -> Prop)
    (table : list place) (start_city end_city : string)
    (start_lat start_lon end_lat end_lon threshold_km : R) :
  P [] ->
  (forall acc entry,
      In entry table -> P acc ->
      P (curated_step start_city end_city
           start_lat start_lon end_lat end_lon threshold_km acc entry)) ->
  P (scan_curated table start_city end_city
       start_lat start_lon end_lat end_lon threshold_km).
Proof.
  unfold scan_curated. generalize (@nil route_city).
  induction table as [| entry table IH]; intros acc P0 Hstep; [exact P0 |].
  cbn [fold_left]. apply IH.
  - apply Hstep; [now left | exact P0].
  - intros acc' e' Hin. apply Hstep. now right.
Qed.

Lemma scan_curated_measured (table : list place) (start_city end_city : string)
    (start_lat start_lon end_lat end_lon threshold_km : R) :
  measured (scan_curated table start_city end_city
              start_lat start_lon end_lat end_lon threshold_km).
Proof.
  apply scan_curated_invariant; [constructor |].
  intros acc entry _ Hacc. unfold curated_step. cbv zeta.
  destruct (is_endpoint_name _ _ _); [exact Hacc |].
  destruct (is_point_near_route _ _ _ _ _ _ _); [| exact Hacc].
  apply measured_snoc; [exact Hacc | apply rounded_distance_nonneg].
Qed.

Section ResolverFacts.

Variable W : Type.
Variable env : collaborators W.

Lemma interpolate_step_measured
    (start_lat start_lon end_lat end_lon : R) (num_points : Z)
    (rc : list route_city) (i : Z) (w : W) (rc' : list route_city) (w' : W) :
  measured rc ->
  interpolate_step env start_lat start_lon end_lat end_lon num_points rc i w
  = (Ok rc', w') ->
  measured rc'.
Proof.
  intros Hrc. unfold interpolate_step.
  destruct (inter_point start_lat start_lon end_lat end_lon num_points i)
    as [inter_lat inter_lon].
  unfold try_except, bind, ret.
  destruct (reverse_geocode env inter_lat inter_lon w) as [[[ci |] | e] w1].
  - destruct (negb (already_listed (ci_name ci) rc)); intros E;
      inversion E; subst; [| exact Hrc].
    apply measured_snoc; [exact Hrc | apply rounded_distance_nonneg].
  - intros E. inversion E. now subst.
  - intros E. inversion E. now subst.
Qed.

Lemma fallback_cities_measured (start_city end_city : string)
    (start_lat start_lon end_lat end_lon threshold_km total_distance : R)
    (w : W) (rc : list route_city) (w' : W) :
  fallback_cities env start_city end_city
    start_lat start_lon end_lat end_lon threshold_km total_distance w
  = (Ok rc, w') ->
  measured rc.
Proof.
  unfold fallback_cities.
  pose proof (scan_curated_measured MAJOR_CITIES_INDIA start_city end_city
                start_lat start_lon end_lat end_lon threshold_km) as Hs.
  generalize dependent (scan_curated MAJOR_CITIES_INDIA start_city end_city
                          start_lat start_lon end_lat end_lon threshold_km).
  intros curated Hs.
  destruct (wants_interpolation _ _).
  - intros E. revert E. apply for_each_invariant; [| exact Hs].
    intros s x w0 s' w0' Ps E. eapply interpolate_step_measured; eassumption.
  - unfold ret. intros E. injection E as <- _. exact Hs.
Qed.

Lemma waypoint_cities_measured (waypoints : list waypoint)
    (start_city end_city : string) (start_lat start_lon : R)
    (w : W) (rc : list route_city) (w' : W) :
  waypoint_cities env waypoints start_city end_city start_lat start_lon w
  = (Ok rc, w') ->
  measured rc.
Proof.
  unfold waypoint_cities, bind, ret.
  destruct (find_cities_from_route_waypoints env waypoints start_city end_city
              10 w) as [[places | e] w1]; intros E; inversion E; subst.
  apply Forall_map. apply Forall_forall. intros pl _.
  apply rounded_distance_nonneg.
Qed.

Lemma find_cities_along_route_ordered (start_city end_city : string)
    (threshold_km : R) (w : W) (rc : list route_city) (w' : W) :
  find_cities_along_route env start_city end_city threshold_km w = (Ok rc, w') ->
  Sorted by_distance rc /\ measured rc.
Proof.
  unfold find_cities_along_route, bind, ret.
  destruct (geocode_location env start_city w) as [[sc | e] w1];
    [| discriminate].
  destruct (geocode_location env end_city w1) as [[ec | e] w2];
    [| discriminate].
  assert (Hnil : (Ok (@nil route_city), w2) = (Ok rc, w') ->
                 Sorted by_distance rc /\ measured rc).
  { intros E. inversion E. subst. split; constructor. }
  destruct sc as [sc |]; [| exact Hnil].
  destruct ec as [ec |]; [| exact Hnil].
  destruct (unsorted_route_cities env start_city end_city threshold_km sc ec w2)
    as [[rc0 | e] w3] eqn:U; intros E; inversion E; subst.
  split; [apply sort_by_distance_sorted |].
  assert (M : measured rc0).
  { unfold unsorted_route_cities, bind in U.
    destruct (get_route_from_google_maps env start_city end_city w2)
      as [[[[| wp wps] |] | e] w4]; try discriminate.
    - eapply fallback_cities_measured; exact U.
    - eapply waypoint_cities_measured; exact U.
    - eapply fallback_cities_measured; exact U. }
  unfold measured.
  eapply Permutation_Forall; [symmetry; apply sort_by_distance_perm | exact M].
Qed.

End ResolverFacts.

(** With collaborators that never raise, route resolution returns. *)
Lemma find_cities_along_route_returns
    (W : Type) (env : collaborators W) (start_city end_city : string)
    (threshold_km : R) (w : W) :
  quiet env ->
  exists rc w',
    find_cities_along_route env start_city end_city threshold_km w = (Ok rc, w').
Proof.
  intros [Hg [Hd Hr]]. unfold find_cities_along_route, bind.
  destruct (Hg start_city w) as [sc [w1 ->]].
  destruct (Hg end_city w1) as [ec [w2 ->]].
  destruct sc as [sc |]; [| unfold ret; eauto].
  destruct ec as [ec |]; [| unfold ret; eauto].
  assert (U : exists rc w3,
             unsorted_route_cities env start_city end_city threshold_km sc ec w2
             = (Ok rc, w3)).
  { unfold unsorted_route_cities, bind.
    destruct (Hd start_city end_city w2) as [wps [w3 ->]].
    assert (F : forall total, exists rc w4,
               fallback_cities env start_city end_city (g_lat sc) (g_lon sc)
                 (g_lat ec) (g_lon ec) threshold_km total w3 = (Ok rc, w4)).
    { intros total. unfold fallback_cities.
      destruct (wants_interpolation _ _); [| unfold ret; eauto].
      apply for_each_never_raises. intros s x w0.
      unfold interpolate_step.
      destruct (inter_point _ _ _ _ _ _) as [la lo].
      apply try_except_returns. }
    destruct wps as [[| wp wps] |]; try apply F.
    unfold waypoint_cities, find_cities_from_route_waypoints, bind.
    assert (V : exists st w4,
               for_each (sample 10 (wp :: wps)) ([], [])
                 (visit_waypoint env start_city end_city) w3 = (Ok st, w4)).
    { apply for_each_never_raises. intros [cities seen] x w0.
      unfold visit_waypoint.
      destruct (truthy (wp_lat x) && truthy (wp_lon x));
        [| unfold ret; eauto].
      destruct (wp_lat x) as [la |], (wp_lon x) as [lo |];
        try (unfold ret; eauto).
      unfold bind. destruct (Hr la lo w0) as [ci [w4 ->]].
      destruct ci as [ci |]; [| unfold ret; eauto].
      destruct (nonempty (ci_name ci)); [| unfold ret; eauto].
      match goal with
      | |- context [if ?c then _ else _] => destruct c
      end; unfold ret; eauto. }
    destruct V as [st [w4 ->]]. unfold ret. eauto. }
  destruct U as [rc [w3 ->]]. unfold ret. eauto.
Qed.

(** C5, amended.  Route resolution raises only if a collaborator does.
    Whenever it returns, the intermediate cities are sorted ascending by
    their distance from the start and none of these distances is negative;
    in the full sequence the START city comes first with distance 0, the END
    city comes last with the total start-end distance (rounded to two
    decimals), and the sequence up to the END city is sorted ascending. *)
Theorem resolved_route_order
    (W : Type) (env : collaborators W) (start_city end_city : string)
    (threshold_km : R) (w : W) :
  match fst (find_cities_along_route env start_city end_city threshold_km w) with
  | Ok intermediate_cities =>
    Sorted by_distance intermediate_cities
    /\ measured intermediate_cities
    /\ forall (start_coords end_coords : coords) (total_distance : R),
       let all_cities :=
         all_cities_of start_coords end_coords total_distance
           intermediate_cities in
       Sorted by_distance (removelast all_cities)
       /\ (exists first rest,
              all_cities = first :: rest
              /\ name first = g_name start_coords
              /\ is_start first = true
              /\ distance_from_start first = 0)
       /\ (exists final,
              all_cities = removelast all_cities ++ [final]
              /\ name final = g_name end_coords
              /\ is_end final = true
              /\ distance_from_start final = round2 total_distance)
  | Raise _ => ~ quiet env
  end.
Proof.
  destruct (find_cities_along_route env start_city end_city threshold_km w)
    as [[rc | e] w'] eqn:E; cbn [fst].
  2: { intros Q.
       destruct (find_cities_along_route_returns start_city end_city
                   threshold_km w Q) as [rc [w'' E']].
       congruence. }
  destruct (find_cities_along_route_ordered _ _ _ _ _ E) as [S M].
  split; [exact S |]. split; [exact M |].
  intros sc ec total. unfold all_cities_of.
  cbn [app]. rewrite app_comm_cons, removelast_last.
  split; [| split].
  - constructor; [exact S |].
    destruct rc as [| c rc']; constructor.
    unfold by_distance. cbn [distance_from_start].
    inversion M; subst. assumption.
  - eexists. eexists. split; [reflexivity |]. cbn. auto.
  - eexists. split; [reflexivity |]. cbn. auto.
Qed.

(* ================================================================= *)
(** ** A route whose directions overshoot *)

Lemma truthy_nonzero (v : R) : v <> 0 -> truthy (Some v) = true.
Proof. intros N. apply truthy_true. now exists v. Qed.

(** Route resolution on the overshooting route, whatever the weather
    provider and the clock are. *)
Lemma overshoot_resolution
    (weather_provider : string -> M unit weather_reply) (clock : M unit string) :
  find_cities_along_route
    (mkCollaborators
       (geocode_location Overshoot.world)
       (get_route_from_google_maps Overshoot.world)
       (reverse_geocode Overshoot.world)
       weather_provider clock)
    "Startville" "Endville" 50 tt
  = (Ok [mkRouteCity "Farpoint" 12 10 ""
           (round2 (calculate_distance 10 10 12 10)) false false], tt).
Proof.
  unfold find_cities_along_route, bind.
  cbn [Overshoot.world geocode_location answer ret].
  change (Overshoot.geocoder "Startville")
    with (Some (mkCoords "Startville" 10 10 None)).
  change (Overshoot.geocoder "Endville")
    with (Some (mkCoords "Endville" 11 10 None)).
  unfold unsorted_route_cities, bind.
  cbn [Overshoot.world get_route_from_google_maps answer ret g_lat g_lon].
  unfold waypoint_cities, find_cities_from_route_waypoints, bind.
  cbn [sample sample_from for_each]. unfold bind.
  unfold visit_waypoint. cbn [wp_lat wp_lon].
  rewrite !truthy_nonzero by lra. cbn [andb].
  unfold bind. cbn [Overshoot.world reverse_geocode answer ret].
  cbn [ci_name nonempty ci_state].
  change (negb (mem (lower "Farpoint") []) &&
          negb (is_endpoint_name "Farpoint" "Startville" "Endville"))
    with true.
  reflexivity.
Qed.

Lemma overshoot_intermediate :
  find_cities_along_route Overshoot.world "Startville" "Endville" 50 tt
  = (Ok [mkRouteCity "Farpoint" 12 10 ""
           (round2 (calculate_distance 10 10 12 10)) false false], tt).
Proof. apply overshoot_resolution. Qed.

Lemma overshoot_run :
  get_route_weather_analysis Overshoot.world "Startville" "Endville" None tt
  = (Ok (Success overshoot_report), tt).
Proof.
  unfold get_route_weather_analysis, try_except, analysis_body, bind.
  cbn [Overshoot.world geocode_location answer ret].
  change (Overshoot.geocoder "Startville")
    with (Some (mkCoords "Startville" 10 10 None)).
  change (Overshoot.geocoder "Endville")
    with (Some (mkCoords "Endville" 11 10 None)).
  cbv beta iota.
  rewrite overshoot_intermediate.
  unfold all_cities_of. cbn [app g_name g_lat g_lon g_state get for_each].
  unfold bind.
  rewrite !fetch_city_usable with (wt := clear_sky) (w1 := tt) by reflexivity.
  reflexivity.
Qed.

(** With the weather provider failing for Farpoint alone, the analysis
    still succeeds and assesses the two other cities. *)
Example outage_run :
  get_route_weather_analysis Outage.world "Startville" "Endville" None tt
  = (Ok (Success outage_report), tt).
Proof.
  unfold get_route_weather_analysis, try_except, analysis_body, bind.
  change (geocode_location Outage.world "Startville" tt)
    with (Ok (Some (mkCoords "Startville" 10 10 None)), tt).
  cbv beta iota.
  change (geocode_location Outage.world "Endville" tt)
    with (Ok (Some (mkCoords "Endville" 11 10 None)), tt).
  cbv beta iota.
  unfold Outage.world. rewrite overshoot_resolution.
  unfold all_cities_of. cbn [app g_name g_lat g_lon g_state get for_each].
  unfold bind.
  rewrite (@fetch_city_usable unit _ _ _ tt tt clear_sky) by reflexivity.
  rewrite fetch_city_unusable by reflexivity.
  rewrite (@fetch_city_usable unit _ _ _ _ tt clear_sky) by reflexivity.
  reflexivity.
Qed.


Lemma overshoot_distances :
  round2 (calculate_distance 10 10 11 10) + 100
  < round2 (calculate_distance 10 10 12 10).
Proof.
  rewrite !calculate_distance_same_lon by lra.
  pose proof (round2_close (6371 * radians (11 - 10))) as [_ U].
  pose proof (round2_close (6371 * radians (12 - 10))) as [L _].
  pose proof PI_bounds as [P3 P4].
  unfold radians in *. lra.
Qed.

(** C5, as stated, fails: with a start at (10, 10), an end at (11, 10)
    and directions whose waypoint lies at (12, 10), the analysis reports
    Startville, Farpoint, Endville in this order, and Farpoint is more than
    100 km further from the start than Endville, which comes after it. *)
Lemma overshoot_not_sorted :
  exists r,
    get_route_weather_analysis Overshoot.world "Startville" "Endville" None tt
    = (Ok (Success r), tt)
    /\ map city (cities r) = ["Startville"; "Farpoint"; "Endville"]%string
    /\ total_distance_km (route r) = round2 (calculate_distance 10 10 11 10)
    /\ ~ Sorted Rle (map distance_km (cities r))
    /\ exists mid, In mid (cities r)
                   /\ total_distance_km (route r) < distance_km mid.
Proof.
  exists overshoot_report. split; [exact overshoot_run |].
  split; [reflexivity |]. split; [reflexivity |].
  pose proof overshoot_distances as D. split.
  - cbn [overshoot_report cities map distance_km]. intros S.
    inversion S as [| ? ? S1 _]; subst.
    inversion S1 as [| ? ? _ H]; subst.
    inversion H; subst. lra.
  - exists (mkCityWeather "Farpoint" "" (round2 (calculate_distance 10 10 12 10))
              clear_sky low false false).
    split; [right; left; reflexivity |].
    cbn [overshoot_report route total_distance_km distance_km]. lra.
Qed.

(* ================================================================= *)
(** ** Start and end names among the intermediate cities *)

Lemma is_endpoint_name_iff (city_name start_city end_city : string) :
  is_endpoint_name city_name start_city end_city = true <->
  lower city_name = lower start_city \/ lower city_name = lower end_city.
Proof.
  unfold is_endpoint_name. rewrite mem_In. simpl. intuition congruence.
Qed.

(** The primary path leaves out the start and end names. *)
Lemma waypoint_cities_avoid_endpoints
    (W : Type) (env : collaborators W) (waypoints : list waypoint)
    (start_city end_city : string) (start_lat start_lon : R)
    (w : W) (rc : list route_city) (w' : W) :
  waypoint_cities env waypoints start_city end_city start_lat start_lon w
  = (Ok rc, w') ->
  avoids_endpoints start_city end_city (map name rc).
Proof.
  unfold waypoint_cities, find_cities_from_route_waypoints, bind, ret.
  destruct (for_each (sample 10 waypoints) ([], [])
              (visit_waypoint env start_city end_city) w)
    as [[st | e] w1] eqn:E; intros R; inversion R; subst; clear R.
  rewrite map_map. cbn [name].
  revert E.
  apply (@for_each_invariant W waypoint (list place * list string)
           (visit_waypoint env start_city end_city)
           (fun st => avoids_endpoints start_city end_city
                        (map p_name (fst st))));
    [| constructor].
  clear. intros [cities seen] wp w [cities' seen'] w' P.
  unfold visit_waypoint.
  destruct (truthy (wp_lat wp) && truthy (wp_lon wp));
    [| unfold ret; intros E; inversion E; subst; exact P].
  destruct (wp_lat wp) as [la |], (wp_lon wp) as [lo |];
    try (unfold ret; intros E; inversion E; subst; exact P).
  unfold bind, ret.
  destruct (reverse_geocode env la lo w) as [[[ci |] | e] w1];
    try (intros E; inversion E; subst; exact P).
  destruct (nonempty (ci_name ci));
    [| intros E; inversion E; subst; exact P].
  destruct (mem (lower (ci_name ci)) seen); cbn [negb andb];
    [intros E; inversion E; subst; exact P |].
  destruct (is_endpoint_name (ci_name ci) start_city end_city) eqn:N;
    cbn [negb]; intros E; inversion E; subst; [exact P |].
  cbn [fst] in *. rewrite map_app. apply Forall_app. split; [exact P |].
  constructor; [exact N | constructor].
Qed.

(** The curated scan leaves out the start and end names. *)
Lemma scan_curated_avoids_endpoints (table : list place)
    (start_city end_city : string)
    (start_lat start_lon end_lat end_lon threshold_km : R) :
  avoids_endpoints start_city end_city
    (map name (scan_curated table start_city end_city
                 start_lat start_lon end_lat end_lon threshold_km)).
Proof.
  apply (@scan_curated_invariant
           (fun acc => avoids_endpoints start_city end_city (map name acc)));
    [constructor |].
  intros acc entry _ Hacc. unfold curated_step. cbv zeta.
  destruct (is_endpoint_name (p_name entry) start_city end_city) eqn:N;
    [exact Hacc |].
  destruct (is_point_near_route _ _ _ _ _ _ _); [| exact Hacc].
  rewrite map_app. apply Forall_app. split; [exact Hacc |].
  constructor; [exact N | constructor].
Qed.

(** A scan that finds no entry near the route finds nothing. *)
Lemma scan_curated_none (table : list place) (start_city end_city : string)
    (start_lat start_lon end_lat end_lon threshold_km : R) :
  Forall (fun entry =>
            is_point_near_route (p_lat entry) (p_lon entry)
              start_lat start_lon end_lat end_lon threshold_km = false) table ->
  scan_curated table start_city end_city
    start_lat start_lon end_lat end_lon threshold_km = [].
Proof.
  intros F.
  apply (@scan_curated_invariant (fun acc => acc = [])); [reflexivity |].
  intros acc entry Hin ->. unfold curated_step. cbv zeta.
  rewrite Forall_forall in F. rewrite (F entry Hin).
  now destruct (is_endpoint_name _ _ _).
Qed.

(** Every curated city lies between 9 and 29 degrees north. *)
Lemma curated_latitudes :
  Forall (fun entry => 9 <= p_lat entry <= 29) MAJOR_CITIES_INDIA.
Proof.
  unfold MAJOR_CITIES_INDIA.
  repeat (constructor; [cbn [p_lat]; lra |]). constructor.
Qed.

(** No city that far north is near the route from (-45, 10) to
    (-46, 10). *)
Lemma far_south_not_near (city_lat city_lon : R) :
  9 <= city_lat <= 29 ->
  is_point_near_route city_lat city_lon (-45) 10 (-46) 10 50 = false.
Proof.
  intros [L U]. unfold is_point_near_route. cbv zeta.
  rewrite (calculate_distance_sym city_lat city_lon (-45) 10).
  rewrite (calculate_distance_sym city_lat city_lon (-46) 10).
  rewrite (calculate_distance_sym (-45) 10 (-46) 10).
  pose proof (@calculate_distance_lower (-45) 10 city_lat city_lon) as D1.
  pose proof (@calculate_distance_lower (-46) 10 city_lat city_lon) as D2.
  rewrite (@calculate_distance_same_lon (-46) (-45) 10) by lra.
  pose proof PI_bounds as [P3 P4].
  unfold radians in *.
  assert (B1 : 50 + 6371 * 4 / 180 + 50
               <= calculate_distance (-45) 10 city_lat city_lon) by nra.
  assert (B2 : 50 <= calculate_distance (-46) 10 city_lat city_lon) by nra.
  replace (Rltb (calculate_distance (-45) 10 city_lat city_lon) 50) with false
    by (symmetry; apply Rltb_false; lra).
  replace (Rltb (calculate_distance (-46) 10 city_lat city_lon) 50) with false
    by (symmetry; apply Rltb_false; lra).
  cbn [orb]. apply Rltb_false. lra.
Qed.

Lemma echo_scan :
  scan_curated MAJOR_CITIES_INDIA "Northport" "Southport" (-45) 10 (-46) 10 50
  = [].
Proof.
  apply scan_curated_none.
  eapply Forall_impl; [| exact curated_latitudes].
  intros entry H. now apply far_south_not_near.
Qed.

Lemma echo_total_distance :
  106 < calculate_distance (-45) 10 (-46) 10 < 142.
Proof.
  rewrite calculate_distance_sym.
  rewrite (@calculate_distance_same_lon (-46) (-45) 10) by lra.
  pose proof PI_bounds as [P3 P4]. unfold radians. lra.
Qed.

Lemma echo_step (route_cities : list route_city) (i : Z) :
  interpolate_step Echo.world (-45) 10 (-46) 10 2 route_cities i tt
  = (Ok (if already_listed "Southport" route_cities then route_cities
         else
           let p := inter_point (-45) 10 (-46) 10 2 i in
           route_cities ++
             [mkRouteCity "Southport" (fst p) (snd p) ""
                (round2 (calculate_distance (-45) 10 (fst p) (snd p)))
                false false]),
     tt).
Proof.
  unfold interpolate_step.
  destruct (inter_point (-45) 10 (-46) 10 2 i) as [inter_lat inter_lon].
  unfold try_except, bind.
  cbn [Echo.world reverse_geocode answer ret ci_name ci_state fst snd].
  now destruct (already_listed "Southport" route_cities).
Qed.

Lemma echo_fallback :
  fallback_cities Echo.world "Northport" "Southport" (-45) 10 (-46) 10 50
    (calculate_distance (-45) 10 (-46) 10) tt
  = (Ok [echo_city], tt).
Proof.
  unfold fallback_cities. rewrite echo_scan.
  pose proof echo_total_distance as [T0 T1].
  unfold wants_interpolation.
  replace (Rltb 100 (calculate_distance (-45) 10 (-46) 10)) with true
    by (symmetry; apply Rltb_true; lra).
  rewrite num_points_for_short by lra.
  cbn [List.length Nat.ltb Nat.leb andb].
  change (range 1 (2 + 1)) with [1%Z; 2%Z].
  cbn [for_each]. unfold bind.
  rewrite echo_step.
  change (already_listed "Southport" []) with false. cbv iota zeta.
  cbn [app]. fold echo_point. fold echo_city.
  rewrite echo_step.
  change (already_listed "Southport" [echo_city]) with true.
  reflexivity.
Qed.

(** C4 at a failing input.  From Northport at (-45, 10) to Southport at
    (-46, 10), with no directions, no curated city near the route and a
    reverse geocoder that names the interpolation points "Southport", route
    resolution returns an intermediate city whose name is the end name. *)
Theorem echo_intermediate_is_end_city :
  find_cities_along_route Echo.world "Northport" "Southport" 50 tt
  = (Ok [echo_city], tt)
  /\ lower (name echo_city) = lower "Southport"
  /\ is_endpoint_name (name echo_city) "Northport" "Southport" = true.
Proof.
  split; [| split; reflexivity].
  unfold find_cities_along_route, bind.
  cbn [Echo.world geocode_location answer ret].
  change (Echo.geocoder "Northport")
    with (Some (mkCoords "Northport" (-45) 10 None)).
  change (Echo.geocoder "Southport")
    with (Some (mkCoords "Southport" (-46) 10 None)).
  cbv beta iota.
  unfold unsorted_route_cities, bind.
  cbn [Echo.world get_route_from_google_maps answer ret g_lat g_lon].
  rewrite echo_fallback. reflexivity.
Qed.

(** On the same route of about 111 km the reverse geocoder is asked
    about 2 interpolation points, where one point per 100 km with a minimum
    of 1 gives 1. *)
Example echo_two_points :
  List.length
    (calls_of (fallback_cities (traced Echo.world) "Northport" "Southport"
                 (-45) 10 (-46) 10 50 (calculate_distance (-45) 10 (-46) 10)
                 (tt, [])))
  = 2%nat
  /\ InterpolationSpec.num_points (calculate_distance (-45) 10 (-46) 10) = 1%Z.
Proof.
  pose proof echo_total_distance as [T0 T1]. split.
  - rewrite fallback_cities_calls, echo_scan.
    replace (Rltb 100 (calculate_distance (-45) 10 (-46) 10)) with true
      by (symmetry; apply Rltb_true; lra).
    rewrite num_points_for_short by lra. reflexivity.
  - unfold InterpolationSpec.num_points.
    rewrite (@int_between (calculate_distance (-45) 10 (-46) 10 / 100) 1);
      [reflexivity | lia | simpl; lra].
Qed.

(* ================================================================= *)
(** ** The weather loop and the report *)

Lemma strong_wind_severe (wt : weather) :
  Qgtb (get (wind_speed wt) 0%Q) 40 = true ->
  is_severe (assess_weather_severity wt) = true.
Proof.
  intros H. unfold assess_weather_severity.
  repeat match goal with
  | |- context [if ?c then _ else _] => destruct c eqn:?; try reflexivity
  end; congruence.
Qed.

Lemma str_in_any (word : string) (words : list string) (s : string) :
  In word words -> str_in word s = true -> any_in words s = true.
Proof.
  intros Hin H. unfold any_in. apply existsb_exists. now exists word.
Qed.

Lemma heavy_rain_severe (wt : weather) :
  str_in "heavy rain" (lower (get (condition wt) ""%string)) ||
  str_in "thunderstorm" (lower (get (condition wt) ""%string)) = true ->
  is_severe (assess_weather_severity wt) = true.
Proof.
  intros H. apply orb_true_iff in H.
  assert (K : any_in critical_words (lower (get (condition wt) ""%string)) = true
              \/ any_in high_words (lower (get (condition wt) ""%string)) = true).
  { destruct H as [H | H].
    - right. eapply str_in_any; [| exact H]. simpl. auto.
    - left. eapply str_in_any; [| exact H]. simpl. auto. }
  unfold assess_weather_severity.
  destruct K as [K | K]; rewrite ?K; [reflexivity |].
  repeat match goal with
  | |- context [if ?c then _ else _] => destruct c eqn:?; try reflexivity
  end; congruence.
Qed.

Lemma record_observation_batch_of (observed : list (route_city * weather))
    (c : route_city) (wt : weather) :
  record_observation (batch_of observed) c wt = batch_of (observed ++ [(c, wt)]).
Proof.
  unfold record_observation, batch_of. cbv zeta.
  cbn [b_city_weather b_weather_warnings b_severe_conditions].
  rewrite map_app, flat_map_app, filter_app, map_app.
  cbn [map flat_map filter fst snd].
  fold (assessment_of c wt). unfold warnings_of.
  f_equal.
  - destruct (Qgtb _ _); destruct (_ || _); cbn [app];
      rewrite ?app_nil_r, <- ?app_assoc; reflexivity.
  - change (cw_severity (assessment_of c wt))
      with (assess_weather_severity wt).
    destruct (assess_weather_severity wt); cbn [is_severe map];
      rewrite ?app_nil_r; reflexivity.
Qed.

Lemma subseq_refl {A : Type} (l : list A) : subseq l l.
Proof. induction l; constructor; assumption. Qed.

Lemma subseq_nil_l {A : Type} (l : list A) : subseq [] l.
Proof. induction l; constructor; assumption. Qed.

Lemma weather_loop_observed (W : Type) (env : collaborators W)
    (all_cities : list route_city) (observed0 : list (route_city * weather)) (w : W) :
  exists observed w',
    for_each all_cities (batch_of observed0) (fetch_city env) w
    = (Ok (batch_of (observed0 ++ observed)), w')
    /\ subseq (map fst observed) all_cities
    /\ Forall (fun p => success (snd p) = true) observed.
Proof.
  revert observed0 w. induction all_cities as [| c rest IH]; intros observed0 w.
  - exists [], w. rewrite app_nil_r. repeat split; constructor.
  - destruct (get_weather_data env (name c) w) as [r w1] eqn:E.
    destruct (fetch_unusable r) eqn:U.
    + destruct (IH observed0 w1) as [obs [w' [H1 [H2 H3]]]].
      exists obs, w'. split; [| split; [constructor; exact H2 | exact H3]].
      rewrite <- H1.
      replace w1 with (snd (get_weather_data env (name c) w)) by now rewrite E.
      apply for_each_ok_step. apply fetch_city_unusable. now rewrite E.
    + destruct r as [[| wt] | e]; try discriminate. cbn in U.
      apply negb_false_iff in U.
      destruct (IH (observed0 ++ [(c, wt)]) w1) as [obs [w' [H1 [H2 H3]]]].
      exists ((c, wt) :: obs), w'.
      split; [| split; [cbn; constructor; exact H2 | constructor; [exact U | exact H3]]].
      rewrite <- app_assoc in H1. cbn [app] in H1. rewrite <- H1.
      rewrite <- record_observation_batch_of.
      apply for_each_ok_step. now apply fetch_city_usable.
Qed.

Lemma recommendation_selection (cws : list city_weather)
    (warnings : list warning) (severe : list string) :
  generate_route_recommendation cws warnings severe =
  Ok (RecommendSpec.text (RecommendSpec.select cws)).
Proof.
  unfold generate_route_recommendation, RecommendSpec.select.
  destruct cws as [| c0 rest]; [reflexivity |].
  set (cws := c0 :: rest).
  rewrite count_severities_lengths. cbn [n_critical n_high n_medium].
  rewrite half_total_le. unfold cities_with.
  fold (RecommendSpec.has critical cws). fold (RecommendSpec.has high cws).
  destruct (RecommendSpec.has critical cws) as [| k ks]; [| reflexivity].
  cbn [List.length Nat.ltb Nat.leb].
  destruct (RecommendSpec.has high cws) as [| h [| h' hs]];
    cbn [List.length Nat.leb Nat.eqb map next RecommendSpec.text];
    try reflexivity.
  destruct (List.length cws <=? _)%nat; reflexivity.
Qed.

(** What a run that ends in a report went through. *)
Lemma analysis_success_inv (W : Type) (env : collaborators W)
    (start_city end_city : string) (date : option string) (w w' : W) (r : report) :
  get_route_weather_analysis env start_city end_city date w = (Ok (Success r), w') ->
  exists sc ec w1 w2 inter w3 observed w4,
    geocode_location env start_city w = (Ok (Some sc), w1)
    /\ geocode_location env end_city w1 = (Ok (Some ec), w2)
    /\ find_cities_along_route env start_city end_city 50 w2 = (Ok inter, w3)
    /\ for_each
         (all_cities_of sc ec
            (calculate_distance (g_lat sc) (g_lon sc) (g_lat ec) (g_lon ec)) inter)
         (mkBatch [] [] []) (fetch_city env) w3
       = (Ok (batch_of observed), w4)
    /\ subseq (map fst observed)
         (all_cities_of sc ec
            (calculate_distance (g_lat sc) (g_lon sc) (g_lat ec) (g_lon ec)) inter)
    /\ Forall (fun p => success (snd p) = true) observed
    /\ route r =
       mkRouteSummary start_city end_city
         (round2 (calculate_distance (g_lat sc) (g_lon sc) (g_lat ec) (g_lon ec)))
         (2 + List.length inter)
    /\ cities r = b_city_weather (batch_of observed)
    /\ weather_warnings r = b_weather_warnings (batch_of observed)
    /\ severe_conditions r = b_severe_conditions (batch_of observed)
    /\ recommendation r
       = RecommendSpec.text (RecommendSpec.select (cities r))
    /\ datetime_now_isoformat env w4 = (Ok (timestamp r), w').
Proof.
  unfold get_route_weather_analysis, try_except, analysis_body, bind.
  destruct (geocode_location env start_city w) as [[sc | e] w1] eqn:G1;
    [| unfold ret; discriminate].
  destruct (geocode_location env end_city w1) as [[ec | e] w2] eqn:G2;
    [| unfold ret; discriminate].
  destruct sc as [sc |]; [| unfold ret; discriminate].
  destruct ec as [ec |]; [| unfold ret; discriminate].
  destruct (find_cities_along_route env start_city end_city 50 w2)
    as [[inter | e] w3] eqn:Fi; [| unfold ret; discriminate].
  set (total := calculate_distance (g_lat sc) (g_lon sc) (g_lat ec) (g_lon ec)).
  destruct (weather_loop_observed env (all_cities_of sc ec total inter) [] w3)
    as [observed [w4 [L [S F]]]].
  change (batch_of []) with (mkBatch [] [] []) in L. cbn [app] in L.
  rewrite L. unfold lift. rewrite recommendation_selection.
  destruct (datetime_now_isoformat env w4) as [[now | e] w5] eqn:Cl;
    unfold ret; intros E; inversion E; subst; clear E.
  exists sc, ec, w1, w2, inter, w3, observed, w4.
  cbn [route cities weather_warnings severe_conditions recommendation timestamp].
  repeat split; try assumption; try reflexivity.
  f_equal. unfold all_cities_of. cbn [app List.length].
  rewrite length_app. cbn [List.length]. lia.
Qed.

Lemma warnings_of_severe (c : route_city) (wt : weather) (wn : warning) :
  In wn (warnings_of c wt) ->
  warning_city wn = name c /\ is_severe (assess_weather_severity wt) = true.
Proof.
  unfold warnings_of. intros H. apply in_app_or in H.
  destruct H as [H | H].
  - destruct (Qgtb _ _) eqn:Q; [| contradiction].
    destruct H as [<- | []]. split; [reflexivity | now apply strong_wind_severe].
  - destruct (_ || _) eqn:Q; [| contradiction].
    destruct H as [<- | []]. split; [reflexivity | now apply heavy_rain_severe].
Qed.

Lemma warnings_of_length (c : route_city) (wt : weather) :
  (List.length (warnings_of c wt) <= 2)%nat.
Proof.
  unfold warnings_of. rewrite length_app.
  destruct (Qgtb _ _); destruct (_ || _); cbn; lia.
Qed.

Lemma batch_of_warnings (observed : list (route_city * weather)) :
  Forall (fun wn =>
            exists cw, In cw (b_city_weather (batch_of observed))
                       /\ city cw = warning_city wn
                       /\ is_severe (cw_severity cw) = true)
         (b_weather_warnings (batch_of observed))
  /\ (List.length (b_weather_warnings (batch_of observed))
      <= 2 * List.length (b_city_weather (batch_of observed)))%nat.
Proof.
  unfold batch_of. cbn [b_city_weather b_weather_warnings]. split.
  - apply Forall_forall. intros wn H. apply in_flat_map in H.
    destruct H as [[c wt] [Hin Hw]]. cbn [fst snd] in Hw.
    apply warnings_of_severe in Hw. destruct Hw as [Hc Hs].
    exists (assessment_of c wt). split; [| split].
    + apply in_map_iff. now exists (c, wt).
    + now rewrite Hc.
    + exact Hs.
  - rewrite length_map. induction observed as [| [c wt] rest IH]; [cbn; lia |].
    cbn [flat_map List.length fst snd]. rewrite length_app.
    pose proof (warnings_of_length c wt). lia.
Qed.

Lemma has_nil (s : severity) (cws : list city_weather) :
  RecommendSpec.has s cws = [] <->
  forall cw, In cw cws -> cw_severity cw <> s.
Proof.
  unfold RecommendSpec.has. split.
  - intros E cw Hin Hs.
    assert (H : In cw (filter (fun c => severity_eqb (cw_severity c) s) cws))
      by (apply filter_In; split; [exact Hin | now apply severity_eqb_eq]).
    rewrite E in H. contradiction.
  - intros H. destruct (filter _ cws) as [| x xs] eqn:E; [reflexivity |].
    assert (Hx : In x (filter (fun c => severity_eqb (cw_severity c) s) cws))
      by (rewrite E; now left).
    apply filter_In in Hx. destruct Hx as [Hin Hs].
    apply severity_eqb_eq in Hs. exfalso. exact (H x Hin Hs).
Qed.

Lemma no_severe_iff (cws : list city_weather) :
  filter (fun cw => is_severe (cw_severity cw)) cws = [] <->
  RecommendSpec.has critical cws = [] /\ RecommendSpec.has high cws = [].
Proof.
  rewrite !has_nil. split.
  - intros E. split; intros cw Hin Hs;
      assert (H : In cw (filter (fun cw => is_severe (cw_severity cw)) cws))
        by (apply filter_In; split; [exact Hin | now rewrite Hs]);
      rewrite E in H; contradiction.
  - intros [Hc Hh].
    destruct (filter _ cws) as [| x xs] eqn:E; [reflexivity |].
    assert (Hx : In x (filter (fun cw => is_severe (cw_severity cw)) cws))
      by (rewrite E; now left).
    apply filter_In in Hx. destruct Hx as [Hin Hs].
    specialize (Hc x Hin). specialize (Hh x Hin).
    destruct (cw_severity x); try discriminate; congruence.
Qed.

Lemma select_advises (cws : list city_weather) :
  advises_against (RecommendSpec.select cws) = false <->
  RecommendSpec.has critical cws = [] /\ RecommendSpec.has high cws = [].
Proof.
  unfold RecommendSpec.select. destruct cws as [| c0 rest].
  - cbn. tauto.
  - cbv beta iota.
    destruct (RecommendSpec.has critical (c0 :: rest)) as [| k ks];
    destruct (RecommendSpec.has high (c0 :: rest)) as [| h [| h' hs]];
    cbn [advises_against];
    try (split; [discriminate | intros [? ?]; discriminate]).
    destruct (_ <=? _)%nat; cbn [advises_against]; tauto.
Qed.

Lemma severe_lines_nonempty (cws : list city_weather) :
  map severe_line (filter (fun cw => is_severe (cw_severity cw)) cws) <> []
  <-> advises_against (RecommendSpec.select cws) = true.
Proof.
  pose proof (no_severe_iff cws) as N. pose proof (select_advises cws) as A.
  destruct (advises_against (RecommendSpec.select cws)).
  - split; [reflexivity |]. intros _ E. apply map_eq_nil in E.
    apply N in E. apply A in E. discriminate.
  - split; [| discriminate]. intros H. exfalso. apply H.
    assert (E : filter (fun cw => is_severe (cw_severity cw)) cws = [])
      by (apply N; apply A; reflexivity).
    now rewrite E.
Qed.

Lemma subseq_length {A : Type} (l1 l2 : list A) :
  subseq l1 l2 -> (List.length l1 <= List.length l2)%nat.
Proof. induction 1; cbn; lia. Qed.

(** X1.  The weather loop never raises.  The cities it assesses are
    route cities taken in route order, some left out; each assessment copies
    its city's name, state, distance and start and end flags, carries an
    observation whose [success] is true and the severity the classifier
    gives that observation. *)
Theorem weather_loop_keeps_route_order
    (W : Type) (env : collaborators W) (all_cities : list route_city) (w : W) :
  exists observed b w',
    for_each all_cities (mkBatch [] [] []) (fetch_city env) w = (Ok b, w')
    /\ b_city_weather b = map (fun p => assessment_of (fst p) (snd p)) observed
    /\ subseq (map fst observed) all_cities
    /\ Forall (fun p => success (snd p) = true) observed.
Proof.
  destruct (weather_loop_observed env all_cities [] w) as [obs [w' [L [S F]]]].
  exists obs, (batch_of obs), w'. repeat split; assumption.
Qed.

(** X2.  After the weather loop the severe conditions are, in order,
    one line "city: condition" for each assessed city of severity HIGH or
    CRITICAL, and nothing else. *)
Theorem weather_loop_severe_conditions
    (W : Type) (env : collaborators W) (all_cities : list route_city) (w : W) :
  exists b w',
    for_each all_cities (mkBatch [] [] []) (fetch_city env) w = (Ok b, w')
    /\ b_severe_conditions b
       = map severe_line
           (filter (fun cw => is_severe (cw_severity cw)) (b_city_weather b)).
Proof.
  destruct (weather_loop_observed env all_cities [] w) as [obs [w' [L _]]].
  exists (batch_of obs), w'. split; [exact L | reflexivity].
Qed.

(** X3.  After the weather loop every warning is about an assessed city
    of severity HIGH or CRITICAL, and there are at most two warnings per
    assessed city. *)
Theorem weather_loop_warnings_are_severe
    (W : Type) (env : collaborators W) (all_cities : list route_city) (w : W) :
  exists b w',
    for_each all_cities (mkBatch [] [] []) (fetch_city env) w = (Ok b, w')
    /\ Forall (fun wn =>
                 exists cw, In cw (b_city_weather b)
                            /\ city cw = warning_city wn
                            /\ is_severe (cw_severity cw) = true)
              (b_weather_warnings b)
    /\ (List.length (b_weather_warnings b)
        <= 2 * List.length (b_city_weather b))%nat.
Proof.
  destruct (weather_loop_observed env all_cities [] w) as [obs [w' [L _]]].
  exists (batch_of obs), w'. split; [exact L | apply batch_of_warnings].
Qed.

(* ================================================================= *)
(** ** Three more runs on the overshooting route *)

Lemma storm_run :
  get_route_weather_analysis Storm.world "Startville" "Endville" None tt
  = (Ok (Success storm_report), tt).
Proof.
  unfold get_route_weather_analysis, try_except, analysis_body, bind.
  change (geocode_location Storm.world "Startville" tt)
    with (Ok (Some (mkCoords "Startville" 10 10 None)), tt).
  cbv beta iota.
  change (geocode_location Storm.world "Endville" tt)
    with (Ok (Some (mkCoords "Endville" 11 10 None)), tt).
  cbv beta iota.
  unfold Storm.world. rewrite overshoot_resolution.
  unfold all_cities_of. cbn [app g_name g_lat g_lon g_state get for_each].
  unfold bind.
  rewrite !fetch_city_usable with (wt := storm_sky) (w1 := tt) by reflexivity.
  reflexivity.
Qed.

Lemma blackout_run :
  get_route_weather_analysis Blackout.world "Startville" "Endville" None tt
  = (Ok (Success blackout_report), tt).
Proof.
  unfold get_route_weather_analysis, try_except, analysis_body, bind.
  change (geocode_location Blackout.world "Startville" tt)
    with (Ok (Some (mkCoords "Startville" 10 10 None)), tt).
  cbv beta iota.
  change (geocode_location Blackout.world "Endville" tt)
    with (Ok (Some (mkCoords "Endville" 11 10 None)), tt).
  cbv beta iota.
  unfold Blackout.world. rewrite overshoot_resolution.
  unfold all_cities_of. cbn [app g_name g_lat g_lon g_state get for_each].
  unfold bind.
  rewrite !fetch_city_unusable by reflexivity.
  reflexivity.
Qed.

(** X4.  A report names the start and the end as they were asked for,
    gives a total distance that is not negative, counts at least the two
    end cities, lists no more assessed cities than it counts, and recommends
    what the selection over its own list of assessed cities gives. *)
Theorem report_shape
    (W : Type) (env : collaborators W) (start_city end_city : string)
    (date : option string) (w w' : W) (r : report) :
  get_route_weather_analysis env start_city end_city date w
  = (Ok (Success r), w') ->
  route_start (route r) = start_city
  /\ route_end (route r) = end_city
  /\ 0 <= total_distance_km (route r)
  /\ (2 <= cities_count (route r))%nat
  /\ (List.length (cities r) <= cities_count (route r))%nat
  /\ recommendation r = RecommendSpec.text (RecommendSpec.select (cities r)).
Proof.
  intros H. apply analysis_success_inv in H.
  destruct H as (sc & ec & w1 & w2 & inter & w3 & obs & w4 & _ & _ & _ & _
                 & S & _ & Hr & Hc & _ & _ & Hrec & _).
  rewrite Hr. cbn [route_start route_end total_distance_km cities_count].
  repeat split; try lia; try exact Hrec.
  - apply rounded_distance_nonneg.
  - rewrite Hc. unfold batch_of. cbn [b_city_weather]. rewrite length_map.
    apply subseq_length in S. rewrite !length_map in S.
    unfold all_cities_of in S. cbn [app List.length] in S.
    rewrite length_app in S. cbn [List.length] in S. lia.
Qed.

Lemma report_shape_overshoot :
  route_start (route overshoot_report) = "Startville"%string
  /\ route_end (route overshoot_report) = "Endville"%string
  /\ 0 <= total_distance_km (route overshoot_report)
  /\ (2 <= cities_count (route overshoot_report))%nat
  /\ (List.length (cities overshoot_report)
      <= cities_count (route overshoot_report))%nat
  /\ recommendation overshoot_report
     = RecommendSpec.text (RecommendSpec.select (cities overshoot_report)).
Proof.
  exact (@report_shape unit Overshoot.world "Startville" "Endville" None tt tt
           overshoot_report overshoot_run).
Defined.

(** X5.  In a report the severe conditions are not empty exactly when
    the recommendation is one of the three verdicts that name cities (do not
    travel, travel not recommended, caution advised); and a report with a
    weather warning has a severe condition. *)
Theorem report_advice_follows_severe_conditions
    (W : Type) (env : collaborators W) (start_city end_city : string)
    (date : option string) (w w' : W) (r : report) :
  get_route_weather_analysis env start_city end_city date w
  = (Ok (Success r), w') ->
  (severe_conditions r <> [] <->
   advises_against (RecommendSpec.select (cities r)) = true)
  /\ (weather_warnings r <> [] -> severe_conditions r <> []).
Proof.
  intros H. apply analysis_success_inv in H.
  destruct H as (sc & ec & w1 & w2 & inter & w3 & obs & w4 & _ & _ & _ & _
                 & _ & _ & _ & Hc & Hw & Hs & _ & _).
  rewrite Hs, Hw, Hc. split.
  - apply severe_lines_nonempty.
  - intros Hne.
    destruct (batch_of_warnings obs) as [F _].
    destruct (b_weather_warnings (batch_of obs)) as [| wn wns];
      [congruence |].
    inversion F as [| ? ? [cw [Hin [_ Hsev]]] _]; subst.
    cbn [batch_of b_severe_conditions b_city_weather] in *.
    intros E. apply map_eq_nil in E.
    assert (Hf : In cw (filter (fun cw => is_severe (cw_severity cw))
                          (map (fun p => assessment_of (fst p) (snd p)) obs)))
      by (apply filter_In; split; assumption).
    rewrite E in Hf. contradiction.
Qed.

Lemma report_advice_storm :
  (severe_conditions storm_report <> [] <->
   advises_against (RecommendSpec.select (cities storm_report)) = true)
  /\ (weather_warnings storm_report <> [] -> severe_conditions storm_report <> []).
Proof.
  exact (@report_advice_follows_severe_conditions unit Storm.world
           "Startville" "Endville" None tt tt storm_report storm_run).
Defined.

Lemma all_unusable_loop (W : Type) (env : collaborators W)
    (all_cities : list route_city) (b : batch) (w : W) :
  (forall city_name w0,
      fetch_unusable (fst (get_weather_data env city_name w0)) = true) ->
  exists w', for_each all_cities b (fetch_city env) w = (Ok b, w').
Proof.
  intros U. revert w. induction all_cities as [| c rest IH]; intros w.
  - now exists w.
  - destruct (IH (snd (get_weather_data env (name c) w))) as [w' E].
    exists w'. rewrite <- E. apply for_each_ok_step.
    apply fetch_city_unusable. apply U.
Qed.

(** X6.  If no weather fetch gives a usable observation, an analysis
    that reaches its report still reports success, with no assessed city,
    no warning, no severe condition and the no-data recommendation. *)
Theorem analysis_without_weather
    (W : Type) (env : collaborators W) (start_city end_city : string)
    (date : option string) (w w' : W) (r : report) :
  (forall city_name w0,
      fetch_unusable (fst (get_weather_data env city_name w0)) = true) ->
  get_route_weather_analysis env start_city end_city date w
  = (Ok (Success r), w') ->
  cities r = [] /\ weather_warnings r = [] /\ severe_conditions r = []
  /\ recommendation r = msg_no_data.
Proof.
  intros U H. apply analysis_success_inv in H.
  destruct H as (sc & ec & w1 & w2 & inter & w3 & obs & w4 & _ & _ & _ & L
                 & _ & _ & _ & Hc & Hw & Hs & Hrec & _).
  destruct (all_unusable_loop env
              (all_cities_of sc ec
                 (calculate_distance (g_lat sc) (g_lon sc) (g_lat ec) (g_lon ec))
                 inter) (mkBatch [] [] []) w3 U) as [w5 E].
  rewrite E in L. injection L as Hb _.
  assert (O : obs = []).
  { destruct obs as [| p obs']; [reflexivity |].
    unfold batch_of in Hb. cbn [map] in Hb. discriminate. }
  subst obs. rewrite Hrec, Hc, Hw, Hs. repeat split; reflexivity.
Qed.

Lemma analysis_without_weather_blackout :
  (forall city_name w0,
      fetch_unusable (fst (get_weather_data Blackout.world city_name w0)) = true)
  /\ cities blackout_report = []
  /\ weather_warnings blackout_report = []
  /\ severe_conditions blackout_report = []
  /\ recommendation blackout_report = msg_no_data.
Proof.
  assert (U : forall city_name w0,
             fetch_unusable (fst (get_weather_data Blackout.world city_name w0))
             = true) by reflexivity.
  split; [exact U |].
  exact (@analysis_without_weather unit Blackout.world "Startville" "Endville"
           None tt tt blackout_report U blackout_run).
Defined.

(** X7.  When a geocoder lookup finds nothing for the start or for the
    end, the analysis fails with the reason "Could not geocode start or end
    city" and leaves the world as the two lookups left it: no directions,
    reverse-geocoding or weather call is made.  When a lookup raises, the
    reason is the text of the exception, and a lookup of the start that
    raises keeps the end from being looked up. *)
Theorem analysis_geocoding_failure_reason
    (W : Type) (env : collaborators W) (start_city end_city : string)
    (date : option string) (w : W) :
  (forall r1 w1 r2 w2,
      geocode_location env start_city w = (Ok r1, w1) ->
      geocode_location env end_city w1 = (Ok r2, w2) ->
      r1 = None \/ r2 = None ->
      get_route_weather_analysis env start_city end_city date w
      = (Ok (Failure "Could not geocode start or end city"), w2))
  /\ (forall e w1,
      geocode_location env start_city w = (Raise e, w1) ->
      get_route_weather_analysis env start_city end_city date w
      = (Ok (Failure e), w1))
  /\ (forall r1 w1 e w2,
      geocode_location env start_city w = (Ok r1, w1) ->
      geocode_location env end_city w1 = (Raise e, w2) ->
      get_route_weather_analysis env start_city end_city date w
      = (Ok (Failure e), w2)).
Proof.
  unfold get_route_weather_analysis, try_except, analysis_body, bind.
  split; [| split].
  - intros r1 w1 r2 w2 G1 G2 N. rewrite G1, G2.
    destruct N as [-> | ->]; [reflexivity |]. now destruct r1.
  - intros e w1 G1. now rewrite G1.
  - intros r1 w1 e w2 G1 G2. now rewrite G1, G2.
Qed.

Lemma analysis_unknown_end :
  geocode_location Overshoot.world "Startville" tt
  = (Ok (Some (mkCoords "Startville" 10 10 None)), tt)
  /\ geocode_location Overshoot.world "Nowhere" tt = (Ok None, tt)
  /\ get_route_weather_analysis Overshoot.world "Startville" "Nowhere" None tt
     = (Ok (Failure "Could not geocode start or end city"), tt).
Proof.
  split; [reflexivity |]. split; [reflexivity |].
  destruct (@analysis_geocoding_failure_reason unit Overshoot.world
              "Startville" "Nowhere" None tt) as (H & _).
  apply (H (Some (mkCoords "Startville" 10 10 None)) tt None tt);
    [reflexivity | reflexivity | right; reflexivity].
Defined.

(* ================================================================= *)
(** ** More on route resolution *)









(** X10.  When a geocoder lookup finds nothing for the start or for the
    end, route resolution returns the empty list and leaves the world as the
    two lookups left it: the directions provider is not asked. *)
Theorem find_cities_geocoding_failure (W : Type) (env : collaborators W)
    (start_city end_city : string) (threshold_km : R) (w w1 w2 : W)
    (r1 r2 : option coords) :
  geocode_location env start_city w = (Ok r1, w1) ->
  geocode_location env end_city w1 = (Ok r2, w2) ->
  r1 = None \/ r2 = None ->
  find_cities_along_route env start_city end_city threshold_km w = (Ok [], w2).
Proof.
  intros G1 G2 N. unfold find_cities_along_route, bind. rewrite G1, G2.
  destruct N as [-> | ->]; [reflexivity |]. now destruct r1.
Qed.










Lemma sample_from_length {A : Type} (k c : nat) (xs : list A) :
  (c < k)%nat ->
  List.length (sample_from k c xs) = ((List.length xs + (k - 1 - c)) / k)%nat.
Proof.
  revert c. induction xs as [| x t IH]; intros c Hc.
  - cbn [sample_from List.length]. symmetry. apply Nat.div_small. lia.
  - destruct c as [| c']; cbn [sample_from List.length].
    + rewrite IH by lia.
      replace (k - 1 - (k - 1))%nat with 0%nat by lia.
      replace (S (List.length t) + (k - 1 - 0))%nat
        with (List.length t + 0 + 1 * k)%nat by lia.
      rewrite Nat.div_add by lia. lia.
    + rewrite IH by lia. f_equal. lia.
Qed.

Lemma sample_length {A : Type} (xs : list A) :
  List.length (sample 10 xs) = ((List.length xs + 9) / 10)%nat.
Proof. unfold sample. now rewrite sample_from_length by lia. Qed.






Lemma visit_waypoint_one_call (W : Type) (env : collaborators W)
    (start_city end_city : string) (st : list place * list string)
    (wp : waypoint) (w : W) (t : list (R * R)) :
  exists extra,
    calls_of (visit_waypoint (traced env) start_city end_city st wp (w, t))
    = t ++ extra
    /\ (List.length extra <= 1)%nat.
Proof.
  unfold visit_waypoint, calls_of. destruct st as [cities seen].
  destruct (truthy (wp_lat wp) && truthy (wp_lon wp));
    [| exists []; rewrite app_nil_r; split; [reflexivity | cbn; lia]].
  destruct (wp_lat wp) as [la |], (wp_lon wp) as [lo |];
    try (exists []; rewrite app_nil_r; split; [reflexivity | cbn; lia]).
  unfold bind. cbn [traced reverse_geocode fst snd].
  exists [(la, lo)]. split; [| cbn; lia].
  destruct (reverse_geocode env la lo w) as [[[ci |] | e] w1]; cbn [snd];
    try reflexivity.
  destruct (nonempty (ci_name ci)); [| reflexivity].
  match goal with
  | |- context [if ?c then _ else _] => destruct c
  end; reflexivity.
Qed.

Lemma visit_loop_calls (W : Type) (env : collaborators W)
    (start_city end_city : string) (wps : list waypoint)
    (st : list place * list string) (w : W) (t : list (R * R)) :
  exists extra,
    calls_of (for_each wps st
                (visit_waypoint (traced env) start_city end_city) (w, t))
    = t ++ extra
    /\ (List.length extra <= List.length wps)%nat.
Proof.
  revert st w t. induction wps as [| wp wps IH]; intros st w t.
  - exists []. rewrite app_nil_r. split; [reflexivity | cbn; lia].
  - cbn [for_each]. unfold bind.
    destruct (visit_waypoint_one_call env start_city end_city st wp w t)
      as [e1 [E1 L1]].
    destruct (visit_waypoint (traced env) start_city end_city st wp (w, t))
      as [[st1 | e] [w1 t1]]; unfold calls_of in E1; cbn [snd] in E1; subst t1.
    + destruct (IH st1 w1 (t ++ e1)) as [e2 [E2 L2]].
      exists (e1 ++ e2). rewrite E2, app_assoc. split; [reflexivity |].
      rewrite length_app. cbn [List.length]. lia.
    + exists e1. split; [reflexivity | cbn [List.length]; lia].
Qed.

(** X13.  Searching the waypoints of a route makes at most one
    reverse-geocoding call per tenth waypoint, rounded up. *)
Theorem waypoint_search_call_bound (W : Type) (env : collaborators W)
    (waypoints : list waypoint) (start_city end_city : string) (w : W) :
  (List.length
     (calls_of (find_cities_from_route_waypoints (traced env) waypoints
                  start_city end_city 10 (w, [])))
   <= (List.length waypoints + 9) / 10)%nat.
Proof.
  unfold find_cities_from_route_waypoints, bind.
  destruct (visit_loop_calls env start_city end_city (sample 10 waypoints)
              ([], []) w []) as [extra [E L]].
  rewrite sample_length in L. cbn [app] in E.
  destruct (for_each (sample 10 waypoints) ([], [])
              (visit_waypoint (traced env) start_city end_city) (w, []))
    as [[st1 | e] [w1 t1]]; unfold calls_of in *; cbn [snd] in *;
    subst t1; exact L.
Qed.






Lemma find_cities_unknown_end :
  geocode_location Overshoot.world "Startville" tt
  = (Ok (Some (mkCoords "Startville" 10 10 None)), tt)
  /\ geocode_location Overshoot.world "Nowhere" tt = (Ok None, tt)
  /\ find_cities_along_route Overshoot.world "Startville" "Nowhere" 50 tt
     = (Ok [], tt).
Proof.
  split; [reflexivity |]. split; [reflexivity |].
  apply (@find_cities_geocoding_failure unit Overshoot.world
           "Startville" "Nowhere" 50 tt tt tt
           (Some (mkCoords "Startville" 10 10 None)) None);
    [reflexivity | reflexivity | right; reflexivity].
Defined.




(* ================================================================= *)
(** ** More on the severity classifier *)

Lemma Qgtb_mono (a b k : Q) : (a <= b)%Q -> Qgtb a k = true -> Qgtb b k = true.
Proof.
  intros L H. apply Qgtb_lt in H. apply Qgtb_lt.
  eapply Qlt_le_trans; eassumption.
Qed.

Lemma Qltb_mono (a b k : Q) : (b <= a)%Q -> Qltb a k = true -> Qltb b k = true.
Proof.
  intros L H. apply Qltb_lt in H. apply Qltb_lt.
  eapply Qle_lt_trans; eassumption.
Qed.

Lemma Qgtb_false (a k : Q) : (a <= k)%Q -> Qgtb a k = false.
Proof.
  intros L. unfold Qgtb. apply negb_false_iff. now apply Qle_bool_iff.
Qed.

Lemma Qltb_false (a k : Q) : (k <= a)%Q -> Qltb a k = false.
Proof.
  intros L. unfold Qltb. apply negb_false_iff. now apply Qle_bool_iff.
Qed.

Ltac split_guards :=
  repeat match goal with
  | |- context [if ?c then _ else _] => destruct c eqn:?
  end.

(** X16.  With the condition text and the temperature unchanged, a
    higher wind speed never gives a lower severity. *)
Theorem severity_grows_with_wind (ok : bool) (c : option string)
    (t : option Q) (wind1 wind2 : Q) :
  (wind1 <= wind2)%Q ->
  (severity_rank (assess_weather_severity (mkWeather ok c (Some wind1) t))
   <= severity_rank (assess_weather_severity (mkWeather ok c (Some wind2) t)))%nat.
Proof.
  intros L. unfold assess_weather_severity.
  cbn [condition wind_speed temperature get].
  pose proof (@Qgtb_mono wind1 wind2 60 L) as M60.
  pose proof (@Qgtb_mono wind1 wind2 40 L) as M40.
  pose proof (@Qgtb_mono wind1 wind2 25 L) as M25.
  destruct (Qgtb wind1 60); [rewrite (M60 eq_refl) |];
  destruct (Qgtb wind1 40); try rewrite (M40 eq_refl);
  destruct (Qgtb wind1 25); try rewrite (M25 eq_refl);
  split_guards; cbn [severity_rank]; lia.
Qed.

(** X17.  With the condition text and the wind unchanged, a temperature
    further from the mild range never gives a lower severity: going up from
    8 degrees or more, and going down from 38 degrees or less. *)
Theorem severity_grows_away_from_mild (ok : bool) (c : option string)
    (ws : option Q) (t1 t2 : Q) :
  ((8 <= t1)%Q /\ (t1 <= t2)%Q) \/ ((t2 <= t1)%Q /\ (t1 <= 38)%Q) ->
  (severity_rank (assess_weather_severity (mkWeather ok c ws (Some t1)))
   <= severity_rank (assess_weather_severity (mkWeather ok c ws (Some t2))))%nat.
Proof.
  intros H. unfold assess_weather_severity.
  cbn [condition wind_speed temperature get].
  destruct H as [[B L] | [L B]].
  - assert (B2 : (8 <= t2)%Q) by (eapply Qle_trans; eassumption).
    assert (C : forall k t, (k <= 8)%Q -> (8 <= t)%Q -> Qltb t k = false).
    { intros k t K T. apply Qltb_false. eapply Qle_trans; eassumption. }
    rewrite !(C (-5)%Q t1), !(C 2%Q t1), !(C 8%Q t1),
            !(C (-5)%Q t2), !(C 2%Q t2), !(C 8%Q t2)
      by (assumption || (unfold Qle; cbn; lia)).
    rewrite !orb_false_r.
    pose proof (@Qgtb_mono t1 t2 48 L) as M48.
    pose proof (@Qgtb_mono t1 t2 43 L) as M43.
    pose proof (@Qgtb_mono t1 t2 38 L) as M38.
    destruct (Qgtb t1 48); [rewrite (M48 eq_refl) |];
    destruct (Qgtb t1 43); try rewrite (M43 eq_refl);
    destruct (Qgtb t1 38); try rewrite (M38 eq_refl);
    split_guards; cbn [severity_rank]; lia.
  - assert (B2 : (t2 <= 38)%Q) by (eapply Qle_trans; eassumption).
    assert (C : forall k t, (38 <= k)%Q -> (t <= 38)%Q -> Qgtb t k = false).
    { intros k t K T. apply Qgtb_false. eapply Qle_trans; eassumption. }
    rewrite !(C 48%Q t1), !(C 43%Q t1), !(C 38%Q t1),
            !(C 48%Q t2), !(C 43%Q t2), !(C 38%Q t2)
      by (assumption || (unfold Qle; cbn; lia)).
    cbn [orb].
    pose proof (@Qltb_mono t1 t2 (-5) L) as M5.
    pose proof (@Qltb_mono t1 t2 2 L) as M2.
    pose proof (@Qltb_mono t1 t2 8 L) as M8.
    destruct (Qltb t1 (-5)); [rewrite (M5 eq_refl) |];
    destruct (Qltb t1 2); try rewrite (M2 eq_refl);
    destruct (Qltb t1 8); try rewrite (M8 eq_refl);
    split_guards; cbn [severity_rank]; lia.
Qed.

Lemma lower_app (a b : string) : lower (a ++ b) = (lower a ++ lower b)%string.
Proof. induction a as [| c a IH]; cbn; [reflexivity | now rewrite IH]. Qed.

Lemma append_assoc (a b c : string) :
  ((a ++ b) ++ c)%string = (a ++ (b ++ c))%string.
Proof. induction a as [| x a IH]; cbn; [reflexivity | now rewrite IH]. Qed.

Lemma str_in_extend (word text pre post : string) :
  str_in word (lower text) = true ->
  str_in word (lower (pre ++ text ++ post)) = true.
Proof.
  intros H. apply str_in_substring in H. destruct H as [p [q E]].
  apply str_in_substring. exists (lower pre ++ p)%string, (q ++ lower post)%string.
  rewrite !lower_app, E, !append_assoc. reflexivity.
Qed.

Lemma any_in_extend (words : list string) (text pre post : string) :
  any_in words (lower text) = true ->
  any_in words (lower (pre ++ text ++ post)) = true.
Proof.
  unfold any_in. rewrite !existsb_exists. intros [w [Hin H]].
  exists w. split; [exact Hin | now apply str_in_extend].
Qed.

(** X18.  Keywords are looked for anywhere in the condition text, so
    text put before or after a condition never gives a lower severity. *)
Theorem severity_grows_with_text (ok : bool) (text pre post : string)
    (ws t : option Q) :
  (severity_rank (assess_weather_severity (mkWeather ok (Some text) ws t))
   <= severity_rank
        (assess_weather_severity
           (mkWeather ok (Some (pre ++ text ++ post)%string) ws t)))%nat.
Proof.
  unfold assess_weather_severity.
  cbn [condition wind_speed temperature get].
  pose proof (@any_in_extend critical_words text pre post) as Mc.
  pose proof (@any_in_extend high_words text pre post) as Mh.
  pose proof (@any_in_extend medium_words text pre post) as Mm.
  destruct (any_in critical_words (lower text)); [rewrite (Mc eq_refl) |];
  destruct (any_in high_words (lower text)); try rewrite (Mh eq_refl);
  destruct (any_in medium_words (lower text)); try rewrite (Mm eq_refl);
  split_guards; cbn [severity_rank]; lia.
Qed.

Lemma severity_grows_with_wind_30_50 :
  (30 <= 50)%Q
  /\ (severity_rank
        (assess_weather_severity
           (mkWeather true (Some "Clear"%string) (Some 30%Q) (Some 25%Q)))
      <= severity_rank
           (assess_weather_severity
              (mkWeather true (Some "Clear"%string) (Some 50%Q) (Some 25%Q))))%nat.
Proof.
  assert (L : (30 <= 50)%Q) by (unfold Qle; cbn; lia).
  split; [exact L |].
  exact (@severity_grows_with_wind true (Some "Clear"%string) (Some 25%Q)
           30%Q 50%Q L).
Defined.

Lemma severity_grows_away_from_mild_40_45 :
  (((8 <= 40)%Q /\ (40 <= 45)%Q) \/ ((45 <= 40)%Q /\ (40 <= 38)%Q))
  /\ (severity_rank
        (assess_weather_severity
           (mkWeather true (Some "Clear"%string) (Some 10%Q) (Some 40%Q)))
      <= severity_rank
           (assess_weather_severity
              (mkWeather true (Some "Clear"%string) (Some 10%Q) (Some 45%Q))))%nat.
Proof.
  assert (H : ((8 <= 40)%Q /\ (40 <= 45)%Q) \/ ((45 <= 40)%Q /\ (40 <= 38)%Q))
    by (left; split; unfold Qle; cbn; lia).
  split; [exact H |].
  exact (@severity_grows_away_from_mild true (Some "Clear"%string) (Some 10%Q)
           40%Q 45%Q H).
Defined.

(* ================================================================= *)
(** ** More on distances, proximity and rounding *)


(** X20.  Two points of the same longitude whose latitudes differ by at
    most 180 degrees are as far apart as the arc between the latitudes: 6371
    km times the difference in radians. *)
Theorem calculate_distance_on_meridian (lat1 lat2 lon0 : R) :
  Rabs (lat2 - lat1) <= 180 ->
  calculate_distance lat1 lon0 lat2 lon0 = 6371 * radians (Rabs (lat2 - lat1)).
Proof.
  intros H. unfold Rabs in *. destruct (Rcase_abs (lat2 - lat1)) as [N | P].
  - rewrite calculate_distance_sym.
    rewrite calculate_distance_same_lon by lra. f_equal. f_equal. lra.
  - apply calculate_distance_same_lon. lra.
Qed.

(** X21.  Two points with latitudes between -90 and 90 degrees are at
    least as far apart as the arc between their latitudes. *)
Theorem calculate_distance_at_least_latitude_arc (lat1 lon1 lat2 lon2 : R) :
  -90 <= lat1 <= 90 -> -90 <= lat2 <= 90 ->
  6371 * radians (Rabs (lat2 - lat1)) <= calculate_distance lat1 lon1 lat2 lon2.
Proof.
  intros [A1 B1] [A2 B2]. unfold Rabs.
  destruct (Rcase_abs (lat2 - lat1)) as [N | P].
  - rewrite calculate_distance_sym.
    replace (- (lat2 - lat1)) with (lat1 - lat2) by lra.
    apply calculate_distance_lower; lra.
  - apply calculate_distance_lower; lra.
Qed.

Lemma Rltb_ext (a b c : R) : a = b -> Rltb a c = Rltb b c.
Proof. now intros ->. Qed.

(** X22.  The proximity test does not depend on the direction of the
    route: exchanging start and end gives the same answer. *)
Theorem is_point_near_route_swap
    (point_lat point_lon start_lat start_lon end_lat end_lon threshold_km : R) :
  is_point_near_route point_lat point_lon start_lat start_lon end_lat end_lon
    threshold_km
  = is_point_near_route point_lat point_lon end_lat end_lon start_lat start_lon
      threshold_km.
Proof.
  unfold is_point_near_route. cbv zeta.
  rewrite (calculate_distance_sym end_lat end_lon start_lat start_lon).
  rewrite (orb_comm (Rltb (calculate_distance point_lat point_lon end_lat end_lon)
                       threshold_km)).
  destruct (_ || _); [reflexivity |].
  apply Rltb_ext. ring.
Qed.

(** X23.  A point that is near the route for one threshold is near it
    for every larger threshold. *)
Theorem is_point_near_route_wider
    (point_lat point_lon start_lat start_lon end_lat end_lon t1 t2 : R) :
  t1 <= t2 ->
  is_point_near_route point_lat point_lon start_lat start_lon end_lat end_lon t1
  = true ->
  is_point_near_route point_lat point_lon start_lat start_lon end_lat end_lon t2
  = true.
Proof.
  intros L. unfold is_point_near_route. cbv zeta.
  set (ds := calculate_distance point_lat point_lon start_lat start_lon).
  set (de := calculate_distance point_lat point_lon end_lat end_lon).
  set (rl := calculate_distance start_lat start_lon end_lat end_lon).
  assert (M : forall x, Rltb x t1 = true -> Rltb x t2 = true).
  { intros x H. apply Rltb_true in H. apply Rltb_true. lra. }
  destruct (Rltb ds t1) eqn:A; [now rewrite (M _ A) |].
  destruct (Rltb de t1) eqn:B;
    [intros _; rewrite (M _ B); now rewrite orb_true_r |].
  cbn [orb]. intros H. rewrite (M _ H).
  now destruct (Rltb ds t2 || Rltb de t2).
Qed.

Lemma Int_part_IZR (z : Z) : Int_part (IZR z) = z.
Proof. symmetry. apply Int_part_spec. lra. Qed.

Lemma round_half_even_IZR (z : Z) : round_half_even (IZR z) = z.
Proof.
  unfold round_half_even. cbv zeta. rewrite Int_part_IZR.
  destruct (Rlt_dec (IZR z - IZR z) (1 / 2)); [reflexivity | lra].
Qed.

Lemma round_half_even_mono (x y : R) :
  x <= y -> (round_half_even x <= round_half_even y)%Z.
Proof.
  intros L.
  pose proof (base_Int_part x) as [Lx Ux].
  pose proof (base_Int_part y) as [Ly Uy].
  assert (F : (Int_part x <= Int_part y)%Z).
  { assert (H : IZR (Int_part x) < IZR (Int_part y) + 1) by lra.
    rewrite <- plus_IZR in H. apply lt_IZR in H. lia. }
  destruct (Z.eq_dec (Int_part x) (Int_part y)) as [E | N].
  - unfold round_half_even. cbv zeta. rewrite E in *.
    destruct (Rlt_dec (x - IZR (Int_part y)) (1 / 2));
    destruct (Rlt_dec (y - IZR (Int_part y)) (1 / 2));
    destruct (Rlt_dec (1 / 2) (x - IZR (Int_part y)));
    destruct (Rlt_dec (1 / 2) (y - IZR (Int_part y)));
    destruct (Z.even (Int_part y)); try lia; lra.
  - assert (F' : (Int_part x + 1 <= Int_part y)%Z) by lia.
    assert (Hx : (round_half_even x <= Int_part x + 1)%Z).
    { unfold round_half_even. cbv zeta.
      destruct (Rlt_dec _ _); [lia |]. destruct (Rlt_dec _ _); [lia |].
      destruct (Z.even _); lia. }
    assert (Hy : (Int_part y <= round_half_even y)%Z).
    { unfold round_half_even. cbv zeta.
      destruct (Rlt_dec _ _); [lia |]. destruct (Rlt_dec _ _); [lia |].
      destruct (Z.even _); lia. }
    lia.
Qed.

(** X24.  Rounding to two decimals moves a number by at most half a
    hundredth, gives a whole number of hundredths, changes nothing when done
    again, and keeps the order of two numbers. *)
Theorem round2_rounds (x : R) :
  x - 1 / 200 <= round2 x <= x + 1 / 200
  /\ (exists z : Z, round2 x = IZR z / 100)
  /\ round2 (round2 x) = round2 x
  /\ (forall y, x <= y -> round2 x <= round2 y).
Proof.
  split; [apply round2_close |]. split; [eexists; reflexivity |]. split.
  - unfold round2 at 1 3.
    replace (round2 x * 100) with (IZR (round_half_even (x * 100)))
      by (unfold round2; field).
    now rewrite round_half_even_IZR.
  - intros y L. unfold round2.
    assert (H : (round_half_even (x * 100) <= round_half_even (y * 100))%Z)
      by (apply round_half_even_mono; lra).
    apply IZR_le in H. lra.
Qed.

Lemma calculate_distance_on_meridian_one_degree :
  Rabs (11 - 10) <= 180
  /\ calculate_distance 10 10 11 10 = 6371 * radians (Rabs (11 - 10)).
Proof.
  assert (H : Rabs (11 - 10) <= 180)
    by (rewrite Rabs_pos_eq by lra; lra).
  split; [exact H |].
  exact (@calculate_distance_on_meridian 10 11 10 H).
Defined.

Lemma calculate_distance_at_least_latitude_arc_chennai_trichy :
  -90 <= 13.0827 <= 90 /\ -90 <= 10.7905 <= 90
  /\ 6371 * radians (Rabs (10.7905 - 13.0827))
     <= calculate_distance 13.0827 80.2707 10.7905 78.7047.
Proof.
  assert (H1 : -90 <= 13.0827 <= 90) by lra.
  assert (H2 : -90 <= 10.7905 <= 90) by lra.
  split; [exact H1 |]. split; [exact H2 |].
  exact (@calculate_distance_at_least_latitude_arc 13.0827 80.2707
           10.7905 78.7047 H1 H2).
Defined.

Lemma near_start_50 :
  is_point_near_route 13.0827 80.2707 13.0827 80.2707 10.7905 78.7047 50 = true.
Proof.
  unfold is_point_near_route. cbv zeta. rewrite calculate_distance_same.
  replace (Rltb 0 50) with true by (symmetry; apply Rltb_true; lra).
  reflexivity.
Qed.

Lemma is_point_near_route_wider_50_80 :
  50 <= 80
  /\ is_point_near_route 13.0827 80.2707 13.0827 80.2707 10.7905 78.7047 80
     = true.
Proof.
  assert (L : 50 <= 80) by lra.
  split; [exact L |].
  exact (@is_point_near_route_wider 13.0827 80.2707 13.0827 80.2707
           10.7905 78.7047 50 80 L near_start_50).
Defined.

(* ================================================================= *)
(** ** The two HTTP wrappers *)

Lemma steps_fold (steps : list (pyval * pyval)) (acc : list raw_waypoint) :
  fold_result (map DirectionsJson.step steps) acc
    (fun waypoints step =>
       and_then (Py.get step "start_location" (PyDict []))
         (fun start_location =>
       and_then (Py.get start_location "lat" PyNone) (fun lat =>
       and_then (Py.get start_location "lng" PyNone) (fun lng =>
       Ok (waypoints ++ [mkRawWaypoint lat lng])))))
  = Ok (acc ++ map (fun l => mkRawWaypoint (fst l) (snd l)) steps).
Proof.
  revert acc. induction steps as [| [la lo] steps IH]; intros acc.
  - cbn. now rewrite app_nil_r.
  - cbn [map fold_result]. cbn [DirectionsJson.step Py.get Py.lookup String.eqb
      Ascii.eqb Bool.eqb and_then fst snd].
    rewrite IH. now rewrite <- app_assoc.
Qed.

Lemma legs_fold (legs : list (list (pyval * pyval))) (acc : list raw_waypoint) :
  fold_result (map DirectionsJson.leg legs) acc
    (fun waypoints leg =>
       and_then (Py.get leg "steps" (PyList [])) (fun steps =>
       and_then (Py.iter steps) (fun steps =>
       fold_result steps waypoints
         (fun waypoints step =>
            and_then (Py.get step "start_location" (PyDict []))
              (fun start_location =>
            and_then (Py.get start_location "lat" PyNone) (fun lat =>
            and_then (Py.get start_location "lng" PyNone) (fun lng =>
            Ok (waypoints ++ [mkRawWaypoint lat lng]))))))))
  = Ok (acc ++ map as_waypoint (List.concat legs)).
Proof.
  revert acc. induction legs as [| steps legs IH]; intros acc.
  - cbn. now rewrite app_nil_r.
  - cbn [map fold_result List.concat].
    cbn [DirectionsJson.leg Py.get Py.lookup String.eqb Ascii.eqb Bool.eqb
         and_then Py.iter].
    rewrite steps_fold. cbn [and_then]. rewrite IH.
    now rewrite map_app, app_assoc.
Qed.

Lemma route_waypoints_found (legs : list (list (pyval * pyval)))
    (others : list (list (list (pyval * pyval)))) :
  route_waypoints (DirectionsJson.found (legs :: others))
  = Ok (map as_waypoint (List.concat legs)).
Proof.
  unfold route_waypoints.
  cbn [DirectionsJson.found DirectionsJson.route map Py.getitem Py.get Py.lookup
       String.eqb Ascii.eqb Bool.eqb and_then Py.first Py.iter].
  now rewrite legs_fold.
Qed.

Section WrapperFacts.

Variable W : Type.
Variable net : network W.

Lemma directions_returns (start_city end_city : string) (w : W) :
  exists r w',
    get_route_from_google_maps_http net start_city end_city w = (Ok r, w').
Proof.
  unfold get_route_from_google_maps_http. cbv zeta.
  destruct (no_key _); [unfold ret; eauto |].
  apply (try_except_returns _ (fun _ => None)).
Qed.

Lemma directions_without_key (start_city end_city : string) (w : W) :
  no_key (getenv net "GOOGLE_API_KEY" w) = true ->
  get_route_from_google_maps_http net start_city end_city w = (Ok None, w).
Proof.
  intros H. unfold get_route_from_google_maps_http. cbv zeta. now rewrite H.
Qed.

Lemma directions_request_raises (start_city end_city api_key : string)
    (w w1 : W) (e : exn) :
  getenv net "GOOGLE_API_KEY" w = Some api_key -> nonempty api_key = true ->
  requests_get net (DirectionsRequest start_city end_city api_key) w
  = (Raise e, w1) ->
  get_route_from_google_maps_http net start_city end_city w = (Ok None, w1).
Proof.
  intros K N R. unfold get_route_from_google_maps_http. cbv zeta.
  rewrite K. cbn [no_key get]. rewrite N. cbn [negb].
  unfold try_except, directions_body, bind. now rewrite R.
Qed.

Lemma directions_answered (start_city end_city api_key : string)
    (w w1 : W) (resp : response) :
  getenv net "GOOGLE_API_KEY" w = Some api_key -> nonempty api_key = true ->
  requests_get net (DirectionsRequest start_city end_city api_key) w
  = (Ok resp, w1) ->
  get_route_from_google_maps_http net start_city end_city w
  = (Ok (if (status_code resp =? 200)%Z then
           match json resp with
           | Ok data =>
             match Py.get data "status" PyNone with
             | Ok status =>
               if Py.eq_str status "OK" then
                 match Py.get data "routes" PyNone with
                 | Ok routes =>
                   if Py.truthy routes then
                     match route_waypoints data with
                     | Ok waypoints => Some waypoints
                     | Raise _ => None
                     end
                   else None
                 | Raise _ => None
                 end
               else None
             | Raise _ => None
             end
           | Raise _ => None
           end
         else None), w1).
Proof.
  intros K N R. unfold get_route_from_google_maps_http. cbv zeta.
  rewrite K. cbn [no_key get]. rewrite N. cbn [negb].
  unfold try_except, directions_body, bind. rewrite R.
  destruct (status_code resp =? 200)%Z; [| reflexivity].
  unfold lift, ret.
  destruct (json resp) as [data | e]; [| reflexivity].
  destruct (Py.get data "status" PyNone) as [status | e] eqn:S; [| reflexivity].
  destruct (Py.eq_str status "OK").
  - destruct (Py.get data "routes" PyNone) as [routes | e]; [| reflexivity].
    destruct (Py.truthy routes).
    + destruct (route_waypoints data); reflexivity.
    + destruct (Py.get data "error_message" PyNone); reflexivity.
  - destruct (Py.get data "error_message" PyNone); reflexivity.
Qed.

End WrapperFacts.

Lemma eq_str_true (v : pyval) (s : string) :
  Py.eq_str v s = true -> v = PyStr s.
Proof.
  destruct v; cbn; try discriminate. intros H.
  apply String.eqb_eq in H. now subst.
Qed.

Lemma get_ok (v x : pyval) (key : string) :
  Py.get v key PyNone = Ok x -> x <> PyNone ->
  exists items, v = PyDict items /\ Py.lookup key items = Some x.
Proof.
  destruct v; cbn; try discriminate. intros E N. exists items.
  split; [reflexivity |].
  destruct (Py.lookup key items) as [y |]; inversion E; subst; congruence.
Qed.

(** X25.  The Directions wrapper returns waypoints only when the request
    was answered with status code 200 and a body that is a dictionary whose
    [status] is "OK" and whose [routes] is not empty; the waypoints are then
    the ones read from that body, and nothing else touched the world. *)
Theorem directions_found_only_if_answered (W : Type) (net : network W)
    (start_city end_city api_key : string) (w w1 w' : W) (resp : response)
    (waypoints : list raw_waypoint) :
  getenv net "GOOGLE_API_KEY" w = Some api_key -> nonempty api_key = true ->
  requests_get net (DirectionsRequest start_city end_city api_key) w
  = (Ok resp, w1) ->
  get_route_from_google_maps_http net start_city end_city w
  = (Ok (Some waypoints), w') ->
  w' = w1
  /\ status_code resp = 200%Z
  /\ exists items routes,
       json resp = Ok (PyDict items)
       /\ Py.lookup "status" items = Some (PyStr "OK")
       /\ Py.lookup "routes" items = Some routes
       /\ Py.truthy routes = true
       /\ route_waypoints (PyDict items) = Ok waypoints.
Proof.
  intros K N R. rewrite (@directions_answered W net _ _ _ _ _ _ K N R).
  destruct (status_code resp =? 200)%Z eqn:S; [| discriminate].
  apply Z.eqb_eq in S.
  destruct (json resp) as [data | e]; [| discriminate].
  destruct (Py.get data "status" PyNone) as [status | e] eqn:Gs; [| discriminate].
  destruct (Py.eq_str status "OK") eqn:Es; [| discriminate].
  apply eq_str_true in Es. subst status.
  destruct (Py.get data "routes" PyNone) as [routes | e] eqn:Gr; [| discriminate].
  destruct (Py.truthy routes) eqn:T; [| discriminate].
  destruct (route_waypoints data) as [wps | e] eqn:Rw; [| discriminate].
  intros E. inversion E; subst. split; [reflexivity |]. split; [exact S |].
  apply get_ok in Gs; [| discriminate]. destruct Gs as [items [-> Ls]].
  apply get_ok in Gr; [| intros ->; discriminate].
  destruct Gr as [items' [Ei Lr]]. inversion Ei; subst items'.
  exists items, routes. auto.
Qed.

(** X26.  From an answer that found routes the Directions wrapper returns
    one waypoint per step of the first route, leg after leg and step after
    step, with the latitude and longitude of the step's start location; the
    other routes are not read. *)
Theorem directions_first_route_decoded (W : Type) (net : network W)
    (start_city end_city api_key : string) (w w1 : W)
    (legs : list (list (pyval * pyval)))
    (others : list (list (list (pyval * pyval)))) :
  getenv net "GOOGLE_API_KEY" w = Some api_key -> nonempty api_key = true ->
  requests_get net (DirectionsRequest start_city end_city api_key) w
  = (Ok (mkResponse 200 (Ok (DirectionsJson.found (legs :: others)))), w1) ->
  get_route_from_google_maps_http net start_city end_city w
  = (Ok (Some (map as_waypoint (List.concat legs))), w1).
Proof.
  intros K N R. rewrite (@directions_answered W net _ _ _ _ _ _ K N R).
  cbn [status_code json Z.eqb Pos.eqb].
  rewrite route_waypoints_found. reflexivity.
Qed.

(** X27.  The Directions wrapper never raises.  Without an API key (the
    variable unset or empty) it returns [None] and makes no request; when the
    request raises, is answered with another status code than 200, or has a
    body that does not parse, it returns [None]. *)
Theorem directions_wrapper_contained (W : Type) (net : network W)
    (start_city end_city : string) (w : W) :
  (exists r w',
      get_route_from_google_maps_http net start_city end_city w = (Ok r, w'))
  /\ (no_key (getenv net "GOOGLE_API_KEY" w) = true ->
      get_route_from_google_maps_http net start_city end_city w = (Ok None, w))
  /\ (forall api_key e w1,
      getenv net "GOOGLE_API_KEY" w = Some api_key -> nonempty api_key = true ->
      requests_get net (DirectionsRequest start_city end_city api_key) w
      = (Raise e, w1) ->
      get_route_from_google_maps_http net start_city end_city w = (Ok None, w1))
  /\ (forall api_key resp w1,
      getenv net "GOOGLE_API_KEY" w = Some api_key -> nonempty api_key = true ->
      requests_get net (DirectionsRequest start_city end_city api_key) w
      = (Ok resp, w1) ->
      status_code resp <> 200%Z \/ (exists e, json resp = Raise e) ->
      get_route_from_google_maps_http net start_city end_city w = (Ok None, w1)).
Proof.
  split; [apply directions_returns |].
  split; [apply directions_without_key |].
  split; [intros; eapply directions_request_raises; eassumption |].
  intros api_key resp w1 K N R H.
  rewrite (@directions_answered W net _ _ _ _ _ _ K N R).
  destruct H as [H | [e H]].
  - apply Z.eqb_neq in H. now rewrite H.
  - rewrite H. now destruct (status_code resp =? 200)%Z.
Qed.

Section ReverseFacts.

Variable W : Type.
Variable net : network W.

Lemma reverse_returns (lat lon : R) (w : W) :
  exists r w', reverse_geocode_http net lat lon w = (Ok r, w').
Proof.
  unfold reverse_geocode_http. cbv zeta.
  destruct (no_key _); [unfold ret; eauto |].
  apply (try_except_returns _ (fun _ => None)).
Qed.

Lemma reverse_without_key (lat lon : R) (w : W) :
  no_key (getenv net "OPENWEATHER_API_KEY" w) = true ->
  reverse_geocode_http net lat lon w = (Ok None, w).
Proof.
  intros H. unfold reverse_geocode_http. cbv zeta. now rewrite H.
Qed.

Lemma reverse_answered (lat lon : R) (api_key : string) (w w1 : W)
    (r : result response) :
  getenv net "OPENWEATHER_API_KEY" w = Some api_key ->
  nonempty api_key = true ->
  requests_get net (ReverseRequest lat lon api_key) w = (r, w1) ->
  reverse_geocode_http net lat lon w
  = (Ok match r with
        | Ok resp =>
          if (status_code resp =? 200)%Z then
            match json resp with
            | Ok (PyList (PyDict items :: _)) =>
              Some (mkRawCityInfo (field_or_empty "name" items)
                      (field_or_empty "state" items)
                      (field_or_empty "country" items))
            | _ => None
            end
          else None
        | Raise _ => None
        end, w1).
Proof.
  intros K N R. unfold reverse_geocode_http. cbv zeta.
  rewrite K. cbn [no_key get]. rewrite N. cbn [negb].
  unfold try_except, reverse_body, bind. rewrite R.
  destruct r as [resp | e]; [| reflexivity].
  destruct (status_code resp =? 200)%Z; [| reflexivity].
  unfold lift, ret.
  destruct (json resp) as [data | e]; [| reflexivity].
  destruct data as [| b | q | s | xs | items]; cbn [Py.truthy Py.len Py.first];
    try reflexivity.
  - destruct b; reflexivity.
  - destruct (negb (Qeq_bool q 0)); reflexivity.
  - destruct s as [| c s]; cbn [nonempty]; [reflexivity |].
    cbn [String.length Nat.ltb Nat.leb Py.get]. reflexivity.
  - destruct xs as [| x xs]; [reflexivity |].
    cbn [List.length Nat.ltb Nat.leb].
    destruct x; cbn [Py.get]; try reflexivity.
  - destruct items as [| i items]; [reflexivity |].
    cbn [List.length Nat.ltb Nat.leb]. reflexivity.
Qed.

End ReverseFacts.

(** X28.  The reverse-geocoding wrapper never raises, and without an API
    key (the variable unset or empty) it returns [None] and makes no
    request. *)
Theorem reverse_wrapper_contained (W : Type) (net : network W)
    (lat lon : R) (w : W) :
  (exists r w', reverse_geocode_http net lat lon w = (Ok r, w'))
  /\ (no_key (getenv net "OPENWEATHER_API_KEY" w) = true ->
      reverse_geocode_http net lat lon w = (Ok None, w)).
Proof. split; [apply reverse_returns | apply reverse_without_key]. Qed.

(** X29.  With an API key, the reverse-geocoding wrapper returns a place
    exactly when the request is answered with status code 200 and a body that
    is a list whose first element is a dictionary; the name, state and
    country are read from that first dictionary, the empty string standing
    for an absent key.  Every other outcome of the request gives [None]. *)
Theorem reverse_wrapper_reads_first_place (W : Type) (net : network W)
    (lat lon : R) (api_key : string) (w w1 : W) (r : result response) :
  getenv net "OPENWEATHER_API_KEY" w = Some api_key ->
  nonempty api_key = true ->
  requests_get net (ReverseRequest lat lon api_key) w = (r, w1) ->
  reverse_geocode_http net lat lon w
  = (Ok match r with
        | Ok resp =>
          if (status_code resp =? 200)%Z then
            match json resp with
            | Ok (PyList (PyDict items :: _)) =>
              Some (mkRawCityInfo (field_or_empty "name" items)
                      (field_or_empty "state" items)
                      (field_or_empty "country" items))
            | _ => None
            end
          else None
        | Raise _ => None
        end, w1).
Proof. apply reverse_answered. Qed.

Lemma reverse_wrapper_online :
  getenv Online.net "OPENWEATHER_API_KEY" tt = Some "secret"%string
  /\ nonempty "secret" = true
  /\ reverse_geocode_http Online.net 12 10 tt
     = (Ok (Some (mkRawCityInfo (PyStr "Farpoint") (PyStr "") (PyStr "NG"))), tt).
Proof.
  split; [reflexivity |]. split; [reflexivity |].
  exact (@reverse_wrapper_reads_first_place unit Online.net 12 10 "secret" tt tt
           (Ok (mkResponse 200 (Ok Online.places_answer)))
           eq_refl eq_refl eq_refl).
Defined.

Lemma reverse_wrapper_keyless :
  no_key (getenv Keyless.net "OPENWEATHER_API_KEY" tt) = true
  /\ reverse_geocode_http Keyless.net 12 10 tt = (Ok None, tt).
Proof.
  split; [reflexivity |].
  destruct (@reverse_wrapper_contained unit Keyless.net 12 10 tt) as (_ & H).
  apply H. reflexivity.
Defined.

Lemma directions_wrapper_keyless :
  no_key (getenv Keyless.net "GOOGLE_API_KEY" tt) = true
  /\ get_route_from_google_maps_http Keyless.net "Startville" "Endville" tt
     = (Ok None, tt).
Proof.
  split; [reflexivity |].
  destruct (@directions_wrapper_contained unit Keyless.net
              "Startville" "Endville" tt) as (_ & H & _).
  apply H. reflexivity.
Defined.

Lemma directions_first_route_online :
  getenv Online.net "GOOGLE_API_KEY" tt = Some "secret"%string
  /\ nonempty "secret" = true
  /\ get_route_from_google_maps_http Online.net "Startville" "Endville" tt
     = (Ok (Some [mkRawWaypoint (PyNum 10) (PyNum 10);
                  mkRawWaypoint (PyNum 10.5) (PyNum 10);
                  mkRawWaypoint (PyNum 11) (PyNum 10)]), tt).
Proof.
  split; [reflexivity |]. split; [reflexivity |].
  exact (@directions_first_route_decoded unit Online.net
           "Startville" "Endville" "secret" tt tt
           [ [ (PyNum 10, PyNum 10); (PyNum 10.5, PyNum 10) ];
             [ (PyNum 11, PyNum 10) ] ]
           [ [ [ (PyNum 10, PyNum 10) ] ] ]
           eq_refl eq_refl eq_refl).
Defined.

Lemma directions_found_online :
  exists items routes,
    Ok Online.directions_answer = Ok (PyDict items)
    /\ Py.lookup "status" items = Some (PyStr "OK")
    /\ Py.lookup "routes" items = Some routes
    /\ Py.truthy routes = true
    /\ route_waypoints (PyDict items)
       = Ok [mkRawWaypoint (PyNum 10) (PyNum 10);
             mkRawWaypoint (PyNum 10.5) (PyNum 10);
             mkRawWaypoint (PyNum 11) (PyNum 10)].
Proof.
  destruct (@directions_found_only_if_answered unit Online.net
              "Startville" "Endville" "secret" tt tt tt
              (mkResponse 200 (Ok Online.directions_answer))
              [mkRawWaypoint (PyNum 10) (PyNum 10);
               mkRawWaypoint (PyNum 10.5) (PyNum 10);
               mkRawWaypoint (PyNum 11) (PyNum 10)]
              eq_refl eq_refl eq_refl) as (_ & _ & H).
  - unfold get_route_from_google_maps_http. cbv zeta.
    cbn [Online.net getenv no_key nonempty negb get].
    unfold try_except, directions_body, bind.
    cbn [Online.net requests_get answer ret status_code json Z.eqb Pos.eqb lift].
    reflexivity.
  - exact H.
Defined.
